(** * PAS inventory backend: controllers over a document store

    A shallow embedding of the Express/Mongoose controllers of the
    repository (rack, team, master-description and export-snapshot
    controllers, plus the [authorize] middleware and the rack router),
    followed by the properties established for them.

    Conventions of the embedding.
    - A collection is the list of its documents in insertion order.
    - An ObjectId is its canonical 24-digit hexadecimal string; the
      [a.toString() === b.toString()] comparisons of the source are
      string equalities.  An id of a request is looked up as it is
      written; [addTeamMember], which reads one id both through a cast
      and as a string, has the cast written out ([canonical]).
    - The library is mongoose 7 or later: [ObjectId.isValid] accepts
      24 hexadecimal digits only, and [ObjectId] is a class.
    - Requests are handled one at a time: a handler runs from its
      first round trip to its answer without another one in between.
    - JavaScript numbers are integers ([Z]); request bodies are typed
      records whose absent fields are [None].
    - A handler is a computation in the monad [M]: it threads the state
      of the store, may throw, and returns the HTTP response it sends.
    - Every [await]ed store call is one round trip; the [faults] plan of
      the world says which round trips fail.  A failing round trip throws
      before it has any effect. *)

From Stdlib Require Import String Ascii List ZArith Bool Arith Lia Permutation Sorted.
From Stdlib Require Import DecimalString.
Import ListNotations.
Local Open Scope string_scope.
Local Open Scope list_scope.

(** ** Identifiers *)

Definition ObjectId := string.

Definition is_hex (c : ascii) : bool :=
  let n := nat_of_ascii c in
  ((48 <=? n)%nat && (n <=? 57)%nat) || ((97 <=? n)%nat && (n <=? 102)%nat)
  || ((65 <=? n)%nat && (n <=? 70)%nat).

(** [mongoose.Types.ObjectId.isValid] / [mongoose.isValidObjectId] on a
    string taken from the URL: 24 hexadecimal digits. *)
Definition isValidObjectId (s : string) : bool :=
  (String.length s =? 24)%nat && forallb is_hex (list_ascii_of_string s).

(** The string an ObjectId prints as, whatever the case its hexadecimal
    digits were written in: [toString()] gives lower case. *)
Definition lower_hex (c : ascii) : ascii :=
  let n := nat_of_ascii c in
  if (65 <=? n)%nat && (n <=? 70)%nat then ascii_of_nat (n + 32) else c.

Definition canonical (s : string) : ObjectId :=
  string_of_list_ascii (map lower_hex (list_ascii_of_string s)).

(** JavaScript truthiness of an optional string: [undefined] and the
    empty string are falsy. *)
Definition truthy (s : option string) : bool :=
  match s with
  | None => false
  | Some v => negb (v =? "")
  end.

Definition is_space (c : ascii) : bool :=
  let n := nat_of_ascii c in
  (n =? 32)%nat || ((9 <=? n)%nat && (n <=? 13)%nat).

Fixpoint trimStart (s : string) : string :=
  match s with
  | EmptyString => EmptyString
  | String c r => if is_space c then trimStart r else s
  end.

Fixpoint trimEnd (s : string) : string :=
  match s with
  | EmptyString => EmptyString
  | String c r =>
      let r' := trimEnd r in
      if is_space c && (r' =? "") then EmptyString else String c r'
  end.

(** [String.prototype.trim], the setter behind [trim: true]. *)
Definition trim (s : string) : string := trimEnd (trimStart s).

Definition or_else {A} (o : option A) (d : A) : A :=
  match o with
  | Some a => a
  | None => d
  end.

Definition or_keep {A} (o : option A) (d : option A) : option A :=
  match o with
  | Some a => Some a
  | None => d
  end.

Definition opt_eqb (a : option ObjectId) (b : ObjectId) : bool :=
  match a with
  | Some x => x =? b
  | None => false
  end.

(** ** Documents *)

Module User.
(** Modelled from the spec: models/User.js is not part of the sources;
    a user has an id, a role string and an e-mail address. *)
Record doc := { _id : ObjectId; role : string; email : string }.
End User.

Module Team.
(** Modelled from the spec: models/Team.js is not part of the sources;
    the fields are the ones the controllers read and write, with a
    nullable [teamLeader]. *)
Record doc := {
  _id : ObjectId;
  siteName : string;
  location : string;
  description : option string;
  isNewSite : bool;
  teamLeader : option ObjectId;
  members : list ObjectId;
  status : string
}.

(** A request body addressed to the team endpoints. *)
Record body := {
  b_siteName : option string;
  b_location : option string;
  b_description : option string;
  b_isNewSite : option bool;
  b_members : option (list string);
  b_leader : option string;
  b_status : option string
}.
End Team.

Module Rack.
(** models/Rack.js, with the timestamp the aggregation sorts on. *)
Record doc := {
  _id : ObjectId;
  rackNo : string;
  partNo : string;
  mrp : option Z;
  nextQty : Z;
  location : string;
  siteName : string;
  scannedBy : ObjectId;
  team : ObjectId;
  masterDescription : option string;
  ndp : option Z;
  createdAt : Z
}.

(** A request body addressed to the rack endpoints: every schema path
    may be present. *)
Record body := {
  b_rackNo : option string;
  b_partNo : option string;
  b_mrp : option Z;
  b_nextQty : option Z;
  b_location : option string;
  b_siteName : option string;
  b_scannedBy : option string;
  b_team : option string;
  b_masterDescription : option string;
  b_ndp : option Z
}.

Definition location_enum : list string := ["ACCESSORIES"; "SPARES"].

Definition in_enum (s : string) : bool :=
  existsb (String.eqb s) location_enum.

(** Document validation run by [Rack.create]: required strings are not
    empty and [location] is one of the enumerated values. *)
Definition validate (r : doc) : bool :=
  negb (rackNo r =? "") && negb (partNo r =? "")
  && negb (siteName r =? "") && in_enum (location r).
End Rack.

Module MasterDescription.
(** Modelled from the spec: models/Materialdesc.js is not part of the
    sources; a catalog row with its batch linkage fields. *)
Record doc := {
  partNo : option string;
  description : option string;
  ndp : option Z;
  mrp : option Z;
  uploadBatch : option string;
  fileId : option ObjectId;
  uploadedFileId : option ObjectId
}.
End MasterDescription.

Module UploadMetadata.
(** Modelled from the spec: models/uploadmetadata.js is not part of
    the sources; one ledger entry per bulk upload. *)
Record doc := {
  _id : ObjectId;
  filename : string;
  totalReceived : option nat;
  recordCount : option nat;
  uploadedBy : option ObjectId;
  uploadedByEmail : option string;
  uploadDate : Z
}.

Definition set_recordCount (n : nat) (m : doc) : doc :=
  {| _id := _id m; filename := filename m;
     totalReceived := totalReceived m; recordCount := Some n;
     uploadedBy := uploadedBy m; uploadedByEmail := uploadedByEmail m;
     uploadDate := uploadDate m |}.
End UploadMetadata.

Module SnapshotItem.
(** One line item of the export request body.  Besides the fields the
    controller copies, an item may carry fields of its own named
    [team], [siteName] and [exportedBy]. *)
Record t := {
  sNo : option Z;
  location : option string;
  rackNo : option string;
  partNo : option string;
  nextQty : option Z;
  mrp : option Z;
  ndp : option Z;
  materialDescription : option string;
  team : option string;
  siteName : option string;
  exportedBy : option string
}.
End SnapshotItem.

Module SnapshotToSave.
(** The object literal built for each line item. *)
Record t := {
  sNo : option Z;
  location : option string;
  rackNo : option string;
  partNo : option string;
  nextQty : option Z;
  mrp : option Z;
  ndp : option Z;
  materialDescription : option string;
  team : string;
  siteName : string;
  exportedBy : ObjectId
}.
End SnapshotToSave.

Module ExportedRack.
(** models/ExportedRackSnapshot.js *)
Record doc := {
  sNo : Z;
  location : string;
  rackNo : string;
  partNo : string;
  nextQty : Z;
  mrp : option Z;
  ndp : option Z;
  materialDescription : string;
  exportedAt : Z;
  team : ObjectId;
  siteName : string;
  exportedBy : ObjectId
}.

Definition min0 (v : option Z) : bool :=
  match v with
  | Some z => (0 <=? z)%Z
  | None => true
  end.

(** Construction of a document from an object literal: setters
    ([trim]), defaults, then the validators ([required], [min]). *)
Definition cast (now : Z) (s : SnapshotToSave.t) : option doc :=
  match SnapshotToSave.sNo s, SnapshotToSave.location s,
        SnapshotToSave.rackNo s, SnapshotToSave.partNo s,
        SnapshotToSave.nextQty s with
  | Some sNo, Some location, Some rackNo, Some partNo, Some nextQty =>
      let location := trim location in
      let rackNo := trim rackNo in
      let partNo := trim partNo in
      let siteName := trim (SnapshotToSave.siteName s) in
      if negb (location =? "") && negb (rackNo =? "")
         && negb (partNo =? "") && negb (siteName =? "")
         && (0 <=? nextQty)%Z
         && min0 (SnapshotToSave.mrp s) && min0 (SnapshotToSave.ndp s)
         && isValidObjectId (SnapshotToSave.team s)
      then
        Some {| sNo := sNo; location := location; rackNo := rackNo;
                partNo := partNo; nextQty := nextQty;
                mrp := SnapshotToSave.mrp s;
                ndp := SnapshotToSave.ndp s;
                materialDescription :=
                  match SnapshotToSave.materialDescription s with
                  | Some m => trim m
                  | None => ""
                  end;
                exportedAt := now;
                team := SnapshotToSave.team s;
                siteName := siteName;
                exportedBy := SnapshotToSave.exportedBy s |}
      else None
  | _, _, _, _, _ => None
  end.
End ExportedRack.

(** ** The store and the handler monad *)

Record Db := {
  users : list User.doc;
  teams : list Team.doc;
  racks : list Rack.doc;
  masterdescriptions : list MasterDescription.doc;
  uploadmetadatas : list UploadMetadata.doc;
  exportedracks : list ExportedRack.doc
}.

Definition set_teams (f : list Team.doc -> list Team.doc) (d : Db) : Db :=
  {| users := users d; teams := f (teams d); racks := racks d;
     masterdescriptions := masterdescriptions d;
     uploadmetadatas := uploadmetadatas d;
     exportedracks := exportedracks d |}.

Definition set_racks (f : list Rack.doc -> list Rack.doc) (d : Db) : Db :=
  {| users := users d; teams := teams d; racks := f (racks d);
     masterdescriptions := masterdescriptions d;
     uploadmetadatas := uploadmetadatas d;
     exportedracks := exportedracks d |}.

Definition set_masterdescriptions
    (f : list MasterDescription.doc -> list MasterDescription.doc)
    (d : Db) : Db :=
  {| users := users d; teams := teams d; racks := racks d;
     masterdescriptions := f (masterdescriptions d);
     uploadmetadatas := uploadmetadatas d;
     exportedracks := exportedracks d |}.

Definition set_uploadmetadatas
    (f : list UploadMetadata.doc -> list UploadMetadata.doc) (d : Db) : Db :=
  {| users := users d; teams := teams d; racks := racks d;
     masterdescriptions := masterdescriptions d;
     uploadmetadatas := f (uploadmetadatas d);
     exportedracks := exportedracks d |}.

Definition set_exportedracks
    (f : list ExportedRack.doc -> list ExportedRack.doc) (d : Db) : Db :=
  {| users := users d; teams := teams d; racks := racks d;
     masterdescriptions := masterdescriptions d;
     uploadmetadatas := uploadmetadatas d;
     exportedracks := f (exportedracks d) |}.

(** [db] is what every client observes.  [txn] is the private view of
    the transaction in progress, [sessions] counts the client sessions
    that were started and not yet ended, [faults] is the fault plan. *)
Record World := {
  db : Db;
  txn : option Db;
  sessions : nat;
  faults : list bool
}.

Inductive Outcome (A : Type) : Type :=
| Ret (a : A)
| Throw (err : string).
Arguments Ret {A} a.
Arguments Throw {A} err.

Definition M (A : Type) : Type := World -> Outcome A * World.

Definition ret {A} (a : A) : M A := fun w => (Ret a, w).

Definition throw {A} (err : string) : M A := fun w => (Throw err, w).

Definition bind {A B} (m : M A) (k : A -> M B) : M B :=
  fun w =>
    match m w with
    | (Ret a, w') => k a w'
    | (Throw e, w') => (Throw e, w')
    end.

Declare Scope handler_scope.
Delimit Scope handler_scope with handler.
Notation "x <- m ;; k" := (bind m (fun x => k))
  (at level 100, m at next level, right associativity) : handler_scope.
Notation "m ;;; k" := (bind m (fun _ => k))
  (at level 100, right associativity) : handler_scope.
Local Open Scope handler_scope.

(** [try { body } catch (err) { handler }] *)
Definition try_catch {A} (body : M A) (handler : string -> M A) : M A :=
  fun w =>
    match body w with
    | (Ret a, w') => (Ret a, w')
    | (Throw e, w') => handler e w'
    end.

(** [try { body } finally { cleanup }]: the cleanup runs on every exit
    path, and an exception of the cleanup replaces the outcome. *)
Definition finally {A} (body : M A) (cleanup : M unit) : M A :=
  fun w =>
    match body w with
    | (r, w') =>
        match cleanup w' with
        | (Ret _, w'') => (r, w'')
        | (Throw e, w'') => (Throw e, w'')
        end
    end.

(** The world once the store has served one more round trip. *)
Definition served (w : World) : World :=
  {| db := db w; txn := txn w; sessions := sessions w;
     faults := tl (faults w) |}.

(** One round trip to the store: it consumes one entry of the fault
    plan; an exhausted plan holds no more faults. *)
Definition roundtrip : M unit :=
  fun w =>
    match faults w with
    | true :: _ => (Throw "store failure", served w)
    | _ => (Ret tt, served w)
    end.

(** A query outside any session reads the committed collections. *)
Definition query {A} (f : Db -> A) : M A :=
  roundtrip ;;; fun w => (Ret (f (db w)), w).

(** A write outside any session is observable at once. *)
Definition update (f : Db -> Db) : M unit :=
  roundtrip ;;;
  fun w =>
    (Ret tt,
     {| db := f (db w); txn := txn w; sessions := sessions w;
        faults := faults w |}).

(** Client-side cast of a string to an ObjectId. *)
Definition castObjectId (s : string) : M ObjectId :=
  if isValidObjectId s then ret s else throw "CastError".

(** [mongoose.Types.ObjectId(s)], called without [new].  [ObjectId] is
    a class (mongoose 7 and later, the versions in which [isValid]
    accepts 24 hexadecimal digits only), and a class called as a
    function throws a TypeError whatever the argument. *)
Definition ObjectId_without_new (s : string) : M ObjectId :=
  throw "Class constructor ObjectId cannot be invoked without 'new'".

(** ** Responses *)

Record PopulatedTeam := {
  pt_team : Team.doc;
  pt_teamLeader : option User.doc;
  pt_members : list User.doc
}.

Record RackView := {
  rv_rack : Rack.doc;
  rv_materialDescription : option string;
  rv_ndp : option Z;
  rv_mrp : option Z;
  rv_team : option Team.doc;
  rv_scannedBy : option User.doc
}.

Inductive Payload : Type :=
| NoPayload
| EmptyObject
| RackCreated (rack : Rack.doc)
| RackUpdated (rack : option Rack.doc)
| RackList (count : nat) (data : list RackView)
| RackOne (data : RackView)
| TeamPopulated (team : option PopulatedTeam)
| TeamData (team : Team.doc)
| Uploaded (fileId : ObjectId) (insertedCount : nat)
| UploadedCount (count : nat)
| Deleted (deletedRecordsCount : nat)
| SnapshotCount (count : nat).

Record Response := {
  status : nat;
  success : option bool;
  message : option string;
  payload : Payload
}.

Definition fail (code : nat) (msg : string) : Response :=
  {| status := code; success := Some false; message := Some msg;
     payload := NoPayload |}.

(** The envelope of the endpoints that answer with a list of documents. *)
Record ListResponse (A : Type) := {
  ls_status : nat;
  ls_success : option bool;
  ls_message : option string;
  ls_items : list A
}.
Arguments ls_status {A} _.
Arguments ls_success {A} _.
Arguments ls_message {A} _.
Arguments ls_items {A} _.

Definition fail_list {A} (code : nat) (msg : string) : ListResponse A :=
  {| ls_status := code; ls_success := Some false; ls_message := Some msg;
     ls_items := [] |}.

Definition ok_list {A} (items : list A) : ListResponse A :=
  {| ls_status := 200; ls_success := Some true; ls_message := None;
     ls_items := items |}.

(** Modelled from the spec: middleware/asyncHandler.js is not part of
    the sources; a rejected handler promise reaches the error handler,
    which answers with the store-failure status 500. *)
Definition asyncHandler (h : M Response) : M Response :=
  try_catch h (fun e => ret (fail 500 e)).

(** ** Queries shared by the controllers *)

(** [Model.findById(id)]: the id is cast, then the first document with
    that [_id] is returned, or [null]. *)
Definition Team_findById (id : string) : M (option Team.doc) :=
  oid <- castObjectId id ;;
  query (fun d => find (fun t => Team._id t =? oid) (teams d)).

Definition User_findById (id : string) : M (option User.doc) :=
  oid <- castObjectId id ;;
  query (fun d => find (fun u => User._id u =? oid) (users d)).

(** [.populate('teamLeader', ...).populate('members', ...)]: references
    are replaced by the users they resolve to; dangling member
    references are dropped. *)
Definition populate (d : Db) (t : Team.doc) : PopulatedTeam :=
  {| pt_team := t;
     pt_teamLeader :=
       match Team.teamLeader t with
       | Some l => find (fun u => User._id u =? l) (users d)
       | None => None
       end;
     pt_members :=
       flat_map
         (fun m =>
            match find (fun u => User._id u =? m) (users d) with
            | Some u => [u]
            | None => []
            end)
         (Team.members t) |}.

Definition Team_findById_populated (id : string)
  : M (option PopulatedTeam) :=
  team <- Team_findById id ;;
  roundtrip ;;;
  query (fun d => option_map (populate d) team).

Fixpoint replace_team (t : Team.doc) (l : list Team.doc) : list Team.doc :=
  match l with
  | [] => []
  | x :: r =>
      if Team._id x =? Team._id t then t :: r else x :: replace_team t r
  end.

(** [team.save()] on a document obtained from the collection. *)
Definition Team_save (t : Team.doc) : M unit :=
  update (set_teams (replace_team t)).

(** Cast of every id of a list, as a query over [$in] does. *)
Definition castObjectIds (ids : list string) : M (list ObjectId) :=
  if forallb isValidObjectId ids then ret ids else throw "CastError".

(** [User.find({ _id: { $in: ids } })] *)
Definition User_find_in (ids : list string) : M (list User.doc) :=
  oids <- castObjectIds ids ;;
  query (fun d =>
           filter (fun u => existsb (String.eqb (User._id u)) oids) (users d)).

(** [new Team(doc).save()] *)
Definition Team_insert (t : Team.doc) : M unit :=
  update (set_teams (fun l => l ++ [t])).

Fixpoint remove_team (id : ObjectId) (l : list Team.doc) : list Team.doc :=
  match l with
  | [] => []
  | x :: r => if Team._id x =? id then r else x :: remove_team id r
  end.

(** [team.deleteOne()] *)
Definition Team_deleteOne (t : Team.doc) : M unit :=
  update (set_teams (remove_team (Team._id t))).

(** [Team.findById(oid).populate(..).populate(..)] on an ObjectId the
    store produced. *)
Definition Team_populated (oid : ObjectId) : M (option PopulatedTeam) :=
  team <- query (fun d => find (fun t => Team._id t =? oid) (teams d)) ;;
  roundtrip ;;;
  query (fun d => option_map (populate d) team).

(** [Team.find(filter).populate(..).populate(..)] *)
Definition Team_find_populated (p : Team.doc -> bool)
  : M (list PopulatedTeam) :=
  found <- query (fun d => filter p (teams d)) ;;
  roundtrip ;;;
  query (fun d => map (populate d) found).

(** ** controllers/teamcontroller.js *)

Module teamcontroller.

Definition isTeamLeaderOrAdmin (user : User.doc) (team : Team.doc) : bool :=
  (User.role user =? "admin")
  || ((User.role user =? "team_leader")
      && opt_eqb (Team.teamLeader team) (User._id user)).

Definition with_members (ms : list ObjectId) (t : Team.doc) : Team.doc :=
  {| Team._id := Team._id t; Team.siteName := Team.siteName t;
     Team.location := Team.location t;
     Team.description := Team.description t;
     Team.isNewSite := Team.isNewSite t;
     Team.teamLeader := Team.teamLeader t;
     Team.members := ms; Team.status := Team.status t |}.

(** PUT /api/teams/:id/add-member

    [memberId] is read three times: [User.findById] and [members.push]
    cast it to an ObjectId, so they see its [canonical] form, while
    [members.includes] compares it, as the string it is, with what the
    stored ids print as. *)
Definition addTeamMember (user : User.doc) (id memberId : string)
  : M Response :=
  try_catch
    (team <- Team_findById id ;;
     match team with
     | None => ret (fail 404 "Team not found")
     | Some team =>
         if negb (isTeamLeaderOrAdmin user team)
         then ret (fail 403 "Not authorized to modify this team")
         else
           memberUser <- User_findById (canonical memberId) ;;
           match memberUser with
           | None => ret (fail 404 "Member user not found")
           | Some memberUser =>
               if negb (User.role memberUser =? "team_member")
               then ret (fail 400 "Only Team Members can be added to a team.")
               else if existsb (String.eqb memberId) (Team.members team)
               then ret (fail 400 "User is already a member of this team.")
               else
                 let team :=
                   with_members (Team.members team ++ [canonical memberId])
                     team in
                 Team_save team ;;;
                 populatedTeam <- Team_findById_populated (Team._id team) ;;
                 ret {| status := 200; success := Some true;
                        message := Some "Member added successfully";
                        payload := TeamPopulated populatedTeam |}
           end
     end)
    (fun _ => ret (fail 500 "Server error adding member")).

(** PUT /api/teams/:id/remove-member *)
Definition removeTeamMember (user : User.doc) (id memberId : string)
  : M Response :=
  try_catch
    (team <- Team_findById id ;;
     match team with
     | None => ret (fail 404 "Team not found")
     | Some team =>
         if negb (isTeamLeaderOrAdmin user team)
         then ret (fail 403 "Not authorized to modify this team")
         else
           let initialLength := List.length (Team.members team) in
           let team :=
             with_members
               (filter (fun member => negb (member =? memberId))
                  (Team.members team)) team in
           if (List.length (Team.members team) =? initialLength)%nat
           then ret (fail 400 "User is not a member of this team.")
           else
             Team_save team ;;;
             populatedTeam <- Team_findById_populated (Team._id team) ;;
             ret {| status := 200; success := Some true;
                    message := Some "Member removed successfully";
                    payload := TeamPopulated populatedTeam |}
     end)
    (fun _ => ret (fail 500 "Server error removing member")).

Definition completed (t : Team.doc) : Team.doc :=
  {| Team._id := Team._id t; Team.siteName := Team.siteName t;
     Team.location := Team.location t;
     Team.description := Team.description t;
     Team.isNewSite := Team.isNewSite t;
     Team.teamLeader := None;
     Team.members := []; Team.status := "Completed" |}.

(** PUT /api/teams/:id/complete *)
Definition completeTeamWork (user : User.doc) (teamId : string)
  : M Response :=
  try_catch
    (team <- Team_findById teamId ;;
     match team with
     | None =>
         ret (fail 404 ("Team not found with ID of " ++ teamId)%string)
     | Some team =>
         let isAuthorized :=
           (User.role user =? "admin")
           || ((User.role user =? "team_leader")
               && opt_eqb (Team.teamLeader team) (User._id user)) in
         if negb isAuthorized
         then ret (fail 403 "Not authorized to complete work for this team.")
         else
           let team := completed team in
           Team_save team ;;;
           ret {| status := 200; success := Some true;
                  message :=
                    Some ("Team '" ++ Team.siteName team
                          ++ "' work    . Members and leader cleared, status set to 'completed'.")%string;
                  payload := TeamData team |}
     end)
    (fun _ => ret (fail 500 "Server error completing team work")).

(** The validation of the supplied [members], written out in both
    [createTeam] and [updateTeam]: every id must resolve to a user, and
    every such user must hold the role team_member.  The result is the
    refusal to send, if any. *)
Definition checkMembers (members : option (list string))
  : M (option Response) :=
  match members with
  | Some (m :: ms) =>
      let members := m :: ms in
      memberUsers <- User_find_in members ;;
      if negb (List.length memberUsers =? List.length members)%nat
      then ret (Some (fail 400 "One or more provided member IDs are invalid."))
      else
        let invalidRoleMembers :=
          filter (fun user => negb (User.role user =? "team_member"))
            memberUsers in
        if (0 <? List.length invalidRoleMembers)%nat
        then ret (Some (fail 400 "Only users with the 'team_member' role can be added to a team."))
        else ret None
  | _ => ret None
  end.

(** POST /api/teams.  [newId] is the [_id] of the new document. *)
Definition createTeam (newId : ObjectId) (user : User.doc)
    (body : Team.body) : M Response :=
  let currentUserRole := User.role user in
  let currentUserId := User._id user in
  if negb (truthy (Team.b_siteName body))
     || negb (truthy (Team.b_location body))
  then ret (fail 400 "Site Name and Location are required")
  else
    try_catch
      (leader <-
         (if currentUserRole =? "admin" then
            if negb (truthy (Team.b_leader body))
            then ret (inr (fail 400 "Admin must explicitly select a team leader."))
            else
              let teamLeaderId := or_else (Team.b_leader body) "" in
              specifiedLeader <- User_findById teamLeaderId ;;
              match specifiedLeader with
              | Some specifiedLeader =>
                  if negb (User.role specifiedLeader =? "team_leader")
                     && negb (User.role specifiedLeader =? "admin")
                  then ret (inr (fail 400 "Provided leader ID is invalid or not a team leader/admin."))
                  else ret (inl teamLeaderId)
              | None =>
                  ret (inr (fail 400 "Provided leader ID is invalid or not a team leader/admin."))
              end
          else if currentUserRole =? "team_leader" then
            if truthy (Team.b_leader body)
               && negb (or_else (Team.b_leader body) "" =? currentUserId)
            then ret (inr (fail 403 "Team leaders can only create teams with themselves as the leader."))
            else ret (inl currentUserId)
          else ret (inr (fail 403 "Not authorized to create teams."))) ;;
       match leader with
       | inr refusal => ret refusal
       | inl teamLeaderId =>
           refusal <- checkMembers (Team.b_members body) ;;
           match refusal with
           | Some refusal => ret refusal
           | None =>
               let team :=
                 {| Team._id := newId;
                    Team.siteName := or_else (Team.b_siteName body) "";
                    Team.location := or_else (Team.b_location body) "";
                    Team.description := Team.b_description body;
                    Team.isNewSite := or_else (Team.b_isNewSite body) false;
                    Team.teamLeader := Some teamLeaderId;
                    Team.members := or_else (Team.b_members body) [];
                    Team.status := "Active" |} in
               Team_insert team ;;;
               populatedTeam <- Team_populated (Team._id team) ;;
               ret {| status := 201; success := Some true;
                      message := Some "Team created successfully";
                      payload := TeamPopulated populatedTeam |}
           end
       end)
      (fun _ => ret (fail 500 "Server error creating team")).

(** GET /api/teams/member/:memberId *)
Definition getTeamsForMember (user : User.doc) (memberId : string)
  : M (ListResponse PopulatedTeam) :=
  if negb (User._id user =? memberId)
     && negb (User.role user =? "admin")
     && negb (User.role user =? "team_leader")
  then ret (fail_list 403 "Not authorized to view these teams for another user.")
  else
    try_catch
      (oid <- castObjectId memberId ;;
       teams <- Team_find_populated
                  (fun t =>
                     existsb (fun m => m =? oid) (Team.members t)
                     && (Team.status t =? "Active")) ;;
       ret (ok_list teams))
      (fun _ => ret (fail_list 500 "Server error fetching teams for member")).

(** GET /api/teams/leader/:leaderId *)
Definition getTeamsByLeaderId (user : User.doc) (leaderId : string)
  : M (ListResponse PopulatedTeam) :=
  if negb (User.role user =? "admin") && negb (User._id user =? leaderId)
  then ret (fail_list 403 "Not authorized to view teams for this leader ID.")
  else
    try_catch
      (oid <- castObjectId leaderId ;;
       teams <- Team_find_populated
                  (fun t => opt_eqb (Team.teamLeader t) oid) ;;
       ret (ok_list teams))
      (fun _ => ret (fail_list 500 "Server error fetching teams by leader ID")).

(** The partial-field merge of [updateTeam]. *)
Definition merged (body : Team.body) (team : Team.doc) : Team.doc :=
  {| Team._id := Team._id team;
     Team.siteName :=
       if truthy (Team.b_siteName body)
       then or_else (Team.b_siteName body) "" else Team.siteName team;
     Team.location :=
       if truthy (Team.b_location body)
       then or_else (Team.b_location body) "" else Team.location team;
     Team.description :=
       match Team.b_description body with
       | Some description => Some description
       | None => Team.description team
       end;
     Team.isNewSite := or_else (Team.b_isNewSite body) (Team.isNewSite team);
     Team.teamLeader := Team.teamLeader team;
     Team.members := or_else (Team.b_members body) (Team.members team);
     Team.status :=
       if truthy (Team.b_status body)
       then or_else (Team.b_status body) "" else Team.status team |}.

(** PUT /api/teams/:id *)
Definition updateTeam (user : User.doc) (id : string) (body : Team.body)
  : M Response :=
  try_catch
    (team <- Team_findById id ;;
     match team with
     | None => ret (fail 404 "Team not found")
     | Some team =>
         denied <-
           (if negb (User.role user =? "admin") then
              match Team.teamLeader team with
              | Some teamLeader => ret (negb (teamLeader =? User._id user))
              | None => throw "TypeError"
              end
            else ret false) ;;
         if (denied : bool)
         then ret (fail 403 "Not authorized to update this team.")
         else
           refusal <- checkMembers (Team.b_members body) ;;
           match refusal with
           | Some refusal => ret refusal
           | None =>
               let team := merged body team in
               Team_save team ;;;
               populatedTeam <- Team_populated (Team._id team) ;;
               ret {| status := 200; success := Some true;
                      message := Some "Team updated successfully";
                      payload := TeamPopulated populatedTeam |}
           end
     end)
    (fun _ => ret (fail 500 "Server error updating team")).

(** DELETE /api/teams/:id *)
Definition deleteTeam (user : User.doc) (id : string) : M Response :=
  try_catch
    (team <- Team_findById id ;;
     match team with
     | None => ret (fail 404 "Team not found")
     | Some team =>
         if negb (isTeamLeaderOrAdmin user team)
         then ret (fail 403 "Not authorized to delete this team")
         else
           Team_deleteOne team ;;;
           ret {| status := 200; success := Some true;
                  message := Some "Team deleted successfully";
                  payload := NoPayload |}
     end)
    (fun _ => ret (fail 500 "Server error deleting team")).

End teamcontroller.

(** ** middleware/authMiddleware.js *)

Module authMiddleware.

(** What the bearer header amounts to once the token service has
    looked at it: no usable header, a token that fails verification,
    or a verified token carrying a user id. *)
Inductive Credential : Type :=
| NoToken
| BadToken
| Token (id : string).

Definition unauthorized (msg : string) : Response :=
  {| status := 401; success := None; message := Some msg;
     payload := NoPayload |}.

(** [protect]: attaches [req.user] and calls the next handler. *)
Definition protect (c : Credential) (next : option User.doc -> M Response)
  : M Response :=
  match c with
  | Token id =>
      found <- try_catch
                 (user <- User_findById id ;; ret (inl user))
                 (fun _ =>
                    ret (inr (unauthorized "Not authorized, token failed"))) ;;
      match found with
      | inl user => next user
      | inr r => ret r
      end
  | BadToken => ret (unauthorized "Not authorized, token failed")
  | NoToken => ret (unauthorized "Not authorized, no token")
  end.

(** [authorize(roles)]: restricts a route to the listed roles. *)
Definition authorize (roles : list string) (user : option User.doc)
    (next : User.doc -> M Response) : M Response :=
  match user with
  | None => ret (fail 401 "Not authenticated. User data missing.")
  | Some u =>
      if negb (existsb (String.eqb (User.role u)) roles)
      then ret (fail 403 ("User role " ++ User.role u
                          ++ " is not authorized to access this route")%string)
      else next u
  end.

End authMiddleware.

(** ** Queries of the Rack model *)

Definition Team_findOne_siteName (siteName : string) : M (option Team.doc) :=
  query (fun d => find (fun t => Team.siteName t =? siteName) (teams d)).

(** [Team.find({ teamLeader: id }).select('_id')] followed by
    [.map(t => t._id)] *)
Definition Team_find_led (id : ObjectId) : M (list ObjectId) :=
  query (fun d =>
           map Team._id
             (filter (fun t => opt_eqb (Team.teamLeader t) id) (teams d))).

(** [Team.find({ members: id }).select('_id')] followed by
    [.map(t => t._id)] *)
Definition Team_find_memberOf (id : ObjectId) : M (list ObjectId) :=
  query (fun d =>
           map Team._id
             (filter (fun t => existsb (fun m => m =? id) (Team.members t))
                (teams d))).

(** [Rack.findOne({ partNo, rackNo })] *)
Definition Rack_findOne_partNo_rackNo (partNo rackNo : string)
  : M (option Rack.doc) :=
  query (fun d =>
           find (fun r => (Rack.partNo r =? partNo) && (Rack.rackNo r =? rackNo))
             (racks d)).

(** [Rack.create(doc)]: validation, then insertion. *)
Definition Rack_create (r : Rack.doc) : M Rack.doc :=
  if Rack.validate r
  then update (set_racks (fun l => l ++ [r])) ;;; ret r
  else throw "ValidationError".

(** [Rack.findById(id).populate('team', 'teamLeader')]: the rack, and
    the team its reference resolves to. *)
Definition Rack_findById_populated (id : ObjectId)
  : M (option (Rack.doc * option Team.doc)) :=
  rack <- query (fun d => find (fun r => Rack._id r =? id) (racks d)) ;;
  match rack with
  | None => ret None
  | Some r =>
      team <- query (fun d =>
                       find (fun t => Team._id t =? Rack.team r) (teams d)) ;;
      ret (Some (r, team))
  end.

(** The update document [req.body] applied as [$set] on every path it
    carries. *)
Definition Rack_set (b : Rack.body) (r : Rack.doc) : Rack.doc :=
  {| Rack._id := Rack._id r;
     Rack.rackNo := or_else (Rack.b_rackNo b) (Rack.rackNo r);
     Rack.partNo := or_else (Rack.b_partNo b) (Rack.partNo r);
     Rack.mrp := or_keep (Rack.b_mrp b) (Rack.mrp r);
     Rack.nextQty := or_else (Rack.b_nextQty b) (Rack.nextQty r);
     Rack.location := or_else (Rack.b_location b) (Rack.location r);
     Rack.siteName := or_else (Rack.b_siteName b) (Rack.siteName r);
     Rack.scannedBy := or_else (Rack.b_scannedBy b) (Rack.scannedBy r);
     Rack.team := or_else (Rack.b_team b) (Rack.team r);
     Rack.masterDescription :=
       or_keep (Rack.b_masterDescription b) (Rack.masterDescription r);
     Rack.ndp := or_keep (Rack.b_ndp b) (Rack.ndp r);
     Rack.createdAt := Rack.createdAt r |}.

Definition set_ok (check : string -> bool) (o : option string) : bool :=
  match o with
  | Some v => check v
  | None => true
  end.

(** Casting and update validators ([runValidators: true]) on the paths
    the update sets. *)
Definition Rack_update_ok (b : Rack.body) : bool :=
  set_ok (fun v => negb (v =? "")) (Rack.b_rackNo b)
  && set_ok (fun v => negb (v =? "")) (Rack.b_partNo b)
  && set_ok (fun v => negb (v =? "")) (Rack.b_siteName b)
  && set_ok Rack.in_enum (Rack.b_location b)
  && set_ok isValidObjectId (Rack.b_scannedBy b)
  && set_ok isValidObjectId (Rack.b_team b).

Fixpoint update_rack (id : ObjectId) (f : Rack.doc -> Rack.doc)
    (l : list Rack.doc) : list Rack.doc :=
  match l with
  | [] => []
  | x :: r =>
      if Rack._id x =? id then f x :: r else x :: update_rack id f r
  end.

(** [Rack.findByIdAndUpdate(id, body, { new: true, runValidators: true })] *)
Definition Rack_findByIdAndUpdate (id : ObjectId) (b : Rack.body)
  : M (option Rack.doc) :=
  if Rack_update_ok b
  then
    update (set_racks (update_rack id (Rack_set b))) ;;;
    fun w => (Ret (find (fun r => Rack._id r =? id) (racks (db w))), w)
  else throw "ValidationError".

Fixpoint remove_rack (id : ObjectId) (l : list Rack.doc) : list Rack.doc :=
  match l with
  | [] => []
  | x :: r => if Rack._id x =? id then r else x :: remove_rack id r
  end.

(** [rack.deleteOne()] *)
Definition Rack_deleteOne (r : Rack.doc) : M unit :=
  update (set_racks (remove_rack (Rack._id r))).

(** *** The aggregation pipeline of the rack reads *)

Inductive TeamFilter : Type :=
| TeamIs (id : ObjectId)
| TeamIn (ids : list ObjectId).

Record MatchFilter := {
  mf_id : option ObjectId;
  mf_team : option TeamFilter;
  mf_siteName : option string
}.

Definition matches (f : MatchFilter) (r : Rack.doc) : bool :=
  match mf_id f with
  | Some id => Rack._id r =? id
  | None => true
  end
  && match mf_team f with
     | Some (TeamIs id) => Rack.team r =? id
     | Some (TeamIn ids) => existsb (String.eqb (Rack.team r)) ids
     | None => true
     end
  && match mf_siteName f with
     | Some s => Rack.siteName r =? s
     | None => true
     end.

(** [$lookup] into [from] followed by [$unwind] with
    [preserveNullAndEmptyArrays]: one output document per joined
    document, and one without a partner when nothing joins. *)
Definition lookup_unwind {A B} (from : list B) (on : A -> B -> bool)
    (merge : A -> option B -> A) (docs : list A) : list A :=
  flat_map
    (fun a =>
       match filter (on a) from with
       | [] => [merge a None]
       | ms => map (fun m => merge a (Some m)) ms
       end)
    docs.

Definition bare (r : Rack.doc) : RackView :=
  {| rv_rack := r; rv_materialDescription := None; rv_ndp := None;
     rv_mrp := None; rv_team := None; rv_scannedBy := None |}.

(** [$addFields] of the material columns, [materialData] projected out. *)
Definition with_material (v : RackView) (m : option MasterDescription.doc)
  : RackView :=
  {| rv_rack := rv_rack v;
     rv_materialDescription :=
       match m with Some m => MasterDescription.description m | None => None end;
     rv_ndp := match m with Some m => MasterDescription.ndp m | None => None end;
     rv_mrp := match m with Some m => MasterDescription.mrp m | None => None end;
     rv_team := rv_team v; rv_scannedBy := rv_scannedBy v |}.

Definition with_team (v : RackView) (t : option Team.doc) : RackView :=
  {| rv_rack := rv_rack v;
     rv_materialDescription := rv_materialDescription v;
     rv_ndp := rv_ndp v; rv_mrp := rv_mrp v;
     rv_team := t; rv_scannedBy := rv_scannedBy v |}.

Definition with_scannedBy (v : RackView) (u : option User.doc) : RackView :=
  {| rv_rack := rv_rack v;
     rv_materialDescription := rv_materialDescription v;
     rv_ndp := rv_ndp v; rv_mrp := rv_mrp v;
     rv_team := rv_team v; rv_scannedBy := u |}.

Definition joined (d : Db) (f : MatchFilter) : list RackView :=
  let matched := map bare (filter (matches f) (racks d)) in
  let material :=
    lookup_unwind (masterdescriptions d)
      (fun v m =>
         opt_eqb (MasterDescription.partNo m) (Rack.partNo (rv_rack v)))
      with_material matched in
  let team :=
    lookup_unwind (teams d)
      (fun v t => Team._id t =? Rack.team (rv_rack v)) with_team material in
  lookup_unwind (users d)
    (fun v u => User._id u =? Rack.scannedBy (rv_rack v)) with_scannedBy team.

Fixpoint insert_desc (v : RackView) (l : list RackView) : list RackView :=
  match l with
  | [] => [v]
  | x :: r =>
      if (Rack.createdAt (rv_rack x) <=? Rack.createdAt (rv_rack v))%Z
      then v :: l
      else x :: insert_desc v r
  end.

(** [{ $sort: { createdAt: -1 } }] *)
Definition sort_createdAt_desc (l : list RackView) : list RackView :=
  fold_right insert_desc [] l.

(** [Rack.aggregate([...])], with or without the final [$sort]. *)
Definition Rack_aggregate (f : MatchFilter) (sorted : bool)
  : M (list RackView) :=
  query (fun d =>
           if sorted then sort_createdAt_desc (joined d f) else joined d f).

(** ** The rack controller *)

Module rackcontroller.

(** POST /api/racks.  [newId] and [now] are the [_id] and the
    [createdAt] stamp the store gives the new document. *)
Definition createRack (newId : ObjectId) (now : Z) (user : User.doc)
    (body : Rack.body) : M Response :=
  asyncHandler
    (match Rack.b_rackNo body, Rack.b_partNo body, Rack.b_nextQty body,
           Rack.b_siteName body, Rack.b_location body with
     | Some rackNo, Some partNo, Some nextQty, Some siteName, Some location =>
         if (rackNo =? "") || (partNo =? "") || (siteName =? "")
            || (location =? "")
         then ret (fail 400 "Please provide rackNo, partNo, mrp, nextQty, siteName, and location.")
         else
           team <- Team_findOne_siteName siteName ;;
           match team with
           | None =>
               ret (fail 404 ("Team with siteName '" ++ siteName
                              ++ "' not found.")%string)
           | Some team =>
               let isAdmin := User.role user =? "admin" in
               let isTeamLeader :=
                 (User.role user =? "team_leader")
                 && opt_eqb (Team.teamLeader team) (User._id user) in
               let isTeamMember :=
                 (User.role user =? "team_member")
                 && existsb (fun m => m =? User._id user)
                      (Team.members team) in
               if negb (isAdmin || isTeamLeader || isTeamMember)
               then ret (fail 403 "Not authorized to create rack for this team.")
               else
                 existingRack <- Rack_findOne_partNo_rackNo partNo rackNo ;;
                 match existingRack with
                 | Some _ =>
                     ret (fail 400 "PartNumber  already exists for this Rack.")
                 | None =>
                     newRack <-
                       Rack_create
                         {| Rack._id := newId; Rack.rackNo := rackNo;
                            Rack.partNo := partNo; Rack.mrp := None;
                            Rack.nextQty := nextQty;
                            Rack.location := location;
                            Rack.siteName := siteName;
                            Rack.scannedBy := User._id user;
                            Rack.team := Team._id team;
                            Rack.masterDescription := None;
                            Rack.ndp := None; Rack.createdAt := now |} ;;
                     ret {| status := 201; success := Some true;
                            message := Some "Rack created successfully";
                            payload := RackCreated newRack |}
                 end
           end
     | _, _, _, _, _ =>
         ret (fail 400 "Please provide rackNo, partNo, mrp, nextQty, siteName, and location.")
     end).

Definition emptyList : Response :=
  {| status := 200; success := Some true; message := None;
     payload := RackList 0 [] |}.

(** GET /api/racks?siteName=..&teamId=.. *)
Definition getRacks (user : option User.doc) (siteName teamId : option string)
  : M Response :=
  asyncHandler
    (match user with
     | None => ret (fail 401 "Not authenticated.")
     | Some user =>
         let run (team : option TeamFilter) : M Response :=
           let matchFilter :=
             {| mf_id := None; mf_team := team;
                mf_siteName := if truthy siteName then siteName else None |} in
           racks <- Rack_aggregate matchFilter true ;;
           ret {| status := 200; success := Some true; message := None;
                  payload := RackList (List.length racks) racks |} in
         if User.role user =? "admin" then
           if truthy teamId then
             oid <- castObjectId (or_else teamId "") ;;
             run (Some (TeamIs oid))
           else run None
         else if User.role user =? "team_leader" then
           teamIds <- Team_find_led (User._id user) ;;
           if (List.length teamIds =? 0)%nat then ret emptyList
           else run (Some (TeamIn teamIds))
         else if User.role user =? "team_member" then
           teamIds <- Team_find_memberOf (User._id user) ;;
           if (List.length teamIds =? 0)%nat then ret emptyList
           else run (Some (TeamIn teamIds))
         else ret (fail 403 "Not authorized to view racks.")
     end).

(** GET /api/racks/:id

    The pipeline is built before [Rack.aggregate] is called, and its
    [$match] stage holds [mongoose.Types.ObjectId(rackId)], without the
    [new] that [getRacks] writes. *)
Definition getRackById (user : User.doc) (rackId : string) : M Response :=
  asyncHandler
    (if negb (isValidObjectId rackId)
     then ret (fail 400 "Invalid Rack ID.")
     else
       oid <- ObjectId_without_new rackId ;;
       racks <- Rack_aggregate
                  {| mf_id := Some oid; mf_team := None;
                     mf_siteName := None |} false ;;
       match racks with
       | [] => ret (fail 404 "Rack not found.")
       | rack :: _ =>
           let userIdStr := User._id user in
           let isAdmin := User.role user =? "admin" in
           let isTeamLeader :=
             match rv_team rack with
             | Some team => opt_eqb (Team.teamLeader team) userIdStr
             | None => false
             end in
           let isTeamMember :=
             match rv_team rack with
             | Some team =>
                 existsb (fun m => m =? userIdStr) (Team.members team)
             | None => false
             end in
           if negb (isAdmin || isTeamLeader || isTeamMember)
           then ret (fail 403 "Not authorized to view this rack.")
           else ret {| status := 200; success := Some true; message := None;
                       payload := RackOne rack |}
       end).

Definition leads (team : option Team.doc) (userIdStr : string) : bool :=
  match team with
  | Some team => opt_eqb (Team.teamLeader team) userIdStr
  | None => false
  end.

(** PUT /api/racks/:id *)
Definition updateRack (user : User.doc) (rackId : string) (body : Rack.body)
  : M Response :=
  asyncHandler
    (if negb (isValidObjectId rackId)
     then ret (fail 400 "Invalid Rack ID.")
     else
       rack <- Rack_findById_populated rackId ;;
       match rack with
       | None => ret (fail 404 "Rack not found.")
       | Some (_, team) =>
           let userIdStr := User._id user in
           let isAdmin := User.role user =? "admin" in
           let isTeamLeader := leads team userIdStr in
           if negb (isAdmin || isTeamLeader)
           then ret (fail 403 "Not authorized to update this rack.")
           else
             try_catch
               (rack <- Rack_findByIdAndUpdate rackId body ;;
                ret {| status := 200; success := Some true;
                       message := Some "Rack updated successfully";
                       payload := RackUpdated rack |})
               (fun _ => ret (fail 500 "Server error updating rack."))
       end).

(** DELETE /api/racks/:id *)
Definition deleteRack (user : User.doc) (rackId : string) : M Response :=
  asyncHandler
    (if negb (isValidObjectId rackId)
     then ret (fail 400 "Invalid Rack ID.")
     else
       rack <- Rack_findById_populated rackId ;;
       match rack with
       | None => ret (fail 404 "Rack not found.")
       | Some (rack, team) =>
           let userIdStr := User._id user in
           let isAdmin := User.role user =? "admin" in
           let isTeamLeader := leads team userIdStr in
           if negb (isAdmin || isTeamLeader)
           then ret (fail 403 "Not authorized to delete this rack.")
           else
             try_catch
               (Rack_deleteOne rack ;;;
                ret {| status := 200; success := Some true;
                       message := Some "Rack deleted successfully";
                       payload := EmptyObject |})
               (fun _ => ret (fail 500 "Server error deleting rack."))
       end).

End rackcontroller.

(** ** The rack router *)

Module rackRoutes.
Import authMiddleware.

(** Each route is given [req.user] as [protect] left it. *)
Definition post_root (newId : ObjectId) (now : Z) (user : option User.doc)
    (body : Rack.body) : M Response :=
  authorize ["admin"; "team_leader"; "team_member"] user
    (fun u => rackcontroller.createRack newId now u body).

Definition get_root (user : option User.doc) (siteName teamId : option string)
  : M Response :=
  authorize ["admin"; "team_leader"; "team_member"] user
    (fun u => rackcontroller.getRacks (Some u) siteName teamId).

Definition get_id (user : option User.doc) (id : string) : M Response :=
  authorize ["admin"; "team_leader"; "team_member"] user
    (fun u => rackcontroller.getRackById u id).

Definition put_id (user : option User.doc) (id : string) (body : Rack.body)
  : M Response :=
  authorize ["admin"; "team_leader"] user
    (fun u => rackcontroller.updateRack u id body).

Definition delete_id (user : option User.doc) (id : string) : M Response :=
  authorize ["admin"; "team_leader"] user
    (fun u => rackcontroller.deleteRack u id).

End rackRoutes.

(** ** Sessions and transactions of the store client *)

Definition set_session (t : option Db) (n : nat) (w : World) : World :=
  {| db := db w; txn := t; sessions := n; faults := faults w |}.

(** [mongoose.startSession()] *)
Definition startSession : M unit :=
  roundtrip ;;; fun w => (Ret tt, set_session (txn w) (S (sessions w)) w).

(** [session.endSession()]: releases the session; a transaction still
    in progress is abandoned. *)
Definition endSession : M unit :=
  fun w => (Ret tt, set_session None (pred (sessions w)) w).

(** [session.startTransaction()] *)
Definition startTransaction : M unit :=
  fun w =>
    match txn w with
    | Some _ => (Throw "Transaction already in progress", w)
    | None => (Ret tt, set_session (Some (db w)) (sessions w) w)
    end.

(** [session.commitTransaction()]: the view of the transaction becomes
    the observable state. *)
Definition commitTransaction : M unit :=
  roundtrip ;;;
  fun w =>
    match txn w with
    | Some d =>
        (Ret tt,
         {| db := d; txn := None; sessions := sessions w;
            faults := faults w |})
    | None => (Throw "No transaction started", w)
    end.

(** [session.abortTransaction()]: the view of the transaction is
    discarded. *)
Definition abortTransaction : M unit :=
  fun w =>
    match txn w with
    | Some _ => (Ret tt, set_session None (sessions w) w)
    | None => (Throw "No transaction started", w)
    end.

(** An operation run with [{ session }]: it works on the view of the
    transaction, whose writes stay private until the commit; without a
    transaction in progress it works on the collections directly. *)
Definition session_run {A} (f : Db -> A * Db) : M A :=
  roundtrip ;;;
  fun w =>
    match txn w with
    | Some d => (Ret (fst (f d)), set_session (Some (snd (f d))) (sessions w) w)
    | None =>
        (Ret (fst (f (db w))),
         {| db := snd (f (db w)); txn := None; sessions := sessions w;
            faults := faults w |})
    end.

Definition session_query {A} (f : Db -> A) : M A :=
  session_run (fun d => (f d, d)).

Definition session_update (f : Db -> Db) : M unit :=
  session_run (fun d => (tt, f d)).

Definition decimal (n : nat) : string :=
  NilZero.string_of_uint (Nat.to_uint n).

(** ** Master descriptions: request data *)

(** One entry of the upload body; [e_ndp] and [e_mrp] hold what
    [parseFloat] makes of the field, [None] standing for [NaN]. *)
Record Entry := {
  e_partNo : option string;
  e_description : option string;
  e_ndp : option Z;
  e_mrp : option Z
}.

(** [parseFloat(x) || 0] *)
Definition parseFloat_or_0 (x : option Z) : Z := or_else x 0%Z.

(** *** Sorting a result on a numeric key *)

Fixpoint insert_by {A} (key : A -> Z) (v : A) (l : list A) : list A :=
  match l with
  | [] => [v]
  | x :: r =>
      if (key x <=? key v)%Z then v :: l else x :: insert_by key v r
  end.

(** [.sort({ key: -1 })] *)
Definition sort_desc_by {A} (key : A -> Z) (l : list A) : list A :=
  fold_right (insert_by key) [] l.

(** ** controllers/master_controller.js *)

Module master_controller.

Definition docs_of (entries : list Entry) (filename : string)
    (fileId : ObjectId) : list MasterDescription.doc :=
  map (fun e =>
         {| MasterDescription.partNo := e_partNo e;
            MasterDescription.description := e_description e;
            MasterDescription.ndp := Some (parseFloat_or_0 (e_ndp e));
            MasterDescription.mrp := Some (parseFloat_or_0 (e_mrp e));
            MasterDescription.uploadBatch := Some filename;
            MasterDescription.fileId := Some fileId;
            MasterDescription.uploadedFileId := None |})
    entries.

Definition new_meta (newId : ObjectId) (now : Z) (user : option User.doc)
    (filename : string) (entries : list Entry) : UploadMetadata.doc :=
  {| UploadMetadata._id := newId;
     UploadMetadata.filename := filename;
     UploadMetadata.totalReceived := Some (List.length entries);
     UploadMetadata.recordCount := None;
     UploadMetadata.uploadedBy := option_map User._id user;
     UploadMetadata.uploadedByEmail := option_map User.email user;
     UploadMetadata.uploadDate := now |}.

Fixpoint stamp (id : ObjectId) (n : nat) (l : list UploadMetadata.doc)
  : list UploadMetadata.doc :=
  match l with
  | [] => []
  | x :: r =>
      if UploadMetadata._id x =? id
      then UploadMetadata.set_recordCount n x :: r
      else x :: stamp id n r
  end.

(** POST /api/masterdesc/upload.  [newId] and [now] are the [_id] and
    the [uploadDate] default the store gives the ledger entry. *)
Definition uploadMasterDescriptions (newId : ObjectId) (now : Z)
    (user : option User.doc) (entries : list Entry) (filename : string)
  : M Response :=
  startSession ;;;
  finally
    (try_catch
       (if (List.length entries =? 0)%nat
        then ret (fail 400 "No data provided")
        else
          startTransaction ;;;
          let meta := new_meta newId now user filename entries in
          session_update (set_uploadmetadatas (fun l => l ++ [meta])) ;;;
          let fileId := UploadMetadata._id meta in
          let docs := docs_of entries filename fileId in
          session_update (set_masterdescriptions (fun l => l ++ docs)) ;;;
          session_update
            (set_uploadmetadatas (stamp fileId (List.length docs))) ;;;
          commitTransaction ;;;
          ret {| status := 201; success := Some true;
                 message := Some "File uploaded successfully";
                 payload := Uploaded fileId (List.length docs) |})
       (fun err => abortTransaction ;;; ret (fail 500 err)))
    endSession.

(** The list of uploaded files:
    [UploadMetadata.find().sort({ uploadDate: -1 }).lean()]. *)
Definition getUploadedFiles : M (ListResponse UploadMetadata.doc) :=
  try_catch
    (files <- query (fun d =>
                       sort_desc_by UploadMetadata.uploadDate
                         (uploadmetadatas d)) ;;
     ret (ok_list files))
    (fun err => ret (fail_list 500 err)).

(** The linkage query of a ledger entry:
    [{ $or: [{ fileId }, { uploadedFileId }, { uploadBatch }] }]. *)
Definition linked (meta : UploadMetadata.doc) (m : MasterDescription.doc)
  : bool :=
  opt_eqb (MasterDescription.fileId m) (UploadMetadata._id meta)
  || opt_eqb (MasterDescription.uploadedFileId m) (UploadMetadata._id meta)
  || opt_eqb (MasterDescription.uploadBatch m) (UploadMetadata.filename meta).

(** [MasterDescription.countDocuments(query)] *)
Definition countDocuments (meta : UploadMetadata.doc) (d : Db) : nat :=
  List.length (filter (linked meta) (masterdescriptions d)).

(** [MasterDescription.deleteMany(query)], with its [deletedCount]. *)
Definition deleteMany (meta : UploadMetadata.doc) (d : Db) : nat * Db :=
  (countDocuments meta d,
   set_masterdescriptions (filter (fun m => negb (linked meta m))) d).

Fixpoint remove_meta (id : ObjectId) (l : list UploadMetadata.doc)
  : list UploadMetadata.doc :=
  match l with
  | [] => []
  | x :: r =>
      if UploadMetadata._id x =? id then r else x :: remove_meta id r
  end.

(** DELETE of an uploaded file and of the rows linked to it. *)
Definition deleteUploadedFile (id : string) : M Response :=
  startSession ;;;
  finally
    (try_catch
       (if negb (isValidObjectId id)
        then ret (fail 400 "Invalid file ID format")
        else
          startTransaction ;;;
          meta <- session_query
                    (fun d =>
                       find (fun m => UploadMetadata._id m =? id)
                         (uploadmetadatas d)) ;;
          match meta with
          | None =>
              abortTransaction ;;;
              ret (fail 404 "File metadata not found")
          | Some meta =>
              countBefore <- query (countDocuments meta) ;;
              deletedCount <- session_run (deleteMany meta) ;;
              session_update (set_uploadmetadatas (remove_meta id)) ;;;
              commitTransaction ;;;
              ret {| status := 200; success := Some true;
                     message :=
                       Some ("Deleted " ++ decimal deletedCount
                             ++ " records and metadata entry.")%string;
                     payload := Deleted deletedCount |}
          end)
       (fun err => abortTransaction ;;; ret (fail 500 err)))
    endSession.

End master_controller.

(** ** controllers/uploadcontroller.js *)

Module uploadcontroller.

(** The rows [insertMany(entries)] stores: the entries as they came. *)
Definition rows_of (entries : list Entry) : list MasterDescription.doc :=
  map (fun e =>
         {| MasterDescription.partNo := e_partNo e;
            MasterDescription.description := e_description e;
            MasterDescription.ndp := e_ndp e;
            MasterDescription.mrp := e_mrp e;
            MasterDescription.uploadBatch := None;
            MasterDescription.fileId := None;
            MasterDescription.uploadedFileId := None |})
    entries.

Definition uploadMasterDescriptions (newId : ObjectId) (now : Z)
    (entries : list Entry) (filename : string) : M Response :=
  try_catch
    (if (List.length entries =? 0)%nat
     then ret (fail 400 "No data provided")
     else
       let insertedDocs := rows_of entries in
       update (set_masterdescriptions (fun l => l ++ insertedDocs)) ;;;
       update
         (set_uploadmetadatas
            (fun l =>
               l ++ [{| UploadMetadata._id := newId;
                        UploadMetadata.filename := filename;
                        UploadMetadata.totalReceived := None;
                        UploadMetadata.recordCount :=
                          Some (List.length insertedDocs);
                        UploadMetadata.uploadedBy := None;
                        UploadMetadata.uploadedByEmail := None;
                        UploadMetadata.uploadDate := now |}])) ;;;
       ret {| status := 201; success := Some true;
              message := Some "Upload successful";
              payload := UploadedCount (List.length insertedDocs) |})
    (fun _ => ret (fail 500 "Server error")).

Definition getUploadedFiles : M (ListResponse UploadMetadata.doc) :=
  try_catch
    (files <- query (fun d =>
                       sort_desc_by UploadMetadata.uploadDate
                         (uploadmetadatas d)) ;;
     ret (ok_list files))
    (fun _ => ret (fail_list 500 "Failed to fetch uploaded files")).

End uploadcontroller.

(** ** controllers/exportedrackcontroller.js *)

Module exportedrackcontroller.

Definition snapshotsToSave (snapshots : list SnapshotItem.t)
    (teamId siteName : string) (exportedBy : ObjectId)
  : list SnapshotToSave.t :=
  map (fun snapshot =>
         {| SnapshotToSave.sNo := SnapshotItem.sNo snapshot;
            SnapshotToSave.location := SnapshotItem.location snapshot;
            SnapshotToSave.rackNo := SnapshotItem.rackNo snapshot;
            SnapshotToSave.partNo := SnapshotItem.partNo snapshot;
            SnapshotToSave.nextQty := SnapshotItem.nextQty snapshot;
            SnapshotToSave.mrp := SnapshotItem.mrp snapshot;
            SnapshotToSave.ndp := SnapshotItem.ndp snapshot;
            SnapshotToSave.materialDescription :=
              SnapshotItem.materialDescription snapshot;
            SnapshotToSave.team := teamId;
            SnapshotToSave.siteName := siteName;
            SnapshotToSave.exportedBy := exportedBy |})
    snapshots.

Fixpoint cast_all (now : Z) (l : list SnapshotToSave.t)
  : option (list ExportedRack.doc) :=
  match l with
  | [] => Some []
  | s :: r =>
      match ExportedRack.cast now s, cast_all now r with
      | Some d, Some ds => Some (d :: ds)
      | _, _ => None
      end
  end.

(** [ExportedRackSnapshot.insertMany(docs)]: every document is built
    and validated, then all are inserted. *)
Definition insertMany (now : Z) (l : list SnapshotToSave.t)
  : M (list ExportedRack.doc) :=
  match cast_all now l with
  | Some ds => update (set_exportedracks (fun c => c ++ ds)) ;;; ret ds
  | None => throw "ValidationError"
  end.

(** POST /api/exported-racks-snapshot.  [now] is the [exportedAt]
    default. *)
Definition createExportedSnapshots (now : Z) (user : User.doc)
    (snapshots : list SnapshotItem.t) (teamId siteName : option string)
  : M Response :=
  asyncHandler
    (let exportedBy := User._id user in
     if (List.length snapshots =? 0)%nat
     then ret (fail 400 "No snapshot data provided.")
     else
       match teamId, siteName with
       | Some teamId, Some siteName =>
           if (teamId =? "") || (siteName =? "")
           then ret (fail 400 "Team ID and Site Name are required for the snapshot.")
           else
             teamExists <- Team_findById teamId ;;
             match teamExists with
             | None =>
                 ret (fail 404 ("Team with ID " ++ teamId
                                ++ " not found.")%string)
             | Some teamExists =>
                 let isAuthorized :=
                   (User.role user =? "admin")
                   || ((User.role user =? "team_leader")
                       && opt_eqb (Team.teamLeader teamExists) exportedBy) in
                 if negb isAuthorized
                 then ret (fail 403 "Not authorized to create snapshots for this team.")
                 else
                   let toSave :=
                     snapshotsToSave snapshots teamId siteName exportedBy in
                   try_catch
                     (result <- insertMany now toSave ;;
                      ret {| status := 201; success := Some true;
                             message :=
                               Some (decimal (List.length result)
                                     ++ " rack snapshots saved successfully.")%string;
                             payload := SnapshotCount (List.length result) |})
                     (fun _ => ret (fail 500 "Server error saving snapshots."))
             end
       | _, _ =>
           ret (fail 400 "Team ID and Site Name are required for the snapshot.")
       end).

End exportedrackcontroller.

(** ** Vocabulary of the statements *)

(** A world whose fault plan holds no fault. *)
Definition healthy (w : World) : Prop :=
  forall b, In b (faults w) -> b = false.

(** No transaction is in progress. *)
Definition quiescent (w : World) : Prop := txn w = None.

Definition team_by_id (d : Db) (id : ObjectId) : option Team.doc :=
  find (fun t => Team._id t =? id) (teams d).

Definition rack_by_id (d : Db) (id : ObjectId) : option Rack.doc :=
  find (fun r => Rack._id r =? id) (racks d).

Definition user_by_id (d : Db) (id : ObjectId) : option User.doc :=
  find (fun u => User._id u =? id) (users d).

(** The status codes of the error taxonomy. *)
Definition BadRequest : nat := 400.
Definition Forbidden : nat := 403.
Definition NotFound : nat := 404.

(** A conflict is reported with 400 or 409. *)
Definition Conflict (code : nat) : Prop := code = 400 \/ code = 409.

(** The rack a well-formed create request of [user] for [team] stores. *)
Definition created (newId : ObjectId) (now : Z) (user : User.doc)
    (team : Team.doc) (rackNo partNo : string) (nextQty : Z)
    (siteName location : string) : Rack.doc :=
  {| Rack._id := newId; Rack.rackNo := rackNo; Rack.partNo := partNo;
     Rack.mrp := None; Rack.nextQty := nextQty; Rack.location := location;
     Rack.siteName := siteName; Rack.scannedBy := User._id user;
     Rack.team := Team._id team; Rack.masterDescription := None;
     Rack.ndp := None; Rack.createdAt := now |}.


(** [uid] is recorded as the leader of a team with id [teamId]. *)
Definition leads_team (d : Db) (uid teamId : ObjectId) : Prop :=
  exists t,
    In t (teams d) /\ Team._id t = teamId /\ Team.teamLeader t = Some uid.

(** The optional [siteName] refinement of a list query holds of a rack. *)
Definition at_site (siteName : option string) (r : Rack.doc) : Prop :=
  forall s, siteName = Some s -> s <> "" -> Rack.siteName r = s.

(** The collections once an upload of [entries] under [filename] has
    taken effect: the ledger entry with its record count, and the rows
    tagged with the id and the file name of the batch. *)
Definition uploaded (newId : ObjectId) (now : Z) (user : option User.doc)
    (entries : list Entry) (filename : string) (d : Db) : Db :=
  set_uploadmetadatas
    (master_controller.stamp newId
       (List.length (master_controller.docs_of entries filename newId)))
    (set_masterdescriptions
       (fun l => l ++ master_controller.docs_of entries filename newId)
       (set_uploadmetadatas
          (fun l =>
             l ++ [master_controller.new_meta newId now user filename
                     entries])
          d)).


(** The response a run ended with, when it did not throw. *)
Definition answer {A} (run : Outcome A * World) : option A :=
  match fst run with
  | Ret a => Some a
  | Throw _ => None
  end.

(** ** Scenarios

    A small site used to run the handlers on concrete requests. *)

Module Scenario.

Definition id (c : ascii) : ObjectId :=
  String.append "00000000000000000000000" (String c EmptyString).

Definition adminId : ObjectId := id "a".
Definition leaderId : ObjectId := id "b".
Definition memberId : ObjectId := id "c".
Definition outsiderId : ObjectId := id "d".
Definition delhiId : ObjectId := id "1".
Definition puneId : ObjectId := id "2".
Definition rackId : ObjectId := id "5".
Definition freshId : ObjectId := id "9".

Definition admin : User.doc :=
  {| User._id := adminId; User.role := "admin";
     User.email := "admin@pas.example" |}.
Definition leader : User.doc :=
  {| User._id := leaderId; User.role := "team_leader";
     User.email := "leader@pas.example" |}.
Definition member : User.doc :=
  {| User._id := memberId; User.role := "team_member";
     User.email := "member@pas.example" |}.
Definition outsider : User.doc :=
  {| User._id := outsiderId; User.role := "team_member";
     User.email := "outsider@pas.example" |}.

Definition delhi : Team.doc :=
  {| Team._id := delhiId; Team.siteName := "Delhi-1";
     Team.location := "DL"; Team.description := None;
     Team.isNewSite := false; Team.teamLeader := Some leaderId;
     Team.members := [memberId]; Team.status := "Active" |}.

Definition pune : Team.doc :=
  {| Team._id := puneId; Team.siteName := "Pune-1";
     Team.location := "MH"; Team.description := None;
     Team.isNewSite := false; Team.teamLeader := Some adminId;
     Team.members := []; Team.status := "Active" |}.

Definition rack : Rack.doc :=
  {| Rack._id := rackId; Rack.rackNo := "R1"; Rack.partNo := "P1";
     Rack.mrp := None; Rack.nextQty := 4%Z;
     Rack.location := "SPARES"; Rack.siteName := "Delhi-1";
     Rack.scannedBy := memberId; Rack.team := delhiId;
     Rack.masterDescription := None; Rack.ndp := None;
     Rack.createdAt := 100%Z |}.

Definition site : Db :=
  {| users := [admin; leader; member; outsider];
     teams := [delhi; pune];
     racks := [rack];
     masterdescriptions := [];
     uploadmetadatas := [];
     exportedracks := [] |}.

(** The site at rest, with a store that does not fail. *)
Definition world : World :=
  {| db := site; txn := None; sessions := 0; faults := [] |}.

(** The same site when the [n]-th round trip from now fails. *)
Definition failing (n : nat) : World :=
  {| db := site; txn := None; sessions := 0;
     faults := repeat false n ++ [true] |}.

(** A complete create request for the pair (partNo, rackNo) at a site. *)
Definition createBody (rackNo partNo siteName : string) : Rack.body :=
  {| Rack.b_rackNo := Some rackNo; Rack.b_partNo := Some partNo;
     Rack.b_mrp := None; Rack.b_nextQty := Some 7%Z;
     Rack.b_location := Some "SPARES";
     Rack.b_siteName := Some siteName; Rack.b_scannedBy := None;
     Rack.b_team := None; Rack.b_masterDescription := None;
     Rack.b_ndp := None |}.

(** An update request that names another user as the scanner. *)
Definition rescanBody : Rack.body :=
  {| Rack.b_rackNo := None; Rack.b_partNo := None; Rack.b_mrp := None;
     Rack.b_nextQty := None; Rack.b_location := None;
     Rack.b_siteName := None; Rack.b_scannedBy := Some outsiderId;
     Rack.b_team := None; Rack.b_masterDescription := None;
     Rack.b_ndp := None |}.

(** A snapshot line item that carries a team, a site name and an
    exporter of its own. *)
Definition lineItem : SnapshotItem.t :=
  {| SnapshotItem.sNo := Some 1%Z;
     SnapshotItem.location := Some "SPARES";
     SnapshotItem.rackNo := Some "R1";
     SnapshotItem.partNo := Some "P1";
     SnapshotItem.nextQty := Some 4%Z;
     SnapshotItem.mrp := None; SnapshotItem.ndp := None;
     SnapshotItem.materialDescription := Some "bolt";
     SnapshotItem.team := Some puneId;
     SnapshotItem.siteName := Some "Pune-1";
     SnapshotItem.exportedBy := Some outsiderId |}.

Definition entry (partNo : string) : Entry :=
  {| e_partNo := Some partNo; e_description := Some "bolt";
     e_ndp := Some 10%Z; e_mrp := None |}.

Definition batch : list Entry := [entry "P1"; entry "P2"; entry "P3"].

Definition earlierId : ObjectId := id "8".

End Scenario.

(** ** Further vocabulary *)

(** [uid] is among the members of a team with id [teamId]. *)
Definition member_of_team (d : Db) (uid teamId : ObjectId) : Prop :=
  exists t,
    In t (teams d) /\ Team._id t = teamId /\ In uid (Team.members t).

(** The relation to a team that the rack endpoints accept. *)
Definition may_write_rack (user : User.doc) (team : option Team.doc) : Prop :=
  User.role user = "admin"
  \/ exists t, team = Some t /\ Team.teamLeader t = Some (User._id user).

(** Every stored rack satisfies the validation of the Rack schema. *)
Definition all_racks_valid (d : Db) : Prop :=
  Forall (fun r => Rack.validate r = true) (racks d).

(** The optional [teamId] refinement of an admin's list query. *)
Definition in_team (teamId : option string) (r : Rack.doc) : Prop :=
  forall t, teamId = Some t -> t <> "" -> Rack.team r = t.




(** What the member validation of the team endpoints has established
    when it lets a request through. *)
Definition members_checked (d : Db) (members : option (list string)) : Prop :=
  match members with
  | Some (m :: ms) =>
      let found :=
        filter (fun u => existsb (String.eqb (User._id u)) (m :: ms))
          (users d) in
      List.length found = List.length (m :: ms)
      /\ Forall (fun u => User.role u = "team_member") found
  | _ => True
  end.

(** A line item that the snapshot schema accepts: the five required
    fields are present, the strings are not blank, and no number is
    negative. *)
Definition item_valid (s : SnapshotItem.t) : Prop :=
  exists sNo location rackNo partNo nextQty,
    SnapshotItem.sNo s = Some sNo
    /\ SnapshotItem.location s = Some location /\ trim location <> ""
    /\ SnapshotItem.rackNo s = Some rackNo /\ trim rackNo <> ""
    /\ SnapshotItem.partNo s = Some partNo /\ trim partNo <> ""
    /\ SnapshotItem.nextQty s = Some nextQty /\ (0 <= nextQty)%Z
    /\ (forall z, SnapshotItem.mrp s = Some z -> (0 <= z)%Z)
    /\ (forall z, SnapshotItem.ndp s = Some z -> (0 <= z)%Z).

(** The number of rows the pipeline makes of one rack when team and
    user ids are unique: one per master description with its part
    number, and one when there is none. *)
Definition rows_of_rack (d : Db) (r : Rack.doc) : nat :=
  Nat.max 1
    (List.length
       (filter (fun m => opt_eqb (MasterDescription.partNo m) (Rack.partNo r))
          (masterdescriptions d))).

(** Descending order on a numeric key. *)
Definition descending {A} (key : A -> Z) (l : list A) : Prop :=
  StronglySorted (fun a b => (key b <= key a)%Z) l.

(** The rows of a list answer. *)
Definition listed (run : Outcome Response * World) : list RackView :=
  match answer run with
  | Some r =>
      match payload r with
      | RackList _ data => data
      | _ => []
      end
  | None => []
  end.

(** ** Further scenarios *)

Module Cases.

Definition row (partNo : string) (mrp : Z) : MasterDescription.doc :=
  {| MasterDescription.partNo := Some partNo;
     MasterDescription.description := Some "bolt";
     MasterDescription.ndp := Some 5%Z;
     MasterDescription.mrp := Some mrp;
     MasterDescription.uploadBatch := Some "batch1";
     MasterDescription.fileId := Some Scenario.earlierId;
     MasterDescription.uploadedFileId := None |}.

Definition olderRackId : ObjectId := Scenario.id "6".

(** A rack of Pune-1 that was created before the one of Delhi-1 and
    carries a stored price. *)
Definition olderRack : Rack.doc :=
  {| Rack._id := olderRackId; Rack.rackNo := "R4"; Rack.partNo := "P2";
     Rack.mrp := Some 99%Z; Rack.nextQty := 1%Z;
     Rack.location := "ACCESSORIES"; Rack.siteName := "Pune-1";
     Rack.scannedBy := Scenario.adminId; Rack.team := Scenario.puneId;
     Rack.masterDescription := Some "stale"; Rack.ndp := Some 98%Z;
     Rack.createdAt := 50%Z |}.

(** The site with a second rack and a catalog in which the part P1 was
    uploaded twice. *)
Definition catalogued : Db :=
  {| users := users Scenario.site; teams := teams Scenario.site;
     racks := [olderRack; Scenario.rack];
     masterdescriptions := [row "P1" 10; row "P1" 11];
     uploadmetadatas := []; exportedracks := [] |}.

Definition catalogWorld : World :=
  {| db := catalogued; txn := None; sessions := 0; faults := [] |}.

(** An update request that names no field. *)
Definition noUpdate : Rack.body :=
  {| Rack.b_rackNo := None; Rack.b_partNo := None; Rack.b_mrp := None;
     Rack.b_nextQty := None; Rack.b_location := None;
     Rack.b_siteName := None; Rack.b_scannedBy := None;
     Rack.b_team := None; Rack.b_masterDescription := None;
     Rack.b_ndp := None |}.

(** A team update that only renames the site. *)
Definition rename : Team.body :=
  {| Team.b_siteName := Some "Delhi-2"; Team.b_location := None;
     Team.b_description := None; Team.b_isNewSite := None;
     Team.b_members := None; Team.b_leader := None;
     Team.b_status := None |}.

Definition newTeamId : ObjectId := Scenario.id "3".

(** A request of the admin for a new team led by the leader, with the
    two team members. *)
Definition newTeam : Team.body :=
  {| Team.b_siteName := Some "Agra-1"; Team.b_location := Some "UP";
     Team.b_description := None; Team.b_isNewSite := Some true;
     Team.b_members := Some [Scenario.memberId; Scenario.outsiderId];
     Team.b_leader := Some Scenario.leaderId;
     Team.b_status := None |}.

(** A request of the admin for a second team at Delhi-1, led by the
    leader, with the member of the first. *)
Definition secondDelhi : Team.body :=
  {| Team.b_siteName := Some "Delhi-1"; Team.b_location := Some "DL";
     Team.b_description := None; Team.b_isNewSite := None;
     Team.b_members := Some [Scenario.memberId];
     Team.b_leader := Some Scenario.leaderId;
     Team.b_status := None |}.

(** The site after the admin has completed the team of Delhi-1 and
    created the second team for the same site. *)
Definition reopened : World :=
  snd (teamcontroller.createTeam newTeamId Scenario.admin secondDelhi
         (snd (teamcontroller.completeTeamWork Scenario.admin
                 Scenario.delhiId Scenario.world))).

(** The site after the upload of the batch, with a store whose [n]-th
    round trip from now fails. *)
Definition uploadedThenFailing (n : nat) : World :=
  {| db :=
       uploaded Scenario.freshId 400 (Some Scenario.admin) Scenario.batch
         "batch1" Scenario.site;
     txn := None; sessions := 0;
     faults := repeat false n ++ [true] |}.

(** The site after two uploads, the older one made first. *)
Definition twoUploads : World :=
  {| db :=
       uploaded Scenario.freshId 500 (Some Scenario.admin)
         [Scenario.entry "P2"] "batch2"
         (uploaded Scenario.earlierId 400 (Some Scenario.admin)
            [Scenario.entry "P1"] "batch1" Scenario.site);
     txn := None; sessions := 0; faults := [] |}.

(** A line item with a negative quantity. *)
Definition badItem : SnapshotItem.t :=
  {| SnapshotItem.sNo := Some 2%Z;
     SnapshotItem.location := Some "SPARES";
     SnapshotItem.rackNo := Some "R2";
     SnapshotItem.partNo := Some "P2";
     SnapshotItem.nextQty := Some (-1)%Z;
     SnapshotItem.mrp := None; SnapshotItem.ndp := None;
     SnapshotItem.materialDescription := None;
     SnapshotItem.team := None; SnapshotItem.siteName := None;
     SnapshotItem.exportedBy := None |}.

End Cases.

(** * Properties *)

(** ** Running the monad *)

Lemma healthy_served w : healthy w -> healthy (served w).
Proof.
  unfold healthy, served; simpl; intros H b Hb.
  apply H. destruct (faults w); simpl in *; auto.
Qed.

Lemma roundtrip_cases w :
  roundtrip w = (Ret tt, served w)
  \/ roundtrip w = (Throw "store failure", served w).
Proof.
  unfold roundtrip. destruct (faults w) as [|[] ?]; auto.
Qed.

Lemma roundtrip_healthy w : healthy w -> roundtrip w = (Ret tt, served w).
Proof.
  unfold roundtrip, healthy; intros H.
  destruct (faults w) as [|[] ?]; auto.
  discriminate (H true (or_introl eq_refl)).
Qed.

#[global] Opaque roundtrip.

(** Splits on the outcome of the next round trip of the goal. *)
Ltac next_roundtrip :=
  match goal with
  | |- context [roundtrip ?w] =>
      let E := fresh "E" in
      destruct (roundtrip_cases w) as [E | E]; rewrite E; clear E; cbn
  | H : context [roundtrip ?w] |- _ =>
      let E := fresh "E" in
      destruct (roundtrip_cases w) as [E | E]; rewrite E in H; clear E;
      cbn in H
  end.

(** Closes a branch whose run contradicts what is known of the response. *)
Ltac done_run H :=
  inversion H; subst; cbn in *;
  cbv delta [BadRequest Forbidden NotFound] in *; congruence.

Ltac unfold_handler :=
  cbv beta iota zeta delta
    [asyncHandler try_catch finally bind ret throw query update
     castObjectId Team_findById User_findById Team_save
     Team_findById_populated fail] in *.

(** ** Teams *)

Lemma find_replace_team (t : Team.doc) (l : list Team.doc) (x : Team.doc) :
  find (fun y => Team._id y =? Team._id t) l = Some x ->
  find (fun y => Team._id y =? Team._id t) (replace_team t l) = Some t.
Proof.
  induction l as [|y l IH]; simpl; [discriminate|].
  destruct (Team._id y =? Team._id t) eqn:E; simpl.
  - intros _. now rewrite String.eqb_refl.
  - rewrite E. exact IH.
Qed.

Lemma find_team_id (id : ObjectId) (l : list Team.doc) (x : Team.doc) :
  find (fun y => Team._id y =? id) l = Some x -> Team._id x = id.
Proof.
  intros H. apply find_some in H. now apply String.eqb_eq.
Qed.

(** C2.  After a successful [completeTeamWork] (status 200), which only
    an admin or the leader of the team obtains, the stored team has no
    members, no leader and the status Completed, whatever it held
    before. *)
Theorem completeTeamWork_clears_team :
  forall (w w' : World) (user : User.doc) (teamId : string) (r : Response),
    teamcontroller.completeTeamWork user teamId w = (Ret r, w') ->
    status r = 200 ->
    exists before after,
      team_by_id (db w) teamId = Some before
      /\ teamcontroller.isTeamLeaderOrAdmin user before = true
      /\ team_by_id (db w') teamId = Some after
      /\ Team.members after = []
      /\ Team.teamLeader after = None
      /\ Team.status after = "Completed"
      /\ payload r = TeamData after.
Proof.
  intros w w' user teamId r Hrun Hst.
  unfold teamcontroller.completeTeamWork in Hrun.
  unfold_handler.
  destruct (isValidObjectId teamId); [|done_run Hrun].
  next_roundtrip; [|done_run Hrun].
  destruct (find (fun t => Team._id t =? teamId) (teams (db w)))
    as [before|] eqn:Hfind; [|done_run Hrun].
  cbn in Hrun.
  match type of Hrun with
  | context [negb ?c] => destruct c eqn:Hauth
  end; cbn in Hrun; [|done_run Hrun].
  next_roundtrip; [|done_run Hrun].
  inversion Hrun; subst; clear Hrun. cbn.
  exists before, (teamcontroller.completed before).
  pose proof (find_team_id _ _ _ Hfind) as Hid.
  repeat split; auto.
  unfold team_by_id. cbn. subst teamId.
  apply (find_replace_team (teamcontroller.completed before) _ before).
  exact Hfind.
Qed.

(** The call does succeed for an admin or the leader of an existing
    team when the store answers. *)
Lemma completeTeamWork_succeeds :
  forall (w : World) (user : User.doc) (teamId : string) (team : Team.doc),
    healthy w ->
    isValidObjectId teamId = true ->
    team_by_id (db w) teamId = Some team ->
    teamcontroller.isTeamLeaderOrAdmin user team = true ->
    exists r w',
      teamcontroller.completeTeamWork user teamId w = (Ret r, w')
      /\ status r = 200.
Proof.
  intros w user teamId team Hw Hid Hteam Hauth.
  unfold teamcontroller.completeTeamWork, team_by_id,
    teamcontroller.isTeamLeaderOrAdmin in *.
  unfold_handler. rewrite Hid.
  rewrite (roundtrip_healthy w Hw). cbn. rewrite Hteam, Hauth. cbn.
  rewrite (roundtrip_healthy (served w) (healthy_served w Hw)). cbn.
  eexists. eexists. split; reflexivity.
Qed.

Lemma completeTeamWork_clears_team_run :
  exists after,
    team_by_id
      (db (snd (teamcontroller.completeTeamWork Scenario.leader
                  Scenario.delhiId Scenario.world)))
      Scenario.delhiId = Some after
    /\ Team.members after = []
    /\ Team.teamLeader after = None
    /\ Team.status after = "Completed".
Proof.
  destruct
    (completeTeamWork_clears_team Scenario.world _ Scenario.leader
       Scenario.delhiId _ eq_refl eq_refl)
    as (before & after & _ & _ & Hafter & Hm & Hl & Hs & _).
  exists after. repeat split; assumption.
Defined.

(** ** Object ids *)

Lemma is_hex_lower (c : ascii) : is_hex (lower_hex c) = is_hex c.
Proof.
  destruct c as [[] [] [] [] [] [] [] []]; reflexivity.
Qed.

Lemma length_string_of_list (l : list ascii) :
  String.length (string_of_list_ascii l) = List.length l.
Proof.
  induction l as [|c l IH]; cbn; [reflexivity | now rewrite IH].
Qed.

Lemma length_list_of_string (s : string) :
  List.length (list_ascii_of_string s) = String.length s.
Proof.
  induction s as [|c s IH]; cbn; [reflexivity | now rewrite IH].
Qed.

(** A string is a well-formed id exactly when its canonical form is. *)
Lemma isValidObjectId_canonical (s : string) :
  isValidObjectId (canonical s) = isValidObjectId s.
Proof.
  unfold isValidObjectId, canonical.
  rewrite length_string_of_list, length_map, length_list_of_string.
  rewrite list_ascii_of_string_of_list_ascii. f_equal.
  induction (list_ascii_of_string s) as [|c l IH]; cbn; [reflexivity|].
  now rewrite is_hex_lower, IH.
Qed.

(** The canonical form is a normal form. *)
Lemma canonical_idem (s : string) : canonical (canonical s) = canonical s.
Proof.
  unfold canonical. rewrite list_ascii_of_string_of_list_ascii, map_map.
  f_equal. apply map_ext. intros c.
  destruct c as [[] [] [] [] [] [] [] []]; reflexivity.
Qed.


(** ** Membership changes *)

Ltac ok_roundtrip :=
  match goal with
  | |- context [roundtrip ?w] =>
      rewrite (roundtrip_healthy w)
        by (repeat apply healthy_served; assumption);
      cbn
  end.

Lemma includes_In (m : string) (l : list string) :
  existsb (String.eqb m) l = true <-> In m l.
Proof.
  rewrite existsb_exists. split.
  - intros (x & Hx & E). apply String.eqb_eq in E. now subst.
  - intros H. exists m. split; [assumption | apply String.eqb_refl].
Qed.

Lemma filter_out_absent (m : string) (l : list string) :
  ~ In m l -> filter (fun member => negb (member =? m)) l = l.
Proof.
  induction l as [|x l IH]; simpl; intros H; [reflexivity|].
  destruct (x =? m) eqn:E; simpl.
  - apply String.eqb_eq in E. subst. exfalso. apply H. now left.
  - f_equal. apply IH. intros Hin. apply H. now right.
Qed.

(** Adding an id that occurs among the members as it is written is
    refused with the conflict answer and writes nothing. *)
Lemma addTeamMember_existing :
  forall (w : World) (user : User.doc) (id memberId : string)
         (team : Team.doc) (u : User.doc),
    healthy w ->
    isValidObjectId id = true ->
    isValidObjectId memberId = true ->
    team_by_id (db w) id = Some team ->
    teamcontroller.isTeamLeaderOrAdmin user team = true ->
    user_by_id (db w) (canonical memberId) = Some u ->
    User.role u = "team_member" ->
    In memberId (Team.members team) ->
    exists w',
      teamcontroller.addTeamMember user id memberId w =
      (Ret (fail 400 "User is already a member of this team."), w')
      /\ db w' = db w.
Proof.
  intros w user id memberId team u Hw Hid Hmid Hteam Hauth Hu Hrole Hin.
  unfold teamcontroller.addTeamMember, team_by_id, user_by_id in *.
  unfold_handler. rewrite Hid. ok_roundtrip. rewrite Hteam, Hauth. cbn.
  rewrite isValidObjectId_canonical, Hmid. ok_roundtrip.
  rewrite Hu, Hrole. cbn.
  rewrite (proj2 (includes_In memberId _) Hin).
  eexists. split; reflexivity.
Qed.

(** Removing an id that is not a member is refused with status 400 and
    writes nothing. *)
Lemma removeTeamMember_absent :
  forall (w : World) (user : User.doc) (id memberId : string)
         (team : Team.doc),
    healthy w ->
    isValidObjectId id = true ->
    team_by_id (db w) id = Some team ->
    teamcontroller.isTeamLeaderOrAdmin user team = true ->
    ~ In memberId (Team.members team) ->
    exists w',
      teamcontroller.removeTeamMember user id memberId w =
      (Ret (fail 400 "User is not a member of this team."), w')
      /\ db w' = db w.
Proof.
  intros w user id memberId team Hw Hid Hteam Hauth Hout.
  unfold teamcontroller.removeTeamMember, team_by_id in *.
  unfold_handler. rewrite Hid. ok_roundtrip. rewrite Hteam, Hauth. cbn.
  rewrite (filter_out_absent _ _ Hout), Nat.eqb_refl.
  eexists. split; reflexivity.
Qed.

(** A successful add-member call whose id is written in canonical form
    leaves a store in which the same call is refused as a conflict. *)
Lemma addTeamMember_twice :
  forall (w w1 : World) (user : User.doc) (id memberId : string)
         (r1 : Response),
    canonical memberId = memberId ->
    teamcontroller.addTeamMember user id memberId w = (Ret r1, w1) ->
    status r1 = 200 ->
    healthy w1 ->
    exists w2,
      teamcontroller.addTeamMember user id memberId w1 =
      (Ret (fail 400 "User is already a member of this team."), w2)
      /\ db w2 = db w1.
Proof.
  intros w w1 user id memberId r1 Hcanon Hrun Hst Hw1.
  unfold teamcontroller.addTeamMember in Hrun. rewrite Hcanon in Hrun.
  unfold_handler.
  destruct (isValidObjectId id) eqn:Hid; [|done_run Hrun].
  next_roundtrip; [|done_run Hrun].
  destruct (find (fun t => Team._id t =? id) (teams (db w)))
    as [team|] eqn:Hteam; [|done_run Hrun].
  cbn in Hrun.
  destruct (teamcontroller.isTeamLeaderOrAdmin user team) eqn:Hauth;
    cbn in Hrun; [|done_run Hrun].
  destruct (isValidObjectId memberId) eqn:Hmid; [|done_run Hrun].
  next_roundtrip; [|done_run Hrun].
  destruct (find (fun u => User._id u =? memberId) (users (db w)))
    as [u|] eqn:Hu; [|done_run Hrun].
  cbn in Hrun.
  destruct (User.role u =? "team_member") eqn:Hrole; cbn in Hrun;
    [|done_run Hrun].
  destruct (existsb (String.eqb memberId) (Team.members team)) eqn:Hinc;
    [done_run Hrun|].
  next_roundtrip; [|done_run Hrun].
  pose proof (find_team_id _ _ _ Hteam) as Hteam_id.
  rewrite Hteam_id, Hid in Hrun.
  next_roundtrip; [|done_run Hrun].
  next_roundtrip; [|done_run Hrun].
  next_roundtrip; [|done_run Hrun].
  inversion Hrun; subst r1 w1; clear Hrun.
  apply addTeamMember_existing
    with (team := teamcontroller.with_members
                    (Team.members team ++ [memberId]) team) (u := u);
    auto.
  - unfold team_by_id; cbn. subst id.
    apply (find_replace_team
             (teamcontroller.with_members
                (Team.members team ++ [memberId])
                team) _ team).
    exact Hteam.
  - now rewrite Hcanon.
  - now apply String.eqb_eq.
  - cbn. apply in_or_app. right. now left.
Qed.

(** C9 (amended).  For a caller who is admin or leader of the team and
    a store that answers: adding an id that occurs in [members] as it
    is written, for a user of role team_member, is refused as a
    conflict (status 400) and changes nothing; a second identical
    add-member call after a successful one is refused when the id is
    written the way ObjectIds print, in lower case; removing an id that
    is not in [members] is refused with status 400, the answer "User is
    not a member of this team.", not with 404, and changes nothing. *)
Theorem membership_changes_refused :
  forall (w : World) (user : User.doc) (id memberId : string)
         (team : Team.doc),
    healthy w ->
    isValidObjectId id = true ->
    team_by_id (db w) id = Some team ->
    teamcontroller.isTeamLeaderOrAdmin user team = true ->
    (In memberId (Team.members team) ->
     isValidObjectId memberId = true ->
     (exists u, user_by_id (db w) (canonical memberId) = Some u
                /\ User.role u = "team_member") ->
     exists r w',
       teamcontroller.addTeamMember user id memberId w = (Ret r, w')
       /\ Conflict (status r)
       /\ message r = Some "User is already a member of this team."
       /\ db w' = db w)
    /\ (forall r1 w1,
          canonical memberId = memberId ->
          teamcontroller.addTeamMember user id memberId w = (Ret r1, w1) ->
          status r1 = 200 ->
          healthy w1 ->
          exists r2 w2,
            teamcontroller.addTeamMember user id memberId w1 = (Ret r2, w2)
            /\ Conflict (status r2)
            /\ db w2 = db w1)
    /\ (~ In memberId (Team.members team) ->
        exists r w',
          teamcontroller.removeTeamMember user id memberId w = (Ret r, w')
          /\ status r = BadRequest
          /\ status r <> NotFound
          /\ message r = Some "User is not a member of this team."
          /\ db w' = db w).
Proof.
  intros w user id memberId team Hw Hid Hteam Hauth. repeat split.
  - intros Hin Hmid (u & Hu & Hrole).
    destruct (addTeamMember_existing w user id memberId team u)
      as (w' & Hrun & Hdb); auto.
    exists (fail 400 "User is already a member of this team."), w'.
    repeat split; auto. now left.
  - intros r1 w1 Hcanon Hrun Hst Hw1.
    destruct (addTeamMember_twice w w1 user id memberId r1)
      as (w2 & Hrun2 & Hdb); auto.
    exists (fail 400 "User is already a member of this team."), w2.
    repeat split; auto. now left.
  - intros Hout.
    destruct (removeTeamMember_absent w user id memberId team)
      as (w' & Hrun & Hdb); auto.
    exists (fail 400 "User is not a member of this team."), w'.
    repeat split; auto. discriminate.
Qed.

Lemma membership_changes_refused_run :
  (exists r w',
     teamcontroller.addTeamMember Scenario.leader Scenario.delhiId
       Scenario.memberId Scenario.world = (Ret r, w')
     /\ Conflict (status r)
     /\ db w' = db Scenario.world)
  /\ (exists r w',
        teamcontroller.removeTeamMember Scenario.leader Scenario.delhiId
          Scenario.outsiderId Scenario.world = (Ret r, w')
        /\ status r = BadRequest
        /\ db w' = db Scenario.world).
Proof.
  assert (Hw : healthy Scenario.world) by (intros b []).
  split.
  - destruct
      (membership_changes_refused Scenario.world Scenario.leader
         Scenario.delhiId Scenario.memberId Scenario.delhi
         Hw eq_refl eq_refl eq_refl)
      as (Hadd & _ & _).
    destruct Hadd as (r & w' & Hrun & Hc & _ & Hdb).
    + simpl. now left.
    + reflexivity.
    + exists Scenario.member. split; reflexivity.
    + exists r, w'. repeat split; assumption.
  - destruct
      (membership_changes_refused Scenario.world Scenario.leader
         Scenario.delhiId Scenario.outsiderId Scenario.delhi
         Hw eq_refl eq_refl eq_refl)
      as (_ & _ & Hrem).
    destruct Hrem as (r & w' & Hrun & Hs & _ & _ & Hdb).
    + simpl. intros [H | []]. discriminate H.
    + exists r, w'. repeat split; assumption.
Defined.

(** C9 as stated fails: the leader removes a user who is not a member
    of the team and is answered with status 400, not with 404. *)
Lemma removeTeamMember_absent_is_not_NotFound :
  ~ In Scenario.outsiderId (Team.members Scenario.delhi)
  /\ exists r w',
       teamcontroller.removeTeamMember Scenario.leader Scenario.delhiId
         Scenario.outsiderId Scenario.world = (Ret r, w')
       /\ status r = 400
       /\ status r <> NotFound.
Proof.
  split.
  - simpl. intros [H | []]. discriminate H.
  - eexists. eexists. split; [reflexivity|]. split; [reflexivity|].
    discriminate.
Qed.

(** The spelling of the id matters to the membership test only: the
    leader who adds the member of the team once more, writing the last
    digit of the id in upper case, is answered 200, and the id is
    stored a second time. *)
Lemma addTeamMember_other_spelling :
  let run :=
    teamcontroller.addTeamMember Scenario.leader Scenario.delhiId
      (Scenario.id "C") Scenario.world in
  option_map status (answer run) = Some 200
  /\ option_map Team.members (team_by_id (db (snd run)) Scenario.delhiId)
     = Some [Scenario.memberId; Scenario.memberId].
Proof.
  vm_compute. split; reflexivity.
Qed.

(** ** Racks: the authorization of writes *)

Ltac unfold_rack :=
  cbv beta iota zeta delta
    [asyncHandler try_catch finally bind ret throw query update
     castObjectId Team_findOne_siteName Team_find_led Team_find_memberOf
     Rack_findOne_partNo_rackNo Rack_create Rack_findById_populated
     Rack_findByIdAndUpdate Rack_deleteOne Rack_aggregate fail] in *.

Lemma member_In (id : ObjectId) (l : list ObjectId) :
  existsb (fun m => m =? id) l = true <-> In id l.
Proof.
  rewrite existsb_exists. split.
  - intros (x & Hx & E). apply String.eqb_eq in E. now subst.
  - intros H. exists id. split; [assumption | apply String.eqb_refl].
Qed.

(** C1 (amended).  A principal whose role is team_member is answered
    Forbidden on every update and every delete of a rack, whatever the
    rack and its team, and the world is left as it was; the create
    request of the same principal for a site passes the authorization
    when the principal is a member of the team the site name resolves
    to, which is the first team stored under that name, and, when no
    rack holds the pair yet and the location is an enumerated one,
    stores the rack for that team. *)
Theorem team_member_creates_but_never_updates_or_deletes :
  forall (w : World) (user : User.doc),
    User.role user = "team_member" ->
    (forall id body,
        exists r,
          rackRoutes.put_id (Some user) id body w = (Ret r, w)
          /\ status r = Forbidden)
    /\ (forall id,
           exists r,
             rackRoutes.delete_id (Some user) id w = (Ret r, w)
             /\ status r = Forbidden)
    /\ (forall newId now body team rackNo partNo nextQty siteName location,
           healthy w ->
           Rack.b_rackNo body = Some rackNo -> rackNo <> "" ->
           Rack.b_partNo body = Some partNo -> partNo <> "" ->
           Rack.b_nextQty body = Some nextQty ->
           Rack.b_siteName body = Some siteName -> siteName <> "" ->
           Rack.b_location body = Some location -> location <> "" ->
           find (fun t => Team.siteName t =? siteName) (teams (db w))
           = Some team ->
           In (User._id user) (Team.members team) ->
           exists r w',
             rackRoutes.post_root newId now (Some user) body w = (Ret r, w')
             /\ status r <> Forbidden
             /\ status r <> 401
             /\ (find (fun r => (Rack.partNo r =? partNo)
                                && (Rack.rackNo r =? rackNo))
                   (racks (db w)) = None ->
                 Rack.in_enum location = true ->
                 status r = 201
                 /\ racks (db w') =
                    racks (db w)
                    ++ [created newId now user team rackNo partNo nextQty
                          siteName location])).
Proof.
  intros w user Hrole. repeat split.
  - intros id body. unfold rackRoutes.put_id, authMiddleware.authorize.
    rewrite Hrole. cbn. eexists. split; reflexivity.
  - intros id. unfold rackRoutes.delete_id, authMiddleware.authorize.
    rewrite Hrole. cbn. eexists. split; reflexivity.
  - intros newId now body team rackNo partNo nextQty siteName location
      Hw HrackNo NrackNo HpartNo NpartNo HnextQty HsiteName NsiteName
      Hlocation Nlocation Hteam Hmember.
    unfold rackRoutes.post_root, authMiddleware.authorize,
      rackcontroller.createRack.
    rewrite Hrole. cbn.
    rewrite HrackNo, HpartNo, HnextQty, HsiteName, Hlocation.
    apply String.eqb_neq in NrackNo, NpartNo, NsiteName, Nlocation.
    rewrite NrackNo, NpartNo, NsiteName, Nlocation. cbn.
    unfold_rack. ok_roundtrip. rewrite Hteam.
    rewrite (proj2 (member_In _ _) Hmember).
    cbn. ok_roundtrip.
    destruct (find _ (racks (db w))) as [existing|] eqn:Hdup.
    + eexists. eexists. split; [reflexivity|].
      cbn. repeat split; try discriminate.
    + unfold Rack.validate.
      cbn [Rack.rackNo Rack.partNo Rack.siteName Rack.location].
      rewrite NrackNo, NpartNo, NsiteName.
      destruct (Rack.in_enum location) eqn:Henum.
      * cbn. ok_roundtrip. eexists. eexists. split; [reflexivity|].
        cbn. repeat split; try discriminate.
      * eexists. eexists. split; [reflexivity|].
        split; [cbn; discriminate|]. split; [cbn; discriminate|].
        intros _ H. change (Rack.in_enum location = true) in H. congruence.
Qed.

Lemma team_member_creates_but_never_updates_or_deletes_run :
  (exists r,
     rackRoutes.put_id (Some Scenario.member) Scenario.rackId
       Scenario.rescanBody Scenario.world = (Ret r, Scenario.world)
     /\ status r = Forbidden)
  /\ (exists r,
        rackRoutes.delete_id (Some Scenario.member) Scenario.rackId
          Scenario.world = (Ret r, Scenario.world)
        /\ status r = Forbidden)
  /\ (exists r w',
        rackRoutes.post_root Scenario.freshId 200 (Some Scenario.member)
          (Scenario.createBody "R2" "P2" "Delhi-1") Scenario.world
        = (Ret r, w')
        /\ status r = 201).
Proof.
  destruct
    (team_member_creates_but_never_updates_or_deletes Scenario.world
       Scenario.member eq_refl)
    as (Hput & Hdel & Hpost).
  split; [apply Hput|]. split; [apply Hdel|].
  destruct
    (Hpost Scenario.freshId 200%Z (Scenario.createBody "R2" "P2" "Delhi-1")
       Scenario.delhi "R2" "P2" 7%Z "Delhi-1" "SPARES")
    as (r & w' & Hrun & _ & _ & Hcreated);
    try reflexivity; try discriminate.
  - intros b [].
  - simpl. now left.
  - exists r, w'. split; [assumption|]. now apply Hcreated.
Defined.

(** C1 as stated fails: the admin completes the team of Delhi-1 and
    creates a second team for the same site, Active and with the member
    among its members; the member's create request for the site of its
    own team is then answered Forbidden and stores nothing, because the
    site name still resolves to the completed team. *)
Lemma member_of_second_team_cannot_create :
  let completion :=
    teamcontroller.completeTeamWork Scenario.admin Scenario.delhiId
      Scenario.world in
  let creation :=
    teamcontroller.createTeam Cases.newTeamId Scenario.admin
      Cases.secondDelhi (snd completion) in
  let own := team_by_id (db Cases.reopened) Cases.newTeamId in
  let request :=
    rackRoutes.post_root Scenario.freshId 200 (Some Scenario.member)
      (Scenario.createBody "R9" "P9" "Delhi-1") Cases.reopened in
  option_map status (answer completion) = Some 200
  /\ option_map status (answer creation) = Some 201
  /\ snd creation = Cases.reopened
  /\ User.role Scenario.member = "team_member"
  /\ option_map Team.siteName own = Some "Delhi-1"
  /\ option_map Team.status own = Some "Active"
  /\ option_map Team.members own = Some [User._id Scenario.member]
  /\ option_map status (answer request) = Some Forbidden
  /\ db (snd request) = db Cases.reopened.
Proof.
  vm_compute. repeat split; reflexivity.
Qed.

(** ** Racks: what an update writes *)

Lemma find_update_rack (id : ObjectId) (f : Rack.doc -> Rack.doc)
    (l : list Rack.doc) (x : Rack.doc) :
  (forall r, Rack._id (f r) = Rack._id r) ->
  find (fun r => Rack._id r =? id) l = Some x ->
  find (fun r => Rack._id r =? id) (update_rack id f l) = Some (f x).
Proof.
  intros Hf. induction l as [|y l IH]; simpl; [discriminate|].
  destruct (Rack._id y =? id) eqn:E; simpl.
  - intros H. inversion H; subst. now rewrite Hf, E.
  - rewrite E. exact IH.
Qed.

(** C6 (amended).  After a successful [updateRack], the [scannedBy] of
    the rack is the one the request body supplies when it supplies one,
    and the previous one otherwise: the field is preserved by every
    update that does not name it. *)
Theorem updateRack_scannedBy :
  forall (w w' : World) (user : User.doc) (rackId : string)
         (body : Rack.body) (r : Response),
    rackcontroller.updateRack user rackId body w = (Ret r, w') ->
    status r = 200 ->
    exists before after,
      rack_by_id (db w) rackId = Some before
      /\ rack_by_id (db w') rackId = Some after
      /\ Rack.scannedBy after =
         or_else (Rack.b_scannedBy body) (Rack.scannedBy before)
      /\ (Rack.b_scannedBy body = None ->
          Rack.scannedBy after = Rack.scannedBy before).
Proof.
  intros w w' user rackId body r Hrun Hst.
  unfold rackcontroller.updateRack in Hrun. unfold_rack.
  destruct (isValidObjectId rackId); cbn in Hrun; [|done_run Hrun].
  next_roundtrip; [|done_run Hrun].
  destruct (find (fun r => Rack._id r =? rackId) (racks (db w)))
    as [before|] eqn:Hfind; [|done_run Hrun].
  cbn in Hrun.
  next_roundtrip; [|done_run Hrun].
  match type of Hrun with
  | context [negb ?c] => destruct c
  end; cbn in Hrun; [|done_run Hrun].
  destruct (Rack_update_ok body); [|done_run Hrun].
  next_roundtrip; [|done_run Hrun].
  inversion Hrun; subst r w'; clear Hrun. cbn.
  exists before, (Rack_set body before). unfold rack_by_id.
  split; [assumption|]. split.
  - now apply find_update_rack.
  - split; [reflexivity|]. cbn. intros E. now rewrite E.
Qed.

Lemma updateRack_scannedBy_run :
  exists after,
    rack_by_id
      (db (snd (rackcontroller.updateRack Scenario.leader Scenario.rackId
                  (Scenario.createBody "R9" "P1" "Delhi-1") Scenario.world)))
      Scenario.rackId = Some after
    /\ Rack.scannedBy after = Rack.scannedBy Scenario.rack.
Proof.
  destruct
    (updateRack_scannedBy Scenario.world _ Scenario.leader Scenario.rackId
       (Scenario.createBody "R9" "P1" "Delhi-1") _ eq_refl eq_refl)
    as (before & after & Hb & Ha & _ & Hkeep).
  exists after. split; [assumption|].
  injection Hb as <-. now apply Hkeep.
Defined.

(** C6 as stated fails: the leader of the rack's team updates it with a
    body that names another scanner; the update succeeds and the rack's
    [scannedBy] is no longer what it was. *)
Lemma updateRack_overwrites_scannedBy :
  exists r w' after,
    rackcontroller.updateRack Scenario.leader Scenario.rackId
      Scenario.rescanBody Scenario.world = (Ret r, w')
    /\ status r = 200
    /\ rack_by_id (db Scenario.world) Scenario.rackId = Some Scenario.rack
    /\ rack_by_id (db w') Scenario.rackId = Some after
    /\ Rack.scannedBy after <> Rack.scannedBy Scenario.rack.
Proof.
  eexists. eexists. eexists.
  split; [reflexivity|]. split; [reflexivity|]. split; [reflexivity|].
  split; [reflexivity|]. discriminate.
Qed.

(** ** Racks: the duplicate check of a create *)

(** C7, on the code: a rack with the pair (P1, R1) exists at Delhi-1
    only; the admin's create request for the same pair at Pune-1, where
    no rack holds it, is refused as a duplicate and stores nothing. *)
Lemma createRack_blocked_by_other_site :
  (forall r,
      In r (racks Scenario.site) ->
      Rack.siteName r = "Pune-1" ->
      ~ (Rack.partNo r = "P1" /\ Rack.rackNo r = "R1"))
  /\ exists w',
       rackcontroller.createRack Scenario.freshId 200 Scenario.admin
         (Scenario.createBody "R1" "P1" "Pune-1") Scenario.world
       = (Ret (fail 400 "PartNumber  already exists for this Rack."), w')
       /\ db w' = db Scenario.world.
Proof.
  split.
  - intros r [<- | []] Hsite. discriminate Hsite.
  - eexists. split; reflexivity.
Qed.

(** The duplicate check looks at the pair only: any rack with the same
    [partNo] and [rackNo], at whatever site, makes the create request of
    an admin fail with the duplicate answer. *)
Lemma createRack_duplicate_check_ignores_site :
  forall (w : World) (newId : ObjectId) (now : Z) (user : User.doc)
         (body : Rack.body) (team : Team.doc) (existing : Rack.doc)
         (rackNo partNo siteName location : string) (nextQty : Z),
    healthy w ->
    User.role user = "admin" ->
    Rack.b_rackNo body = Some rackNo -> rackNo <> "" ->
    Rack.b_partNo body = Some partNo -> partNo <> "" ->
    Rack.b_nextQty body = Some nextQty ->
    Rack.b_siteName body = Some siteName -> siteName <> "" ->
    Rack.b_location body = Some location -> location <> "" ->
    find (fun t => Team.siteName t =? siteName) (teams (db w)) = Some team ->
    In existing (racks (db w)) ->
    Rack.partNo existing = partNo ->
    Rack.rackNo existing = rackNo ->
    exists w',
      rackcontroller.createRack newId now user body w =
      (Ret (fail 400 "PartNumber  already exists for this Rack."), w')
      /\ db w' = db w.
Proof.
  intros w newId now user body team existing rackNo partNo siteName location
    nextQty Hw Hrole HrackNo NrackNo HpartNo NpartNo HnextQty HsiteName
    NsiteName Hlocation Nlocation Hteam Hin Hp Hr.
  unfold rackcontroller.createRack.
  rewrite HrackNo, HpartNo, HnextQty, HsiteName, Hlocation.
  apply String.eqb_neq in NrackNo, NpartNo, NsiteName, Nlocation.
  rewrite NrackNo, NpartNo, NsiteName, Nlocation. cbn.
  unfold_rack. ok_roundtrip. rewrite Hteam, Hrole. cbn. ok_roundtrip.
  destruct (find (fun r => (Rack.partNo r =? partNo) && (Rack.rackNo r =? rackNo))
              (racks (db w))) as [found|] eqn:Hfind.
  - eexists. split; reflexivity.
  - exfalso. apply (find_none _ _ Hfind) in Hin. cbn in Hin.
    subst. now rewrite !String.eqb_refl in Hin.
Qed.

(** ** Racks: the reads *)

Lemma opt_eqb_true (a : option ObjectId) (b : ObjectId) :
  opt_eqb a b = true <-> a = Some b.
Proof.
  destruct a as [x|]; simpl.
  - rewrite String.eqb_eq. split; congruence.
  - split; discriminate.
Qed.

Lemma find_head_filter {A} (p : A -> bool) (l : list A) :
  filter p l = match find p l with
               | Some x => x :: tl (filter p l)
               | None => []
               end.
Proof.
  induction l as [|y l IH]; simpl; [reflexivity|].
  destruct (p y); [reflexivity | exact IH].
Qed.

(** The first document out of a lookup stage is the first input joined
    with its first partner. *)
Lemma lookup_unwind_head {A B} (from : list B) (on : A -> B -> bool)
    (merge : A -> option B -> A) (x : A) (xs : list A) :
  exists rest,
    lookup_unwind from on merge (x :: xs)
    = merge x (find (on x) from) :: rest.
Proof.
  unfold lookup_unwind. simpl.
  rewrite (find_head_filter (on x) from).
  destruct (find (on x) from); simpl; eexists; reflexivity.
Qed.

(** A lookup stage neither drops nor invents input documents, as seen
    through any key the merge preserves. *)
Lemma lookup_unwind_key {A B K} (key : A -> K) (from : list B)
    (on : A -> B -> bool) (merge : A -> option B -> A) (docs : list A) :
  (forall a m, key (merge a m) = key a) ->
  forall k,
    (exists v, In v (lookup_unwind from on merge docs) /\ key v = k)
    <-> (exists a, In a docs /\ key a = k).
Proof.
  intros Hkey k. unfold lookup_unwind. split.
  - intros (v & Hv & <-). apply in_flat_map in Hv.
    destruct Hv as (a & Ha & Hv). exists a. split; [assumption|].
    destruct (filter (on a) from) as [|m ms].
    + destruct Hv as [<- | []]. symmetry. apply Hkey.
    + apply in_map_iff in Hv. destruct Hv as (m' & <- & _).
      symmetry. apply Hkey.
  - intros (a & Ha & <-).
    destruct (filter (on a) from) as [|m ms] eqn:E.
    + exists (merge a None). split; [|apply Hkey].
      apply in_flat_map. exists a. split; [assumption|].
      rewrite E. now left.
    + exists (merge a (Some m)). split; [|apply Hkey].
      apply in_flat_map. exists a. split; [assumption|].
      rewrite E. now left.
Qed.

Lemma insert_desc_perm (v : RackView) (l : list RackView) :
  Permutation (insert_desc v l) (v :: l).
Proof.
  induction l as [|x l IH]; simpl; [reflexivity|].
  destruct (Rack.createdAt (rv_rack x) <=? Rack.createdAt (rv_rack v))%Z.
  - reflexivity.
  - rewrite IH. apply perm_swap.
Qed.

(** The sort stage permutes its input. *)
Lemma sort_createdAt_desc_perm (l : list RackView) :
  Permutation (sort_createdAt_desc l) l.
Proof.
  induction l as [|x l IH]; simpl; [reflexivity|].
  rewrite insert_desc_perm. now constructor.
Qed.

(** The racks that come out of the pipeline are the racks the [$match]
    stage lets in. *)
Lemma joined_racks (d : Db) (f : MatchFilter) (r : Rack.doc) :
  (exists v, In v (joined d f) /\ rv_rack v = r)
  <-> In r (racks d) /\ matches f r = true.
Proof.
  unfold joined.
  rewrite (lookup_unwind_key rv_rack) by reflexivity.
  rewrite (lookup_unwind_key rv_rack) by reflexivity.
  rewrite (lookup_unwind_key rv_rack) by reflexivity.
  rewrite <- filter_In. split.
  - intros (a & Ha & <-). apply in_map_iff in Ha.
    now destruct Ha as (r' & <- & Hr').
  - intros Hr. exists (bare r). split; [|reflexivity].
    apply in_map_iff. now exists r.
Qed.

Lemma led_teams (d : Db) (uid tid : ObjectId) :
  In tid
    (map Team._id
       (filter (fun t => opt_eqb (Team.teamLeader t) uid) (teams d)))
  <-> leads_team d uid tid.
Proof.
  unfold leads_team. rewrite in_map_iff. split.
  - intros (t & Hid & Ht). apply filter_In in Ht. destruct Ht as (Ht & Hl).
    exists t. repeat split; auto. now apply opt_eqb_true.
  - intros (t & Ht & Hid & Hl). exists t. split; [assumption|].
    apply filter_In. split; [assumption|]. now apply opt_eqb_true.
Qed.

Lemma at_site_matches (siteName : option string) (r : Rack.doc) :
  match (if truthy siteName then siteName else None) with
  | Some s => Rack.siteName r =? s
  | None => true
  end = true
  <-> at_site siteName r.
Proof.
  unfold at_site. destruct siteName as [s|]; simpl.
  - destruct (s =? "") eqn:E; simpl.
    + apply String.eqb_eq in E. split; [|reflexivity].
      intros _ s' [= <-] Hs. contradiction.
    + rewrite String.eqb_eq. apply String.eqb_neq in E. split.
      * intros H s' [= <-] _. exact H.
      * intros H. now apply H.
  - split; [|reflexivity]. intros _ s' H. discriminate H.
Qed.

#[local] Arguments joined : simpl never.
#[local] Arguments sort_createdAt_desc : simpl never.

(** C5 (amended).  A rack list query of a team_leader principal is
    answered with success, and the racks in the answer are exactly the
    racks of the teams the principal leads that also satisfy the
    optional [siteName] refinement: the whole union when no site name is
    given, and never a rack of a team the principal does not lead.  When
    the principal leads no team the answer is the successful empty
    list. *)
Theorem getRacks_team_leader :
  forall (w : World) (user : User.doc) (siteName teamId : option string),
    healthy w ->
    User.role user = "team_leader" ->
    exists data w',
      rackcontroller.getRacks (Some user) siteName teamId w =
      (Ret {| status := 200; success := Some true; message := None;
              payload := RackList (List.length data) data |}, w')
      /\ db w' = db w
      /\ (forall rack,
             (exists v, In v data /\ rv_rack v = rack)
             <-> In rack (racks (db w))
                 /\ leads_team (db w) (User._id user) (Rack.team rack)
                 /\ at_site siteName rack)
      /\ ((forall t, In t (teams (db w)) ->
                     Team.teamLeader t <> Some (User._id user)) ->
          data = []).
Proof.
  intros w user siteName teamId Hw Hrole.
  unfold rackcontroller.getRacks. rewrite Hrole. cbn.
  unfold_rack. ok_roundtrip.
  destruct (map Team._id
              (filter (fun t => opt_eqb (Team.teamLeader t) (User._id user))
                 (teams (db w)))) as [|tid tids] eqn:Hled; cbn.
  - exists [], (served w). split; [reflexivity|]. split; [reflexivity|].
    split; [|reflexivity].
    intros rack. split.
    + intros (v & [] & _).
    + intros (_ & Hl & _). apply led_teams in Hl. rewrite Hled in Hl.
      destruct Hl.
  - ok_roundtrip. eexists. eexists.
    split; [reflexivity|]. split; [reflexivity|]. split.
    + intros rack.
      transitivity
        (exists v,
            In v (joined (db w)
                    {| mf_id := None; mf_team := Some (TeamIn (tid :: tids));
                       mf_siteName :=
                         if truthy siteName then siteName else None |})
            /\ rv_rack v = rack).
      * split; intros (v & Hv & E); exists v; split; auto.
        -- eapply Permutation_in; [apply sort_createdAt_desc_perm | exact Hv].
        -- eapply Permutation_in;
             [symmetry; apply sort_createdAt_desc_perm | exact Hv].
      * rewrite joined_racks. unfold matches.
        cbn [mf_id mf_team mf_siteName].
        rewrite andb_true_l, andb_true_iff, includes_In, at_site_matches.
        rewrite <- Hled, led_teams. tauto.
    + intros Hnone. exfalso.
      assert (Hin : In tid (tid :: tids)) by now left.
      rewrite <- Hled in Hin. apply led_teams in Hin.
      destruct Hin as (t & Ht & _ & Hl). exact (Hnone t Ht Hl).
Qed.

Lemma getRacks_team_leader_run :
  exists data w',
    rackcontroller.getRacks (Some Scenario.leader) None None Scenario.world =
    (Ret {| status := 200; success := Some true; message := None;
            payload := RackList (List.length data) data |}, w')
    /\ exists v, In v data /\ rv_rack v = Scenario.rack.
Proof.
  destruct
    (getRacks_team_leader Scenario.world Scenario.leader None None)
    as (data & w' & Hrun & _ & Hracks & _).
  - intros b [].
  - reflexivity.
  - exists data, w'. split; [assumption|].
    apply Hracks. split; [now left|]. split.
    + exists Scenario.delhi. split; [now left|]. split; reflexivity.
    + intros s H. discriminate H.
Defined.

(** C5 as stated fails: the leader of Delhi-1 lists racks with the
    refinement [siteName=Pune-1]; the answer is empty although the team
    the principal leads has a rack. *)
Lemma getRacks_siteName_hides_led_rack :
  In Scenario.rack (racks Scenario.site)
  /\ leads_team Scenario.site Scenario.leaderId (Rack.team Scenario.rack)
  /\ exists w',
       rackcontroller.getRacks (Some Scenario.leader) (Some "Pune-1") None
         Scenario.world =
       (Ret {| status := 200; success := Some true; message := None;
               payload := RackList 0 [] |}, w').
Proof.
  split; [now left|]. split.
  - exists Scenario.delhi. split; [now left|]. split; reflexivity.
  - eexists. reflexivity.
Qed.

(** C8 (amended).  A single-rack read whose id is not a well-formed
    ObjectId is answered with status 400, "Invalid Rack ID.", whoever
    the principal is: not with NotFound, and not with Forbidden even
    for a principal without any team, since the id is checked before
    the rack is fetched and before the principal is looked at.  The
    store is not consulted and nothing changes. *)
Theorem getRackById_answers :
  forall (w : World) (user : User.doc) (rackId : string),
    isValidObjectId rackId = false ->
    exists r,
      rackcontroller.getRackById user rackId w = (Ret r, w)
      /\ status r = BadRequest
      /\ message r = Some "Invalid Rack ID."
      /\ status r <> NotFound
      /\ status r <> Forbidden.
Proof.
  intros w user rackId Hid.
  exists (fail BadRequest "Invalid Rack ID.").
  unfold rackcontroller.getRackById. rewrite Hid.
  split; [reflexivity|]. split; [reflexivity|]. split; [reflexivity|].
  split; discriminate.
Qed.

Lemma getRackById_answers_run :
  exists r,
    rackcontroller.getRackById Scenario.outsider "not-an-id" Scenario.world
    = (Ret r, Scenario.world)
    /\ status r = BadRequest
    /\ message r = Some "Invalid Rack ID."
    /\ status r <> NotFound
    /\ status r <> Forbidden.
Proof.
  apply (getRackById_answers Scenario.world Scenario.outsider "not-an-id").
  reflexivity.
Defined.

(** C8 as stated fails: a read with an id that is not a well-formed
    ObjectId is answered with status 400, not with NotFound. *)
Lemma getRackById_invalid_id_is_not_NotFound :
  isValidObjectId "not-an-id" = false
  /\ exists r w',
       rackcontroller.getRackById Scenario.admin "not-an-id" Scenario.world
       = (Ret r, w')
       /\ status r = 400
       /\ status r <> NotFound.
Proof.
  split; [reflexivity|].
  eexists. eexists. split; [reflexivity|]. split; [reflexivity|].
  discriminate.
Qed.

(** ** Export snapshots *)

Lemma snapshotsToSave_stamped (snapshots : list SnapshotItem.t)
    (teamId siteName : string) (exportedBy : ObjectId) :
  Forall
    (fun row =>
       SnapshotToSave.team row = teamId
       /\ SnapshotToSave.siteName row = siteName
       /\ SnapshotToSave.exportedBy row = exportedBy)
    (exportedrackcontroller.snapshotsToSave snapshots teamId siteName
       exportedBy).
Proof.
  unfold exportedrackcontroller.snapshotsToSave.
  induction snapshots as [|s l IH]; simpl; constructor; auto.
Qed.

Lemma cast_keeps_stamp (now : Z) (row : SnapshotToSave.t)
    (d : ExportedRack.doc) :
  ExportedRack.cast now row = Some d ->
  ExportedRack.team d = SnapshotToSave.team row
  /\ ExportedRack.siteName d = trim (SnapshotToSave.siteName row)
  /\ ExportedRack.exportedBy d = SnapshotToSave.exportedBy row.
Proof.
  unfold ExportedRack.cast.
  destruct (SnapshotToSave.sNo row), (SnapshotToSave.location row),
    (SnapshotToSave.rackNo row), (SnapshotToSave.partNo row),
    (SnapshotToSave.nextQty row); try discriminate.
  match goal with
  | |- (if ?c then _ else _) = _ -> _ => destruct c; [|discriminate]
  end.
  intros [= <-]. repeat split.
Qed.

(** What the collection receives is the image of the rows under the
    schema, one document per row and in the same order. *)
Lemma cast_all_rows (now : Z) (rows : list SnapshotToSave.t)
    (saved : list ExportedRack.doc) :
  exportedrackcontroller.cast_all now rows = Some saved ->
  Forall2 (fun row d => ExportedRack.cast now row = Some d) rows saved.
Proof.
  revert saved. induction rows as [|row rows IH]; simpl; intros saved.
  - intros [= <-]. constructor.
  - destruct (ExportedRack.cast now row) as [stored|] eqn:Hd; [|discriminate].
    destruct (exportedrackcontroller.cast_all now rows) as [ds|];
      [|discriminate].
    intros [= <-]. constructor; auto.
Qed.

Lemma saved_stamped (now : Z) (t s : string) (uid : ObjectId)
    (rows : list SnapshotToSave.t) (saved : list ExportedRack.doc) :
  Forall
    (fun row =>
       SnapshotToSave.team row = t
       /\ SnapshotToSave.siteName row = s
       /\ SnapshotToSave.exportedBy row = uid)
    rows ->
  Forall2 (fun row doc => ExportedRack.cast now row = Some doc) rows saved ->
  Forall
    (fun doc =>
       ExportedRack.team doc = t
       /\ ExportedRack.siteName doc = trim s
       /\ ExportedRack.exportedBy doc = uid)
    saved.
Proof.
  intros Hrows Hsaved. induction Hsaved as [|row doc rows ds Hd _ IH].
  - constructor.
  - inversion Hrows as [|? ? (Ht & Hs & He) Hrest]; subst.
    constructor; [|now apply IH].
    destruct (cast_keeps_stamp _ _ _ Hd) as (-> & -> & ->).
    repeat split; reflexivity.
Qed.

(** C10 (amended).  After a successful bulk creation of export
    snapshots, the rows handed to the collection are the line items
    stamped with the request-level [teamId] and [siteName] and with the
    id of the requesting principal, whatever [team], [siteName] or
    [exportedBy] the line items carry themselves; the collection grows
    by exactly one document per line item, whose [team] is the
    request-level team id, whose [exportedBy] is the principal and whose
    [siteName] is the request-level site name with the surrounding
    white space trimmed by the schema. *)
Theorem createExportedSnapshots_stamps_request_values :
  forall (w w' : World) (now : Z) (user : User.doc)
         (snapshots : list SnapshotItem.t) (teamId siteName : option string)
         (r : Response),
    exportedrackcontroller.createExportedSnapshots now user snapshots
      teamId siteName w = (Ret r, w') ->
    status r = 201 ->
    exists t s saved,
      teamId = Some t /\ siteName = Some s
      /\ Forall
           (fun row =>
              SnapshotToSave.team row = t
              /\ SnapshotToSave.siteName row = s
              /\ SnapshotToSave.exportedBy row = User._id user)
           (exportedrackcontroller.snapshotsToSave snapshots t s
              (User._id user))
      /\ Forall2 (fun row d => ExportedRack.cast now row = Some d)
           (exportedrackcontroller.snapshotsToSave snapshots t s
              (User._id user))
           saved
      /\ exportedracks (db w') = exportedracks (db w) ++ saved
      /\ List.length saved = List.length snapshots
      /\ Forall
           (fun d =>
              ExportedRack.team d = t
              /\ ExportedRack.siteName d = trim s
              /\ ExportedRack.exportedBy d = User._id user)
           saved.
Proof.
  intros w w' now user snapshots teamId siteName r Hrun Hst.
  unfold exportedrackcontroller.createExportedSnapshots,
    exportedrackcontroller.insertMany in Hrun.
  unfold_handler.
  destruct (List.length snapshots =? 0)%nat; [done_run Hrun|].
  destruct teamId as [t|]; [|done_run Hrun].
  destruct siteName as [s|]; [|done_run Hrun].
  destruct ((t =? "") || (s =? "")); [done_run Hrun|].
  destruct (isValidObjectId t); [|done_run Hrun].
  next_roundtrip; [|done_run Hrun].
  destruct (find (fun x => Team._id x =? t) (teams (db w)));
    [|done_run Hrun].
  cbn in Hrun.
  match type of Hrun with
  | context [negb ?c] => destruct c
  end; cbn in Hrun; [|done_run Hrun].
  destruct (exportedrackcontroller.cast_all now
              (exportedrackcontroller.snapshotsToSave snapshots t s
                 (User._id user))) as [saved|] eqn:Hcast;
    [|done_run Hrun].
  next_roundtrip; [|done_run Hrun].
  inversion Hrun; subst r w'; clear Hrun. cbn.
  pose proof (snapshotsToSave_stamped snapshots t s (User._id user)) as Hrows.
  pose proof (cast_all_rows _ _ _ Hcast) as Hsaved.
  exists t, s, saved. repeat split; auto.
  - rewrite <- (Forall2_length Hsaved).
    unfold exportedrackcontroller.snapshotsToSave. apply length_map.
  - exact (saved_stamped _ _ _ _ _ _ Hrows Hsaved).
Qed.

Lemma createExportedSnapshots_stamps_request_values_run :
  exists saved,
    exportedracks
      (db (snd (exportedrackcontroller.createExportedSnapshots 300
                  Scenario.leader [Scenario.lineItem]
                  (Some Scenario.delhiId) (Some "Delhi-1") Scenario.world)))
    = saved
    /\ Forall
         (fun d =>
            ExportedRack.team d = Scenario.delhiId
            /\ ExportedRack.siteName d = "Delhi-1"
            /\ ExportedRack.exportedBy d = Scenario.leaderId)
         saved
    /\ List.length saved = 1.
Proof.
  destruct
    (createExportedSnapshots_stamps_request_values Scenario.world _ 300%Z
       Scenario.leader [Scenario.lineItem] (Some Scenario.delhiId)
       (Some "Delhi-1") _ eq_refl eq_refl)
    as (t & s & saved & [= <-] & [= <-] & _ & _ & Hdb & Hlen & Hall).
  exists saved. split; [exact Hdb|]. split; [exact Hall | exact Hlen].
Defined.


(** C10 as stated fails: the request-level site name is padded with
    blanks; the creation succeeds and the stored row carries the trimmed
    name, which is not the site name of the request. *)
Lemma createExportedSnapshots_stores_trimmed_siteName :
  let run :=
    exportedrackcontroller.createExportedSnapshots 300 Scenario.admin
      [Scenario.lineItem] (Some Scenario.delhiId) (Some " Delhi-1 ")
      Scenario.world in
  option_map status (answer run) = Some 201
  /\ map ExportedRack.siteName (exportedracks (db (snd run))) = ["Delhi-1"]
  /\ "Delhi-1" <> " Delhi-1 ".
Proof.
  vm_compute. repeat split. discriminate.
Qed.

(** ** Master descriptions: upload and delete by batch *)

Ltac unfold_session :=
  cbv beta iota zeta delta
    [asyncHandler try_catch finally bind ret throw query update
     startSession endSession startTransaction commitTransaction
     abortTransaction session_run session_query session_update
     set_session fail] in *.

Lemma length_nonzero {A} (l : list A) :
  l <> [] -> (List.length l =? 0)%nat = false.
Proof. destruct l; [congruence | reflexivity]. Qed.

(** The transactional upload is atomic: whatever the store does, either
    the request is answered 201 and the ledger entry, the tagged rows
    and the record count are all in place, or nothing of them is
    observable; in every case the session is released and no
    transaction is left open. *)
Theorem uploadMasterDescriptions_atomic :
  forall (w w' : World) (newId : ObjectId) (now : Z)
         (user : option User.doc) (entries : list Entry) (filename : string)
         (out : Outcome Response),
    quiescent w ->
    entries <> [] ->
    master_controller.uploadMasterDescriptions newId now user entries
      filename w = (out, w') ->
    sessions w' = sessions w
    /\ txn w' = None
    /\ ((exists r, out = Ret r /\ status r = 201
                   /\ payload r = Uploaded newId (List.length entries)
                   /\ db w' = uploaded newId now user entries filename (db w))
        \/ ((forall r, out = Ret r -> status r = 500) /\ db w' = db w)).
Proof.
  intros w w' newId now user entries filename out Hq Hne Hrun.
  destruct w as [d t n fs]. unfold quiescent in Hq. simpl in Hq. subst t.
  unfold master_controller.uploadMasterDescriptions in Hrun.
  rewrite (length_nonzero _ Hne) in Hrun.
  unfold_session.
  next_roundtrip;
    [|inversion Hrun; subst; cbn; repeat split; right; split;
      [discriminate | reflexivity]].
  repeat (next_roundtrip;
          [|inversion Hrun; subst; cbn; repeat split; right; split;
            [now intros r [= <-] | reflexivity]]).
  inversion Hrun; subst; cbn. repeat split. left.
  eexists. split; [reflexivity|]. cbn. repeat split.
  unfold master_controller.docs_of. now rewrite length_map.
Qed.

Section FreshLedgerId.

Variable id : ObjectId.
Variable old : list UploadMetadata.doc.
Variable meta : UploadMetadata.doc.
Hypothesis fresh : forall m, In m old -> UploadMetadata._id m <> id.
Hypothesis meta_id : UploadMetadata._id meta = id.

Lemma stamp_fresh (n : nat) :
  master_controller.stamp id n (old ++ [meta])
  = old ++ [UploadMetadata.set_recordCount n meta].
Proof using fresh meta_id.
  induction old as [|x l IH]; simpl.
  - now rewrite meta_id, String.eqb_refl.
  - destruct (UploadMetadata._id x =? id) eqn:E.
    + apply String.eqb_eq in E. exfalso.
      apply (fresh x); [now left | assumption].
    + f_equal. apply IH. intros m Hm. apply fresh. now right.
Qed.

Lemma find_fresh :
  find (fun m => UploadMetadata._id m =? id) (old ++ [meta]) = Some meta.
Proof using fresh meta_id.
  induction old as [|x l IH]; simpl.
  - now rewrite meta_id, String.eqb_refl.
  - destruct (UploadMetadata._id x =? id) eqn:E.
    + apply String.eqb_eq in E. exfalso.
      apply (fresh x); [now left | assumption].
    + apply IH. intros m Hm. apply fresh. now right.
Qed.

Lemma remove_meta_fresh :
  master_controller.remove_meta id (old ++ [meta]) = old.
Proof using fresh meta_id.
  induction old as [|x l IH]; simpl.
  - now rewrite meta_id, String.eqb_refl.
  - destruct (UploadMetadata._id x =? id) eqn:E.
    + apply String.eqb_eq in E. exfalso.
      apply (fresh x); [now left | assumption].
    + f_equal. apply IH. intros m Hm. apply fresh. now right.
Qed.

End FreshLedgerId.

(** Every row of a batch is matched by the linkage query of its ledger
    entry. *)
Lemma docs_linked (meta : UploadMetadata.doc) (entries : list Entry)
    (filename : string) :
  forall m,
    In m (master_controller.docs_of entries filename (UploadMetadata._id meta))
    -> master_controller.linked meta m = true.
Proof.
  intros m Hm. unfold master_controller.docs_of in Hm.
  apply in_map_iff in Hm. destruct Hm as (e & <- & _).
  unfold master_controller.linked. cbn. now rewrite String.eqb_refl.
Qed.

Lemma filter_all {A} (p : A -> bool) (l : list A) :
  (forall x, In x l -> p x = true) -> filter p l = l.
Proof.
  induction l as [|x l IH]; simpl; intros H; [reflexivity|].
  rewrite (H x (or_introl eq_refl)). f_equal. apply IH. auto.
Qed.

Lemma filter_none {A} (p : A -> bool) (l : list A) :
  (forall x, In x l -> p x = true) -> filter (fun x => negb (p x)) l = [].
Proof.
  induction l as [|x l IH]; simpl; intros H; [reflexivity|].
  rewrite (H x (or_introl eq_refl)). simpl. apply IH. auto.
Qed.

Lemma filter_negb_nothing {A} (p : A -> bool) (l : list A) :
  List.length (filter p l) = 0 -> filter (fun x => negb (p x)) l = l.
Proof.
  induction l as [|x l IH]; simpl; [reflexivity|].
  destruct (p x); simpl; [discriminate|].
  intros H. f_equal. now apply IH.
Qed.

Lemma filter_filter_negb {A} (p : A -> bool) (l : list A) :
  filter p (filter (fun x => negb (p x)) l) = [].
Proof.
  induction l as [|x l IH]; simpl; [reflexivity|].
  destruct (p x) eqn:E; simpl; [assumption|]. now rewrite E.
Qed.

Lemma no_fault_tl (l : list bool) :
  (forall b, In b l -> b = false) -> forall b, In b (tl l) -> b = false.
Proof.
  intros H b Hb. apply H. destruct l; simpl in *; auto.
Qed.

Ltac solve_healthy :=
  unfold healthy in *; cbn in *;
  repeat apply no_fault_tl; assumption.

Ltac ok_session_roundtrip :=
  match goal with
  | |- context [roundtrip ?w] =>
      rewrite (roundtrip_healthy w) by solve_healthy; cbn
  end.

Lemma upload_needs_entries (w w' : World) (newId : ObjectId) (now : Z)
    (user : option User.doc) (filename : string) (r : Response) :
  master_controller.uploadMasterDescriptions newId now user [] filename w
  = (Ret r, w') ->
  status r = 400.
Proof.
  unfold master_controller.uploadMasterDescriptions. unfold_session.
  intros Hrun. next_roundtrip; inversion Hrun; subst; reflexivity.
Qed.

(** C4 (amended).  After an upload of N entries under a fresh ledger
    id, deleting the ledger entry by that id is answered 200, removes
    the ledger entry and every row the linkage query matches, which are
    the N rows of the upload and the rows that carried the same file
    name or id before it, and reports their number; when no other row
    is linked the catalog is back to what it was and the reported number
    is exactly N.  Afterwards the linkage query counts no row. *)
Theorem upload_then_delete :
  forall (w w1 : World) (newId : ObjectId) (now : Z)
         (user : option User.doc) (entries : list Entry) (filename : string)
         (r1 : Response),
    quiescent w ->
    isValidObjectId newId = true ->
    (forall m, In m (uploadmetadatas (db w)) ->
               UploadMetadata._id m <> newId) ->
    master_controller.uploadMasterDescriptions newId now user entries
      filename w = (Ret r1, w1) ->
    status r1 = 201 ->
    healthy w1 ->
    let meta := master_controller.new_meta newId now user filename entries in
    let others := master_controller.countDocuments meta (db w) in
    exists r2 w2,
      master_controller.deleteUploadedFile newId w1 = (Ret r2, w2)
      /\ status r2 = 200
      /\ payload r2 = Deleted (List.length entries + others)
      /\ uploadmetadatas (db w2) = uploadmetadatas (db w)
      /\ masterdescriptions (db w2)
         = filter (fun m => negb (master_controller.linked meta m))
             (masterdescriptions (db w))
      /\ (others = 0 ->
          masterdescriptions (db w2) = masterdescriptions (db w))
      /\ master_controller.countDocuments meta (db w2) = 0
      /\ sessions w2 = sessions w1
      /\ txn w2 = None.
Proof.
  intros w w1 newId now user entries filename r1 Hq Hvalid Hfresh Hrun Hst
    Hw1 meta others.
  assert (Hne : entries <> []).
  { intros ->. apply upload_needs_entries in Hrun. congruence. }
  destruct (uploadMasterDescriptions_atomic _ _ _ _ _ _ _ _ Hq Hne Hrun)
    as (_ & Htxn & [(r & [= <-] & _ & _ & Hdb) | (Hfail & _)]);
    [|specialize (Hfail r1 eq_refl); congruence].
  clear Hrun Hst.
  assert (Hledger :
            uploadmetadatas (db w1) =
            uploadmetadatas (db w)
            ++ [UploadMetadata.set_recordCount
                  (List.length
                     (master_controller.docs_of entries filename newId))
                  meta]).
  { rewrite Hdb. unfold uploaded. cbn.
    now apply stamp_fresh. }
  assert (Hrows :
            masterdescriptions (db w1) =
            masterdescriptions (db w)
            ++ master_controller.docs_of entries filename newId).
  { rewrite Hdb. reflexivity. }
  clear Hdb.
  destruct w1 as [d1 t1 n1 fs1]. cbn in Htxn, Hledger, Hrows. subst t1.
  unfold master_controller.deleteUploadedFile. rewrite Hvalid.
  unfold_session. cbn.
  ok_session_roundtrip. ok_session_roundtrip.
  rewrite Hledger.
  rewrite (find_fresh newId _
             (UploadMetadata.set_recordCount
                (List.length
                   (master_controller.docs_of entries filename newId)) meta)
             Hfresh eq_refl).
  cbn.
  ok_session_roundtrip. ok_session_roundtrip. ok_session_roundtrip.
  ok_session_roundtrip.
  eexists. eexists. split; [reflexivity|].
  unfold master_controller.countDocuments. cbn.
  rewrite Hledger, Hrows.
  rewrite (remove_meta_fresh newId _
             (UploadMetadata.set_recordCount
                (List.length
                   (master_controller.docs_of entries filename newId)) meta)
             Hfresh eq_refl).
  change (fun m => negb (master_controller.linked
                           (UploadMetadata.set_recordCount
                              (List.length
                                 (master_controller.docs_of entries filename
                                    newId)) meta) m))
    with (fun m => negb (master_controller.linked meta m)).
  change (master_controller.linked
            (UploadMetadata.set_recordCount
               (List.length (master_controller.docs_of entries filename newId))
               meta))
    with (master_controller.linked meta).
  pose proof (docs_linked meta entries filename) as Hlinked.
  change (UploadMetadata._id meta) with newId in Hlinked.
  rewrite !filter_app, !length_app.
  rewrite (filter_all _ _ Hlinked), (filter_none _ _ Hlinked).
  rewrite app_nil_r, filter_filter_negb.
  unfold master_controller.docs_of at 1. rewrite length_map.
  repeat split; auto.
  - f_equal. apply Nat.add_comm.
  - intros H0. now apply filter_negb_nothing.
Qed.

Lemma upload_then_delete_run :
  exists r2 w2,
    master_controller.deleteUploadedFile Scenario.freshId
      (snd (master_controller.uploadMasterDescriptions Scenario.freshId 400
              (Some Scenario.admin) Scenario.batch "batch1" Scenario.world))
    = (Ret r2, w2)
    /\ payload r2 = Deleted 3
    /\ masterdescriptions (db w2) = []
    /\ uploadmetadatas (db w2) = [].
Proof.
  destruct
    (upload_then_delete Scenario.world _ Scenario.freshId 400%Z
       (Some Scenario.admin) Scenario.batch "batch1" _
       eq_refl eq_refl (fun m (H : In m []) => match H with end)
       eq_refl eq_refl (fun b (H : In b []) => match H with end))
    as (r2 & w2 & Hrun & _ & Hp & Hl & Hr & _).
  exists r2, w2. repeat split; assumption.
Defined.

(** C4 as stated fails: two uploads of one entry each use the file name
    batch1; deleting the ledger entry of the second one removes the rows
    of both and reports 2 deleted records for an upload of 1 entry. *)
Lemma delete_removes_rows_of_same_filename :
  let first :=
    master_controller.uploadMasterDescriptions Scenario.earlierId 400
      (Some Scenario.admin) [Scenario.entry "P1"] "batch1" Scenario.world in
  let second :=
    master_controller.uploadMasterDescriptions Scenario.freshId 500
      (Some Scenario.admin) [Scenario.entry "P2"] "batch1" (snd first) in
  let deletion :=
    master_controller.deleteUploadedFile Scenario.freshId (snd second) in
  option_map status (answer first) = Some 201
  /\ option_map status (answer second) = Some 201
  /\ List.length [Scenario.entry "P2"] = 1
  /\ option_map status (answer deletion) = Some 200
  /\ option_map payload (answer deletion) = Some (Deleted 2)
  /\ masterdescriptions (db (snd deletion)) = []
  /\ map UploadMetadata._id (uploadmetadatas (db (snd deletion)))
     = [Scenario.earlierId].
Proof.
  vm_compute. repeat split.
Qed.

(** C3, on the code of controllers/uploadcontroller.js.  When the
    store fails on the write of the ledger entry, after the rows were
    inserted, the request is answered 500, yet the row stays in the
    catalog and there is no ledger entry for it; and when nothing fails,
    the rows are stored without the id or the file name of their
    batch. *)
Lemma legacy_upload_leaves_rows_without_ledger :
  (exists w',
     uploadcontroller.uploadMasterDescriptions Scenario.freshId 400
       [Scenario.entry "P1"] "batch1" (Scenario.failing 1)
     = (Ret (fail 500 "Server error"), w')
     /\ masterdescriptions (db Scenario.world) = []
     /\ List.length (masterdescriptions (db w')) = 1
     /\ uploadmetadatas (db w') = [])
  /\ (exists r w',
        uploadcontroller.uploadMasterDescriptions Scenario.freshId 400
          [Scenario.entry "P1"] "batch1" Scenario.world
        = (Ret r, w')
        /\ status r = 201
        /\ exists row,
             masterdescriptions (db w') = [row]
             /\ MasterDescription.fileId row = None
             /\ MasterDescription.uploadBatch row = None).
Proof.
  split.
  - eexists. split; [reflexivity|]. split; [reflexivity|].
    split; reflexivity.
  - eexists. eexists. split; [reflexivity|]. split; [reflexivity|].
    eexists. split; [reflexivity|]. split; reflexivity.
Qed.

(** ** Checks on the scenario *)

Example isValidObjectId_rackId : isValidObjectId Scenario.rackId = true.
Proof. reflexivity. Qed.

Example isValidObjectId_short : isValidObjectId "42" = false.
Proof. reflexivity. Qed.

Example trim_padded : trim "  Delhi-1 " = "Delhi-1".
Proof. reflexivity. Qed.

Example protect_without_token :
  fst (authMiddleware.protect authMiddleware.NoToken
         (fun user => rackRoutes.get_root user None None) Scenario.world)
  = Ret (authMiddleware.unauthorized "Not authorized, no token").
Proof. reflexivity. Qed.

Example protect_then_put_as_member :
  fst (authMiddleware.protect (authMiddleware.Token Scenario.memberId)
         (fun user =>
            rackRoutes.put_id user Scenario.rackId Scenario.rescanBody)
         Scenario.world)
  = Ret (fail 403 "User role team_member is not authorized to access this route").
Proof. reflexivity. Qed.

Example createRack_as_leader :
  exists r w',
    rackcontroller.createRack Scenario.freshId 200 Scenario.leader
      (Scenario.createBody "R2" "P2" "Delhi-1") Scenario.world = (Ret r, w')
    /\ status r = 201
    /\ List.length (racks (db w')) = 2.
Proof. do 2 eexists. split; [reflexivity|]. split; reflexivity. Qed.

Example getRacks_as_admin :
  exists data w',
    rackcontroller.getRacks (Some Scenario.admin) None None Scenario.world
    = (Ret {| status := 200; success := Some true; message := None;
              payload := RackList 1 data |}, w')
    /\ map rv_rack data = [Scenario.rack]
    /\ map rv_team data = [Some Scenario.delhi].
Proof. do 2 eexists. split; [reflexivity|]. split; reflexivity. Qed.

Example upload_stamps_recordCount :
  map UploadMetadata.recordCount
    (uploadmetadatas
       (db (snd (master_controller.uploadMasterDescriptions Scenario.freshId
                   400 (Some Scenario.admin) Scenario.batch "batch1"
                   Scenario.world))))
  = [Some 3].
Proof. reflexivity. Qed.

Example upload_rolls_back_on_failure :
  let w' := snd (master_controller.uploadMasterDescriptions Scenario.freshId
                   400 (Some Scenario.admin) Scenario.batch "batch1"
                   (Scenario.failing 3)) in
  db w' = Scenario.site /\ sessions w' = 0 /\ txn w' = None.
Proof. repeat split. Qed.

(** * Further properties of the controllers *)

(** ** Racks: what a create stores *)

(** Closes a branch in which the handler answered without writing. *)
Ltac refused H :=
  inversion H; subst; left; split; [cbn; discriminate | reflexivity].

Lemma createRack_run :
  forall (w w' : World) (newId : ObjectId) (now : Z) (user : User.doc)
         (body : Rack.body) (r : Response),
    rackcontroller.createRack newId now user body w = (Ret r, w') ->
    (status r <> 201 /\ db w' = db w)
    \/ exists team rackNo partNo nextQty siteName location,
         Rack.b_rackNo body = Some rackNo
         /\ Rack.b_partNo body = Some partNo
         /\ Rack.b_nextQty body = Some nextQty
         /\ Rack.b_siteName body = Some siteName
         /\ Rack.b_location body = Some location
         /\ find (fun t => Team.siteName t =? siteName) (teams (db w))
            = Some team
         /\ find (fun r => (Rack.partNo r =? partNo) && (Rack.rackNo r =? rackNo))
              (racks (db w)) = None
         /\ (User.role user = "admin"
             \/ (User.role user = "team_leader"
                 /\ Team.teamLeader team = Some (User._id user))
             \/ (User.role user = "team_member"
                 /\ In (User._id user) (Team.members team)))
         /\ Rack.validate
              (created newId now user team rackNo partNo nextQty siteName
                 location) = true
         /\ db w' =
            set_racks
              (fun l =>
                 l ++ [created newId now user team rackNo partNo nextQty
                         siteName location])
              (db w)
         /\ status r = 201
         /\ payload r =
            RackCreated
              (created newId now user team rackNo partNo nextQty siteName
                 location).
Proof.
  intros w w' newId now user body r Hrun.
  unfold rackcontroller.createRack in Hrun.
  destruct (Rack.b_rackNo body) as [rackNo|] eqn:HrackNo;
    [|cbn in Hrun; refused Hrun].
  destruct (Rack.b_partNo body) as [partNo|] eqn:HpartNo;
    [|cbn in Hrun; refused Hrun].
  destruct (Rack.b_nextQty body) as [nextQty|] eqn:HnextQty;
    [|cbn in Hrun; refused Hrun].
  destruct (Rack.b_siteName body) as [siteName|] eqn:HsiteName;
    [|cbn in Hrun; refused Hrun].
  destruct (Rack.b_location body) as [location|] eqn:Hlocation;
    [|cbn in Hrun; refused Hrun].
  destruct ((rackNo =? "") || (partNo =? "") || (siteName =? "")
            || (location =? "")); [cbn in Hrun; refused Hrun|].
  unfold_rack.
  next_roundtrip; [|refused Hrun].
  destruct (find (fun t => Team.siteName t =? siteName) (teams (db w)))
    as [team|] eqn:Hteam; [|refused Hrun].
  cbn in Hrun.
  match type of Hrun with
  | context [negb ?c] => destruct c eqn:Hauth
  end; cbn in Hrun; [|refused Hrun].
  next_roundtrip; [|refused Hrun].
  destruct (find _ (racks (db w))) as [existing|] eqn:Hdup; [refused Hrun|].
  match type of Hrun with
  | context [Rack.validate ?x] => destruct (Rack.validate x) eqn:Hvalid
  end; [|refused Hrun].
  next_roundtrip; [|refused Hrun].
  inversion Hrun; subst r w'; clear Hrun. right.
  exists team, rackNo, partNo, nextQty, siteName, location.
  repeat split; auto.
  apply orb_true_iff in Hauth. destruct Hauth as [Hauth | Hauth].
  - apply orb_true_iff in Hauth. destruct Hauth as [Hauth | Hauth].
    + left. now apply String.eqb_eq.
    + right. left. apply andb_true_iff in Hauth. destruct Hauth as (Hr & Hl).
      split; [now apply String.eqb_eq | now apply opt_eqb_true].
  - right. right. apply andb_true_iff in Hauth. destruct Hauth as (Hr & Hm).
    split; [now apply String.eqb_eq | now apply member_In].
Qed.

(** X1.  [createRack] writes only when it answers 201, and what it
    writes is one rack at the end of the collection: it carries the new
    id, the principal as [scannedBy], the id of the first team with the
    requested site name as [team], and none of the denormalised
    columns, whatever else the body holds; the principal is admin,
    leader of that team or one of its members. *)
Theorem createRack_effect :
  forall (w w' : World) (newId : ObjectId) (now : Z) (user : User.doc)
         (body : Rack.body) (r : Response),
    rackcontroller.createRack newId now user body w = (Ret r, w') ->
    (status r <> 201 -> db w' = db w)
    /\ (status r = 201 ->
        exists team rack,
          db w' = set_racks (fun l => l ++ [rack]) (db w)
          /\ payload r = RackCreated rack
          /\ Rack._id rack = newId
          /\ Rack.scannedBy rack = User._id user
          /\ Rack.b_siteName body = Some (Rack.siteName rack)
          /\ find (fun t => Team.siteName t =? Rack.siteName rack)
               (teams (db w)) = Some team
          /\ Rack.team rack = Team._id team
          /\ Rack.mrp rack = None /\ Rack.ndp rack = None
          /\ Rack.masterDescription rack = None
          /\ (User.role user = "admin"
              \/ (User.role user = "team_leader"
                  /\ Team.teamLeader team = Some (User._id user))
              \/ (User.role user = "team_member"
                  /\ In (User._id user) (Team.members team)))).
Proof.
  intros w w' newId now user body r Hrun.
  destruct (createRack_run _ _ _ _ _ _ _ Hrun)
    as [(Hst & Hdb) |
        (team & rackNo & partNo & nextQty & siteName & location & _ & _ & _
         & HsiteName & _ & Hteam & _ & Hauth & _ & Hdb & Hst & Hp)].
  - split; [auto | intros H; contradiction].
  - split; [intros H; contradiction|]. intros _.
    exists team,
      (created newId now user team rackNo partNo nextQty siteName location).
    repeat split; auto.
Qed.

Lemma createRack_effect_run :
  exists team rack,
    db (snd (rackcontroller.createRack Scenario.freshId 200 Scenario.member
               (Scenario.createBody "R2" "P2" "Delhi-1") Scenario.world))
    = set_racks (fun l => l ++ [rack]) (db Scenario.world)
    /\ Rack.scannedBy rack = Scenario.memberId
    /\ Rack.team rack = Team._id team.
Proof.
  destruct
    (createRack_effect Scenario.world _ Scenario.freshId 200%Z
       Scenario.member (Scenario.createBody "R2" "P2" "Delhi-1") _ eq_refl)
    as (_ & Hok).
  destruct (Hok eq_refl)
    as (team & rack & Hdb & _ & _ & Hs & _ & _ & Ht & _).
  exists team, rack. repeat split; assumption.
Defined.

(** ** Racks: what an update and a delete write *)

Lemma updateRack_run :
  forall (w w' : World) (user : User.doc) (rackId : string)
         (body : Rack.body) (r : Response),
    rackcontroller.updateRack user rackId body w = (Ret r, w') ->
    (status r <> 200 /\ db w' = db w)
    \/ exists before,
         rack_by_id (db w) rackId = Some before
         /\ may_write_rack user (team_by_id (db w) (Rack.team before))
         /\ Rack_update_ok body = true
         /\ db w' = set_racks (update_rack rackId (Rack_set body)) (db w)
         /\ status r = 200.
Proof.
  intros w w' user rackId body r Hrun.
  unfold rackcontroller.updateRack in Hrun. unfold_rack.
  destruct (isValidObjectId rackId); cbn in Hrun; [|refused Hrun].
  next_roundtrip; [|refused Hrun].
  destruct (find (fun r => Rack._id r =? rackId) (racks (db w)))
    as [before|] eqn:Hfind; [|refused Hrun].
  cbn in Hrun.
  next_roundtrip; [|refused Hrun].
  destruct (User.role user =? "admin") eqn:Hadmin;
    [|destruct (rackcontroller.leads
                  (find (fun t => Team._id t =? Rack.team before)
                     (teams (db w))) (User._id user)) eqn:Hleads];
    cbn in Hrun; try (refused Hrun);
    (destruct (Rack_update_ok body) eqn:Hok; [|refused Hrun];
     next_roundtrip; [|refused Hrun];
     inversion Hrun; subst r w'; clear Hrun; right;
     exists before; repeat split; auto).
  - left. now apply String.eqb_eq.
  - right. unfold team_by_id, rackcontroller.leads in *.
    destruct (find _ (teams (db w))) as [t|]; [|discriminate].
    exists t. split; [reflexivity | now apply opt_eqb_true].
Qed.

Lemma deleteRack_run :
  forall (w w' : World) (user : User.doc) (rackId : string) (r : Response),
    rackcontroller.deleteRack user rackId w = (Ret r, w') ->
    (status r <> 200 /\ db w' = db w)
    \/ exists before,
         rack_by_id (db w) rackId = Some before
         /\ may_write_rack user (team_by_id (db w) (Rack.team before))
         /\ db w' = set_racks (remove_rack rackId) (db w)
         /\ status r = 200.
Proof.
  intros w w' user rackId r Hrun.
  unfold rackcontroller.deleteRack in Hrun. unfold_rack.
  destruct (isValidObjectId rackId); cbn in Hrun; [|refused Hrun].
  next_roundtrip; [|refused Hrun].
  destruct (find (fun r => Rack._id r =? rackId) (racks (db w)))
    as [before|] eqn:Hfind; [|refused Hrun].
  cbn in Hrun.
  next_roundtrip; [|refused Hrun].
  pose proof (String.eqb_eq (Rack._id before) rackId) as Hid.
  apply find_some in Hfind as Hsome. destruct Hsome as (_ & Hsame).
  apply Hid in Hsame.
  destruct (User.role user =? "admin") eqn:Hadmin;
    [|destruct (rackcontroller.leads
                  (find (fun t => Team._id t =? Rack.team before)
                     (teams (db w))) (User._id user)) eqn:Hleads];
    cbn in Hrun; try (refused Hrun);
    (next_roundtrip; [|refused Hrun];
     inversion Hrun; subst r w'; clear Hrun; right;
     exists before; rewrite Hsame; repeat split; auto).
  - left. now apply String.eqb_eq.
  - right. unfold team_by_id, rackcontroller.leads in *.
    destruct (find _ (teams (db w))) as [t|]; [|discriminate].
    exists t. split; [reflexivity | now apply opt_eqb_true].
Qed.

Lemma Rack_set_id (b : Rack.body) (r : Rack.doc) :
  Rack._id (Rack_set b r) = Rack._id r.
Proof. reflexivity. Qed.

Lemma find_update_rack_other (id id' : ObjectId) (f : Rack.doc -> Rack.doc)
    (l : list Rack.doc) :
  (forall r, Rack._id (f r) = Rack._id r) ->
  id' <> id ->
  find (fun r => Rack._id r =? id') (update_rack id f l)
  = find (fun r => Rack._id r =? id') l.
Proof.
  intros Hf Hne. induction l as [|x l IH]; simpl; [reflexivity|].
  destruct (Rack._id x =? id) eqn:E; simpl.
  - rewrite Hf. apply String.eqb_eq in E. rewrite E.
    assert (Hd : (id =? id') = false)
      by (apply String.eqb_neq; congruence).
    now rewrite Hd.
  - destruct (Rack._id x =? id'); [reflexivity | exact IH].
Qed.

Lemma length_update_rack (id : ObjectId) (f : Rack.doc -> Rack.doc)
    (l : list Rack.doc) :
  List.length (update_rack id f l) = List.length l.
Proof.
  induction l as [|x l IH]; simpl; [reflexivity|].
  destruct (Rack._id x =? id); simpl; congruence.
Qed.

(** X3.  A successful [updateRack] rewrites the rack with the given id
    and nothing else: the rack keeps its id and its creation time, every
    rack with another id reads as before, the number of racks is the
    same and no other collection changes; an update that is not
    answered 200 changes nothing at all. *)
Theorem updateRack_frame :
  forall (w w' : World) (user : User.doc) (rackId : string)
         (body : Rack.body) (r : Response),
    rackcontroller.updateRack user rackId body w = (Ret r, w') ->
    (status r <> 200 -> db w' = db w)
    /\ (status r = 200 ->
        exists before after,
          rack_by_id (db w) rackId = Some before
          /\ rack_by_id (db w') rackId = Some after
          /\ after = Rack_set body before
          /\ Rack._id after = Rack._id before
          /\ Rack.createdAt after = Rack.createdAt before
          /\ (forall id', id' <> rackId ->
                          rack_by_id (db w') id' = rack_by_id (db w) id')
          /\ List.length (racks (db w')) = List.length (racks (db w))
          /\ teams (db w') = teams (db w)
          /\ users (db w') = users (db w)
          /\ masterdescriptions (db w') = masterdescriptions (db w)).
Proof.
  intros w w' user rackId body r Hrun.
  destruct (updateRack_run _ _ _ _ _ _ Hrun)
    as [(Hst & Hdb) | (before & Hfind & _ & _ & Hdb & Hst)].
  - split; [auto | intros H; contradiction].
  - split; [intros H; contradiction|]. intros _.
    exists before, (Rack_set body before). rewrite Hdb.
    unfold rack_by_id in *. cbn. repeat split; auto.
    + now apply find_update_rack.
    + intros id' Hne. now apply find_update_rack_other.
    + apply length_update_rack.
Qed.

Lemma updateRack_frame_run :
  exists after,
    rack_by_id
      (db (snd (rackcontroller.updateRack Scenario.admin Scenario.rackId
                  Scenario.rescanBody Scenario.world)))
      Scenario.rackId = Some after
    /\ Rack.createdAt after = 100%Z.
Proof.
  destruct
    (updateRack_frame Scenario.world _ Scenario.admin Scenario.rackId
       Scenario.rescanBody _ eq_refl)
    as (_ & Hok).
  destruct (Hok eq_refl)
    as (before & after & Hb & Ha & _ & _ & Hc & _).
  exists after. split; [assumption|]. rewrite Hc.
  injection Hb as <-. reflexivity.
Defined.

(** X4.  Through the router, a rack is updated or deleted only by an
    admin or by a team_leader principal who is the leader recorded on
    the team the rack refers to. *)
Theorem rack_writes_need_admin_or_leader :
  forall (w w' : World) (user : User.doc) (id : string) (body : Rack.body)
         (r : Response),
    (rackRoutes.put_id (Some user) id body w = (Ret r, w')
     \/ rackRoutes.delete_id (Some user) id w = (Ret r, w')) ->
    status r = 200 ->
    exists rack,
      rack_by_id (db w) id = Some rack
      /\ (User.role user = "admin"
          \/ (User.role user = "team_leader"
              /\ exists t,
                   team_by_id (db w) (Rack.team rack) = Some t
                   /\ Team.teamLeader t = Some (User._id user))).
Proof.
  intros w w' user id body r Hrun Hst.
  assert (Hrole :
            (User.role user =? "admin") || ((User.role user =? "team_leader") || false)
            = true).
  { unfold rackRoutes.put_id, rackRoutes.delete_id,
      authMiddleware.authorize in Hrun. cbn in Hrun.
    destruct ((User.role user =? "admin")
              || ((User.role user =? "team_leader") || false));
      [reflexivity|].
    cbn in Hrun. destruct Hrun as [Hrun | Hrun]; done_run Hrun. }
  assert (Hwrite :
            exists rack,
              rack_by_id (db w) id = Some rack
              /\ may_write_rack user (team_by_id (db w) (Rack.team rack))).
  { unfold rackRoutes.put_id, rackRoutes.delete_id,
      authMiddleware.authorize in Hrun. cbn in Hrun.
    rewrite Hrole in Hrun. cbn in Hrun.
    destruct Hrun as [Hrun | Hrun].
    - destruct (updateRack_run _ _ _ _ _ _ Hrun)
        as [(Hno & _) | (rack & Hf & Hm & _)]; [contradiction|].
      now exists rack.
    - destruct (deleteRack_run _ _ _ _ _ Hrun)
        as [(Hno & _) | (rack & Hf & Hm & _)]; [contradiction|].
      now exists rack. }
  destruct Hwrite as (rack & Hf & Hm). exists rack. split; [assumption|].
  destruct Hm as [Hadmin | Hlead]; [now left|].
  apply orb_true_iff in Hrole. destruct Hrole as [Hr | Hr].
  - left. now apply String.eqb_eq.
  - right. rewrite orb_false_r in Hr. split; [now apply String.eqb_eq|].
    exact Hlead.
Qed.

Lemma rack_writes_need_admin_or_leader_run :
  exists rack,
    rack_by_id (db Scenario.world) Scenario.rackId = Some rack
    /\ (User.role Scenario.leader = "admin"
        \/ (User.role Scenario.leader = "team_leader"
            /\ exists t,
                 team_by_id (db Scenario.world) (Rack.team rack) = Some t
                 /\ Team.teamLeader t = Some (User._id Scenario.leader))).
Proof.
  exact (rack_writes_need_admin_or_leader Scenario.world _ Scenario.leader
           Scenario.rackId Cases.noUpdate _ (or_intror eq_refl) eq_refl).
Defined.

Lemma length_remove_rack (id : ObjectId) (l : list Rack.doc) (x : Rack.doc) :
  find (fun r => Rack._id r =? id) l = Some x ->
  List.length l = S (List.length (remove_rack id l)).
Proof.
  induction l as [|y l IH]; simpl; [discriminate|].
  destruct (Rack._id y =? id); [reflexivity|].
  intros H. simpl. f_equal. now apply IH.
Qed.

Lemma find_remove_rack_other (id id' : ObjectId) (l : list Rack.doc) :
  id' <> id ->
  find (fun r => Rack._id r =? id') (remove_rack id l)
  = find (fun r => Rack._id r =? id') l.
Proof.
  intros Hne. induction l as [|x l IH]; simpl; [reflexivity|].
  destruct (Rack._id x =? id) eqn:E; simpl.
  - apply String.eqb_eq in E. rewrite E.
    assert (Hd : (id =? id') = false)
      by (apply String.eqb_neq; congruence).
    now rewrite Hd.
  - destruct (Rack._id x =? id'); [reflexivity | exact IH].
Qed.

Lemma find_remove_rack_same (id : ObjectId) (l : list Rack.doc) :
  NoDup (map Rack._id l) ->
  find (fun r => Rack._id r =? id) (remove_rack id l) = None.
Proof.
  induction l as [|x l IH]; simpl; [reflexivity|].
  intros Hnd. inversion Hnd as [|? ? Hx Hl]; subst.
  destruct (Rack._id x =? id) eqn:E; simpl.
  - apply String.eqb_eq in E. subst id.
    destruct (find (fun r => Rack._id r =? Rack._id x) l) as [y|] eqn:Hy;
      [|reflexivity].
    exfalso. apply Hx. apply find_some in Hy. destruct Hy as (Hy & Hid).
    apply String.eqb_eq in Hid. rewrite <- Hid. now apply in_map.
  - rewrite E. now apply IH.
Qed.

(** X5.  A successful [deleteRack] removes one rack, the first with the
    given id: the collection is one shorter, every rack with another id
    reads as before, and when ids are unique the id no longer resolves;
    no other collection changes, so the team and the master rows the
    rack referred to stay.  A delete that is not answered 200 changes
    nothing. *)
Theorem deleteRack_effect :
  forall (w w' : World) (user : User.doc) (rackId : string) (r : Response),
    rackcontroller.deleteRack user rackId w = (Ret r, w') ->
    (status r <> 200 -> db w' = db w)
    /\ (status r = 200 ->
        exists before,
          rack_by_id (db w) rackId = Some before
          /\ List.length (racks (db w)) = S (List.length (racks (db w')))
          /\ (forall id', id' <> rackId ->
                          rack_by_id (db w') id' = rack_by_id (db w) id')
          /\ (NoDup (map Rack._id (racks (db w))) ->
              rack_by_id (db w') rackId = None)
          /\ teams (db w') = teams (db w)
          /\ users (db w') = users (db w)
          /\ masterdescriptions (db w') = masterdescriptions (db w)).
Proof.
  intros w w' user rackId r Hrun.
  destruct (deleteRack_run _ _ _ _ _ Hrun)
    as [(Hst & Hdb) | (before & Hfind & _ & Hdb & Hst)].
  - split; [auto | intros H; contradiction].
  - split; [intros H; contradiction|]. intros _.
    exists before. rewrite Hdb. unfold rack_by_id in *. cbn.
    repeat split; auto.
    + now apply length_remove_rack with (x := before).
    + intros id' Hne. now apply find_remove_rack_other.
    + apply find_remove_rack_same.
Qed.

Lemma deleteRack_effect_run :
  rack_by_id
    (db (snd (rackcontroller.deleteRack Scenario.leader Scenario.rackId
                Scenario.world)))
    Scenario.rackId = None.
Proof.
  destruct
    (deleteRack_effect Scenario.world _ Scenario.leader Scenario.rackId _
       eq_refl)
    as (_ & Hok).
  destruct (Hok eq_refl) as (before & _ & _ & _ & Hgone & _).
  apply Hgone. cbn. constructor; [intros [] | constructor].
Defined.

Lemma Rack_set_valid (b : Rack.body) (r : Rack.doc) :
  Rack_update_ok b = true ->
  Rack.validate r = true ->
  Rack.validate (Rack_set b r) = true.
Proof.
  unfold Rack_update_ok, Rack.validate, Rack_set, set_ok. cbn.
  rewrite !andb_true_iff.
  intros (((((H1 & H2) & H3) & H4) & _) & _) (((V1 & V2) & V3) & V4).
  destruct (Rack.b_rackNo b), (Rack.b_partNo b), (Rack.b_siteName b),
    (Rack.b_location b); cbn; auto.
Qed.

Lemma update_rack_valid (id : ObjectId) (b : Rack.body) (l : list Rack.doc) :
  Rack_update_ok b = true ->
  Forall (fun r => Rack.validate r = true) l ->
  Forall (fun r => Rack.validate r = true) (update_rack id (Rack_set b) l).
Proof.
  intros Hok Hall. induction Hall as [|x l Hx Hl IH]; simpl; [constructor|].
  destruct (Rack._id x =? id); constructor; auto.
  now apply Rack_set_valid.
Qed.

Lemma remove_rack_valid (id : ObjectId) (l : list Rack.doc) :
  Forall (fun r => Rack.validate r = true) l ->
  Forall (fun r => Rack.validate r = true) (remove_rack id l).
Proof.
  intros Hall. induction Hall as [|x l Hx Hl IH]; simpl; [constructor|].
  destruct (Rack._id x =? id); [assumption | now constructor].
Qed.

(** X6.  The three rack writes keep the store within the Rack schema:
    if every stored rack has non-empty [rackNo], [partNo] and
    [siteName] and an enumerated [location], the same holds after any
    create, update or delete request, whatever its answer. *)
Theorem rack_writes_keep_racks_valid :
  forall (w w' : World) (newId : ObjectId) (now : Z) (user : User.doc)
         (id : string) (body : Rack.body) (r : Response),
    (rackcontroller.createRack newId now user body w = (Ret r, w')
     \/ rackcontroller.updateRack user id body w = (Ret r, w')
     \/ rackcontroller.deleteRack user id w = (Ret r, w')) ->
    all_racks_valid (db w) ->
    all_racks_valid (db w').
Proof.
  unfold all_racks_valid.
  intros w w' newId now user id body r [Hrun | [Hrun | Hrun]] Hall.
  - destruct (createRack_run _ _ _ _ _ _ _ Hrun)
      as [(_ & ->) |
          (team & rackNo & partNo & nextQty & siteName & location & _ & _ & _
           & _ & _ & _ & _ & _ & Hvalid & -> & _)]; [assumption|].
    cbn. apply Forall_app. split; [assumption|]. now constructor.
  - destruct (updateRack_run _ _ _ _ _ _ Hrun)
      as [(_ & ->) | (before & _ & _ & Hok & -> & _)]; [assumption|].
    cbn. now apply update_rack_valid.
  - destruct (deleteRack_run _ _ _ _ _ Hrun)
      as [(_ & ->) | (before & _ & _ & -> & _)]; [assumption|].
    cbn. now apply remove_rack_valid.
Qed.

Lemma rack_writes_keep_racks_valid_run :
  all_racks_valid
    (db (snd (rackcontroller.updateRack Scenario.admin Scenario.rackId
                (Scenario.createBody "R7" "P7" "Pune-1") Scenario.world))).
Proof.
  apply (rack_writes_keep_racks_valid Scenario.world _ Scenario.freshId 0%Z
           Scenario.admin Scenario.rackId
           (Scenario.createBody "R7" "P7" "Pune-1") _
           (or_intror (or_introl eq_refl))).
  repeat constructor.
Defined.

(** ** Racks: the list and the single read *)

#[local] Arguments joined : simpl never.
#[local] Arguments sort_createdAt_desc : simpl never.

Lemma In_insert_by {A} (key : A -> Z) (v y : A) (l : list A) :
  In y (insert_by key v l) -> y = v \/ In y l.
Proof.
  induction l as [|x l IH]; simpl.
  - intros [<- | []]. now left.
  - destruct (key x <=? key v)%Z; simpl.
    + intros [<- | H]; auto.
    + intros [<- | H]; auto. destruct (IH H); auto.
Qed.

Lemma insert_by_sorted {A} (key : A -> Z) (v : A) (l : list A) :
  descending key l -> descending key (insert_by key v l).
Proof.
  unfold descending. induction l as [|x l IH]; simpl; intros Hs.
  - constructor; constructor.
  - inversion Hs as [|? ? Hl Hx]; subst.
    destruct (key x <=? key v)%Z eqn:E.
    + apply Z.leb_le in E. constructor; [assumption|].
      constructor; [assumption|].
      rewrite Forall_forall in *. intros y Hy. specialize (Hx y Hy). lia.
    + apply Z.leb_gt in E. constructor; [now apply IH|].
      rewrite Forall_forall in *. intros y Hy.
      destruct (In_insert_by _ _ _ _ Hy) as [-> | Hin]; [lia | auto].
Qed.

Lemma sort_desc_by_sorted {A} (key : A -> Z) (l : list A) :
  descending key (sort_desc_by key l).
Proof.
  induction l as [|x l IH]; simpl; [constructor|].
  now apply insert_by_sorted.
Qed.

Lemma insert_by_perm {A} (key : A -> Z) (v : A) (l : list A) :
  Permutation (insert_by key v l) (v :: l).
Proof.
  induction l as [|x l IH]; simpl; [reflexivity|].
  destruct (key x <=? key v)%Z; [reflexivity|].
  rewrite IH. apply perm_swap.
Qed.

Lemma sort_desc_by_perm {A} (key : A -> Z) (l : list A) :
  Permutation (sort_desc_by key l) l.
Proof.
  induction l as [|x l IH]; simpl; [reflexivity|].
  rewrite insert_by_perm. now constructor.
Qed.

Lemma insert_desc_by (v : RackView) (l : list RackView) :
  insert_desc v l = insert_by (fun x => Rack.createdAt (rv_rack x)) v l.
Proof.
  induction l as [|x l IH]; simpl; [reflexivity|]. now rewrite IH.
Qed.

Lemma sort_createdAt_desc_by (l : list RackView) :
  sort_createdAt_desc l
  = sort_desc_by (fun x => Rack.createdAt (rv_rack x)) l.
Proof.
  unfold sort_createdAt_desc, sort_desc_by.
  induction l as [|x l IH]; simpl; [reflexivity|].
  now rewrite IH, insert_desc_by.
Qed.



(** Whatever the role, a list answer is empty or the sorted pipeline. *)
Lemma getRacks_list :
  forall (w w' : World) (user : option User.doc)
         (siteName teamId : option string) (r : Response)
         (n : nat) (data : list RackView),
    rackcontroller.getRacks user siteName teamId w = (Ret r, w') ->
    payload r = RackList n data ->
    n = List.length data
    /\ (data = []
        \/ exists f, data = sort_createdAt_desc (joined (db w) f)).
Proof.
  intros w w' user siteName teamId r n data Hrun Hp.
  unfold rackcontroller.getRacks in Hrun.
  destruct user as [user|]; [|done_run Hrun].
  unfold_rack.
  destruct (User.role user =? "admin").
  - destruct (truthy teamId).
    + destruct (isValidObjectId (or_else teamId "")); [|done_run Hrun].
      next_roundtrip; [|done_run Hrun].
      inversion Hrun; subst r w'. cbn in Hp. inversion Hp; subst.
      split; [reflexivity|]. right. eexists. reflexivity.
    + next_roundtrip; [|done_run Hrun].
      inversion Hrun; subst r w'. cbn in Hp. inversion Hp; subst.
      split; [reflexivity|]. right. eexists. reflexivity.
  - destruct (User.role user =? "team_leader").
    + next_roundtrip; [|done_run Hrun].
      destruct (map Team._id _) as [|tid tids]; cbn in Hrun.
      * inversion Hrun; subst r w'. cbn in Hp. inversion Hp; subst.
        split; [reflexivity | now left].
      * next_roundtrip; [|done_run Hrun].
        inversion Hrun; subst r w'. cbn in Hp. inversion Hp; subst.
        split; [reflexivity|]. right. eexists. reflexivity.
    + destruct (User.role user =? "team_member"); [|done_run Hrun].
      next_roundtrip; [|done_run Hrun].
      destruct (map Team._id _) as [|tid tids]; cbn in Hrun.
      * inversion Hrun; subst r w'. cbn in Hp. inversion Hp; subst.
        split; [reflexivity | now left].
      * next_roundtrip; [|done_run Hrun].
        inversion Hrun; subst r w'. cbn in Hp. inversion Hp; subst.
        split; [reflexivity|]. right. eexists. reflexivity.
Qed.

(** X7.  Whatever the role of the principal, the list a rack query
    answers with is ordered by creation time, newest first, and the
    [count] of the answer is the length of that list. *)
Theorem getRacks_sorted :
  forall (w w' : World) (user : option User.doc)
         (siteName teamId : option string) (r : Response)
         (n : nat) (data : list RackView),
    rackcontroller.getRacks user siteName teamId w = (Ret r, w') ->
    payload r = RackList n data ->
    n = List.length data
    /\ descending (fun v => Rack.createdAt (rv_rack v)) data.
Proof.
  intros w w' user siteName teamId r n data Hrun Hp.
  destruct (getRacks_list _ _ _ _ _ _ _ _ Hrun Hp) as (Hn & [-> | (f & ->)]).
  - split; [assumption | constructor].
  - split; [assumption|]. rewrite sort_createdAt_desc_by.
    apply sort_desc_by_sorted.
Qed.


Lemma getRacks_sorted_run :
  descending (fun v => Rack.createdAt (rv_rack v))
    (listed (rackcontroller.getRacks (Some Scenario.admin) None None
               Cases.catalogWorld))
  /\ List.length
       (listed (rackcontroller.getRacks (Some Scenario.admin) None None
                  Cases.catalogWorld)) = 3.
Proof.
  split; [|reflexivity].
  apply (getRacks_sorted Cases.catalogWorld _ (Some Scenario.admin) None None
           _ _ _ eq_refl eq_refl).
Defined.


Lemma member_teams (d : Db) (uid tid : ObjectId) :
  In tid
    (map Team._id
       (filter (fun t => existsb (fun m => m =? uid) (Team.members t))
          (teams d)))
  <-> member_of_team d uid tid.
Proof.
  unfold member_of_team. rewrite in_map_iff. split.
  - intros (t & Hid & Ht). apply filter_In in Ht. destruct Ht as (Ht & Hm).
    exists t. repeat split; auto. now apply member_In.
  - intros (t & Ht & Hid & Hm). exists t. split; [assumption|].
    apply filter_In. split; [assumption|]. now apply member_In.
Qed.

(** X9.  A rack list query of a team_member principal is answered with
    success, and the racks in the answer are exactly the racks of the
    teams that list the principal among their members, narrowed by the
    optional [siteName]; a principal who is in no team gets the
    successful empty list. *)
Theorem getRacks_team_member :
  forall (w : World) (user : User.doc) (siteName teamId : option string),
    healthy w ->
    User.role user = "team_member" ->
    exists data w',
      rackcontroller.getRacks (Some user) siteName teamId w =
      (Ret {| status := 200; success := Some true; message := None;
              payload := RackList (List.length data) data |}, w')
      /\ db w' = db w
      /\ (forall rack,
             (exists v, In v data /\ rv_rack v = rack)
             <-> In rack (racks (db w))
                 /\ member_of_team (db w) (User._id user) (Rack.team rack)
                 /\ at_site siteName rack)
      /\ ((forall t, In t (teams (db w)) ->
                     ~ In (User._id user) (Team.members t)) ->
          data = []).
Proof.
  intros w user siteName teamId Hw Hrole.
  unfold rackcontroller.getRacks. rewrite Hrole. cbn.
  unfold_rack. ok_roundtrip.
  destruct (map Team._id
              (filter (fun t => existsb (fun m => m =? User._id user)
                                  (Team.members t))
                 (teams (db w)))) as [|tid tids] eqn:Hin; cbn.
  - exists [], (served w). split; [reflexivity|]. split; [reflexivity|].
    split; [|reflexivity].
    intros rack. split.
    + intros (v & [] & _).
    + intros (_ & Hm & _). apply member_teams in Hm. rewrite Hin in Hm.
      destruct Hm.
  - ok_roundtrip. eexists. eexists.
    split; [reflexivity|]. split; [reflexivity|]. split.
    + intros rack.
      transitivity
        (exists v,
            In v (joined (db w)
                    {| mf_id := None; mf_team := Some (TeamIn (tid :: tids));
                       mf_siteName :=
                         if truthy siteName then siteName else None |})
            /\ rv_rack v = rack).
      * split; intros (v & Hv & E); exists v; split; auto.
        -- eapply Permutation_in; [apply sort_createdAt_desc_perm | exact Hv].
        -- eapply Permutation_in;
             [symmetry; apply sort_createdAt_desc_perm | exact Hv].
      * rewrite joined_racks. unfold matches.
        cbn [mf_id mf_team mf_siteName].
        rewrite andb_true_l, andb_true_iff, includes_In, at_site_matches.
        rewrite <- Hin, member_teams. tauto.
    + intros Hnone. exfalso.
      assert (Hfirst : In tid (tid :: tids)) by now left.
      rewrite <- Hin in Hfirst. apply member_teams in Hfirst.
      destruct Hfirst as (t & Ht & _ & Hm). exact (Hnone t Ht Hm).
Qed.

Lemma getRacks_team_member_run :
  exists data w',
    rackcontroller.getRacks (Some Scenario.outsider) None None Scenario.world
    = (Ret {| status := 200; success := Some true; message := None;
              payload := RackList (List.length data) data |}, w')
    /\ data = [].
Proof.
  destruct
    (getRacks_team_member Scenario.world Scenario.outsider None None)
    as (data & w' & Hrun & _ & _ & Hempty).
  - intros b [].
  - reflexivity.
  - exists data, w'. split; [assumption|]. apply Hempty.
    intros t [<- | [<- | []]]; cbn; [intros [H | []]; discriminate H | tauto].
Defined.

Lemma in_team_matches (teamId : option string) (r : Rack.doc) :
  (if truthy teamId then Rack.team r =? or_else teamId "" else true) = true
  <-> in_team teamId r.
Proof.
  unfold in_team. destruct teamId as [t|]; simpl.
  - destruct (t =? "") eqn:E; simpl.
    + apply String.eqb_eq in E. split; [|reflexivity].
      intros _ t' [= <-] Ht. contradiction.
    + rewrite String.eqb_eq. apply String.eqb_neq in E. split.
      * intros H t' [= <-] _. exact H.
      * intros H. now apply H.
  - split; [|reflexivity]. intros _ t H. discriminate H.
Qed.

(** X10.  A rack list query of an admin is answered with every rack of
    the store, narrowed by the optional [teamId] and [siteName] of the
    query; a [teamId] that is not a well-formed ObjectId makes the
    request fail with status 500 before the store is asked. *)
Theorem getRacks_admin :
  forall (w : World) (user : User.doc) (siteName teamId : option string),
    healthy w ->
    User.role user = "admin" ->
    (truthy teamId = true ->
     isValidObjectId (or_else teamId "") = false ->
     exists r,
       rackcontroller.getRacks (Some user) siteName teamId w = (Ret r, w)
       /\ status r = 500)
    /\ (truthy teamId = false \/ isValidObjectId (or_else teamId "") = true ->
        exists data w',
          rackcontroller.getRacks (Some user) siteName teamId w =
          (Ret {| status := 200; success := Some true; message := None;
                  payload := RackList (List.length data) data |}, w')
          /\ db w' = db w
          /\ forall rack,
               (exists v, In v data /\ rv_rack v = rack)
               <-> In rack (racks (db w))
                   /\ in_team teamId rack /\ at_site siteName rack).
Proof.
  intros w user siteName teamId Hw Hrole.
  unfold rackcontroller.getRacks. rewrite Hrole. cbn. unfold_rack. split.
  - intros Ht Hbad. rewrite Ht, Hbad. eexists. split; reflexivity.
  - intros Hgood.
    assert (Hlist :
              forall team,
                (match team with
                 | Some (TeamIs tid) =>
                     truthy teamId = true /\ tid = or_else teamId ""
                 | Some (TeamIn _) => False
                 | None => truthy teamId = false
                 end) ->
                forall rack,
                  (exists v,
                      In v (sort_createdAt_desc
                              (joined (db w)
                                 {| mf_id := None; mf_team := team;
                                    mf_siteName :=
                                      if truthy siteName then siteName
                                      else None |}))
                      /\ rv_rack v = rack)
                  <-> In rack (racks (db w))
                      /\ in_team teamId rack /\ at_site siteName rack).
    { intros team Hteam rack.
      transitivity
        (exists v,
            In v (joined (db w)
                    {| mf_id := None; mf_team := team;
                       mf_siteName :=
                         if truthy siteName then siteName else None |})
            /\ rv_rack v = rack).
      - split; intros (v & Hv & E); exists v; split; auto.
        + eapply Permutation_in; [apply sort_createdAt_desc_perm | exact Hv].
        + eapply Permutation_in;
            [symmetry; apply sort_createdAt_desc_perm | exact Hv].
      - rewrite joined_racks. unfold matches.
        cbn [mf_id mf_team mf_siteName].
        rewrite andb_true_l, andb_true_iff, at_site_matches.
        rewrite <- in_team_matches.
        destruct team as [[tid | ids] |]; try contradiction.
        + destruct Hteam as (-> & ->). tauto.
        + rewrite Hteam. tauto. }
    destruct (truthy teamId) eqn:Ht.
    + destruct Hgood as [Hgood | Hgood]; [discriminate|].
      rewrite Hgood. ok_roundtrip. eexists. eexists.
      split; [reflexivity|]. split; [reflexivity|].
      apply Hlist. cbn. now split.
    + ok_roundtrip. eexists. eexists.
      split; [reflexivity|]. split; [reflexivity|].
      apply Hlist. reflexivity.
Qed.

Lemma getRacks_admin_run :
  (exists r,
     rackcontroller.getRacks (Some Scenario.admin) None (Some "42")
       Cases.catalogWorld = (Ret r, Cases.catalogWorld)
     /\ status r = 500)
  /\ exists data w',
       rackcontroller.getRacks (Some Scenario.admin) None
         (Some Scenario.puneId) Cases.catalogWorld =
       (Ret {| status := 200; success := Some true; message := None;
               payload := RackList (List.length data) data |}, w')
       /\ exists v, In v data /\ rv_rack v = Cases.olderRack.
Proof.
  assert (Hw : healthy Cases.catalogWorld) by (intros b []).
  split.
  - apply (getRacks_admin Cases.catalogWorld Scenario.admin None (Some "42")
             Hw eq_refl); reflexivity.
  - destruct
      (proj2 (getRacks_admin Cases.catalogWorld Scenario.admin None
                (Some Scenario.puneId) Hw eq_refl) (or_intror eq_refl))
      as (data & w' & Hrun & _ & Hracks).
    exists data, w'. split; [assumption|]. apply Hracks.
    split; [now left|]. split.
    + intros t [= <-] _. reflexivity.
    + intros s H. discriminate H.
Defined.

Lemma length_lookup_unwind {A B} (from : list B) (on : A -> B -> bool)
    (merge : A -> option B -> A) (docs : list A) :
  List.length (lookup_unwind from on merge docs)
  = list_sum
      (map (fun a => Nat.max 1 (List.length (filter (on a) from))) docs).
Proof.
  unfold lookup_unwind. rewrite length_flat_map. f_equal.
  apply map_ext. intros a.
  destruct (filter (on a) from); simpl; [reflexivity|].
  now rewrite length_map.
Qed.

Lemma length_lookup_unwind_unique {A B} (from : list B) (on : A -> B -> bool)
    (merge : A -> option B -> A) (docs : list A) :
  (forall a, List.length (filter (on a) from) <= 1) ->
  List.length (lookup_unwind from on merge docs) = List.length docs.
Proof.
  intros Hone. rewrite length_lookup_unwind.
  set (g := fun a => Nat.max 1 (List.length (filter (on a) from))).
  assert (Hg : forall a, g a = 1) by (intros a; unfold g; specialize (Hone a); lia).
  clearbody g.
  induction docs as [|a docs IH]; [reflexivity|].
  change (g a + list_sum (map g docs) = S (List.length docs)).
  rewrite IH, Hg. reflexivity.
Qed.

Lemma at_most_one_by_id {A} (id : A -> ObjectId) (k : ObjectId) (l : list A) :
  NoDup (map id l) ->
  List.length (filter (fun x => id x =? k) l) <= 1.
Proof.
  induction l as [|x l IH]; simpl; intros Hnd; [lia|].
  inversion Hnd as [|? ? Hx Hl]; subst.
  destruct (id x =? k) eqn:E; simpl; [|now apply IH].
  apply String.eqb_eq in E. subst k.
  assert (Hnone : filter (fun y => id y =? id x) l = []).
  { destruct (filter (fun y => id y =? id x) l) as [|y ys] eqn:F;
      [reflexivity|].
    exfalso. apply Hx.
    assert (Hy : In y (filter (fun y => id y =? id x) l))
      by (rewrite F; now left).
    apply filter_In in Hy. destruct Hy as (Hy & Hid).
    apply String.eqb_eq in Hid. rewrite <- Hid. now apply in_map. }
  rewrite Hnone. simpl. lia.
Qed.

(** The pipeline makes of every matched rack one row per master
    description that has its part number, and one row when none has. *)
Lemma length_joined (d : Db) (f : MatchFilter) :
  NoDup (map Team._id (teams d)) ->
  NoDup (map User._id (users d)) ->
  List.length (joined d f)
  = list_sum (map (rows_of_rack d) (filter (matches f) (racks d))).
Proof.
  intros Hteams Husers. unfold joined.
  rewrite length_lookup_unwind_unique
    by (intros a; now apply at_most_one_by_id).
  rewrite length_lookup_unwind_unique
    by (intros a; now apply at_most_one_by_id).
  rewrite length_lookup_unwind, map_map. reflexivity.
Qed.

(** X11.  The [count] of an admin's unfiltered rack list is not the
    number of racks: when team and user ids are unique, every rack
    counts once for each master description that carries its part
    number, and once when none does, so a part uploaded twice doubles
    the rows of its racks. *)
Theorem getRacks_count_follows_catalog :
  forall (w : World) (user : User.doc),
    healthy w ->
    User.role user = "admin" ->
    NoDup (map Team._id (teams (db w))) ->
    NoDup (map User._id (users (db w))) ->
    exists data w',
      rackcontroller.getRacks (Some user) None None w =
      (Ret {| status := 200; success := Some true; message := None;
              payload := RackList (List.length data) data |}, w')
      /\ List.length data
         = list_sum (map (rows_of_rack (db w)) (racks (db w))).
Proof.
  intros w user Hw Hrole Hteams Husers.
  unfold rackcontroller.getRacks. rewrite Hrole. cbn. unfold_rack.
  ok_roundtrip. eexists. eexists. split; [reflexivity|].
  rewrite (Permutation_length (sort_createdAt_desc_perm _)).
  rewrite length_joined by assumption.
  f_equal. f_equal. apply filter_all. intros r _. reflexivity.
Qed.

Lemma getRacks_count_follows_catalog_run :
  exists data w',
    rackcontroller.getRacks (Some Scenario.admin) None None
      Cases.catalogWorld =
    (Ret {| status := 200; success := Some true; message := None;
            payload := RackList (List.length data) data |}, w')
    /\ List.length data = 3
    /\ List.length (racks (db Cases.catalogWorld)) = 2.
Proof.
  destruct
    (getRacks_count_follows_catalog Cases.catalogWorld Scenario.admin)
    as (data & w' & Hrun & Hlen).
  - intros b [].
  - reflexivity.
  - cbn. repeat constructor; cbn; intuition discriminate.
  - cbn. repeat constructor; cbn; intuition discriminate.
  - exists data, w'. split; [assumption|]. split; [exact Hlen | reflexivity].
Defined.

(** ** The single-rack read *)

(** X12.  A single-rack read never gets as far as the store.  The id
    is checked first, and an id that is not a well-formed ObjectId is
    answered 400.  For a well-formed id the handler builds its
    pipeline with [mongoose.Types.ObjectId(rackId)], called without
    [new]; with [ObjectId] a class, as in mongoose 7 and later, the
    call throws and the request is answered 500.  So whoever the
    principal and whatever the store holds, no rack is returned, none
    of the answers 200, 403 and 404 is given, and the world, the plan
    of store failures included, is as it was. *)
Theorem getRackById_never_fetches :
  forall (w : World) (user : User.doc) (rackId : string),
    exists r,
      rackcontroller.getRackById user rackId w = (Ret r, w)
      /\ status r = (if isValidObjectId rackId then 500 else 400)
      /\ payload r = NoPayload.
Proof.
  intros w user rackId. unfold rackcontroller.getRackById.
  destruct (isValidObjectId rackId); cbn;
    eexists; (split; [reflexivity|]); split; reflexivity.
Qed.

(** ** Teams: membership *)

Ltac unfold_team :=
  cbv beta iota zeta delta
    [asyncHandler try_catch finally bind ret throw query update
     castObjectId castObjectIds Team_findById User_findById Team_save
     Team_findById_populated User_find_in Team_insert Team_deleteOne
     Team_populated Team_find_populated fail] in *.

(** Closes a branch in which the handler wrote and then answered. *)
Ltac wrote H := inversion H; subst; cbn; auto.

Lemma addTeamMember_run :
  forall (w w' : World) (user : User.doc) (id memberId : string)
         (r : Response),
    teamcontroller.addTeamMember user id memberId w = (Ret r, w') ->
    (status r <> 200 /\ db w' = db w)
    \/ exists team u,
         team_by_id (db w) id = Some team
         /\ teamcontroller.isTeamLeaderOrAdmin user team = true
         /\ user_by_id (db w) (canonical memberId) = Some u
         /\ User.role u = "team_member"
         /\ ~ In memberId (Team.members team)
         /\ db w' =
            set_teams
              (replace_team
                 (teamcontroller.with_members
                    (Team.members team ++ [canonical memberId]) team))
              (db w)
         /\ (status r = 200 \/ status r = 500).
Proof.
  intros w w' user id memberId r Hrun.
  unfold teamcontroller.addTeamMember in Hrun. unfold_team.
  destruct (isValidObjectId id) eqn:Hid; [|refused Hrun].
  next_roundtrip; [|refused Hrun].
  destruct (find (fun t => Team._id t =? id) (teams (db w)))
    as [team|] eqn:Hteam; [|refused Hrun].
  cbn in Hrun.
  destruct (teamcontroller.isTeamLeaderOrAdmin user team) eqn:Hauth;
    cbn in Hrun; [|refused Hrun].
  destruct (isValidObjectId (canonical memberId)) eqn:Hmid; [|refused Hrun].
  next_roundtrip; [|refused Hrun].
  destruct (find (fun u => User._id u =? canonical memberId) (users (db w)))
    as [u|] eqn:Hu; [|refused Hrun].
  cbn in Hrun.
  destruct (User.role u =? "team_member") eqn:Hrole; cbn in Hrun;
    [|refused Hrun].
  destruct (existsb (String.eqb memberId) (Team.members team)) eqn:Hinc;
    [refused Hrun|].
  assert (Hout : ~ In memberId (Team.members team)).
  { intros Hin. apply includes_In in Hin. congruence. }
  apply String.eqb_eq in Hrole.
  pose proof (find_team_id _ _ _ Hteam) as Hteam_id.
  rewrite Hteam_id, Hid in Hrun.
  next_roundtrip; [|refused Hrun].
  right. exists team, u.
  next_roundtrip; [|wrote Hrun; repeat split; auto].
  next_roundtrip; [|wrote Hrun; repeat split; auto].
  next_roundtrip; [|wrote Hrun; repeat split; auto].
  wrote Hrun. repeat split; auto.
Qed.

Lemma find_replace_team_other (t : Team.doc) (id : ObjectId)
    (l : list Team.doc) :
  id <> Team._id t ->
  find (fun y => Team._id y =? id) (replace_team t l)
  = find (fun y => Team._id y =? id) l.
Proof.
  intros Hne. induction l as [|x l IH]; simpl; [reflexivity|].
  destruct (Team._id x =? Team._id t) eqn:E; simpl.
  - apply String.eqb_eq in E. rewrite E.
    assert (Hd : (Team._id t =? id) = false)
      by (apply String.eqb_neq; congruence).
    now rewrite Hd.
  - destruct (Team._id x =? id); [reflexivity | exact IH].
Qed.

(** X13.  An add-member call answered 200 was made by an admin or the
    team's leader for an existing user of role team_member, found by
    the id in its canonical, lower-case form, while the id as written
    did not occur among the members; it appends the canonical id to
    the team's [members] and keeps the other members in their order;
    it touches no other team and no rack.  The list stays free of
    duplicates if it was and the canonical id was not in it, which is
    so whenever the id was written in canonical form.  A call answered
    otherwise has written nothing, the answer 500 apart, which is also
    given when the store fails on the re-read that follows the save. *)
Theorem addTeamMember_effect :
  forall (w w' : World) (user : User.doc) (id memberId : string)
         (r : Response),
    teamcontroller.addTeamMember user id memberId w = (Ret r, w') ->
    (status r <> 200 -> status r <> 500 -> db w' = db w)
    /\ (status r = 200 ->
        exists before after u,
          team_by_id (db w) id = Some before
          /\ teamcontroller.isTeamLeaderOrAdmin user before = true
          /\ user_by_id (db w) (canonical memberId) = Some u
          /\ User.role u = "team_member"
          /\ ~ In memberId (Team.members before)
          /\ team_by_id (db w') id = Some after
          /\ Team.members after = Team.members before ++ [canonical memberId]
          /\ Team.teamLeader after = Team.teamLeader before
          /\ Team.status after = Team.status before
          /\ (~ In (canonical memberId) (Team.members before) ->
              NoDup (Team.members before) -> NoDup (Team.members after))
          /\ (canonical memberId = memberId ->
              NoDup (Team.members before) -> NoDup (Team.members after))
          /\ (forall id', id' <> id ->
                          team_by_id (db w') id' = team_by_id (db w) id')
          /\ racks (db w') = racks (db w)).
Proof.
  intros w w' user id memberId r Hrun.
  destruct (addTeamMember_run _ _ _ _ _ _ Hrun)
    as [(Hst & Hdb) |
        (team & u & Hteam & Hauth & Hu & Hrole & Hout & Hdb & Hst)].
  - split; [auto | intros H; contradiction].
  - split; [intros H1 H2; destruct Hst; contradiction|]. intros _.
    exists team,
      (teamcontroller.with_members
         (Team.members team ++ [canonical memberId]) team), u.
    pose proof (find_team_id _ _ _ Hteam) as Hid.
    assert (Hfresh :
              ~ In (canonical memberId) (Team.members team) ->
              NoDup (Team.members team) ->
              NoDup (Team.members team ++ [canonical memberId])).
    { intros Hnew Hnd.
      apply Permutation_NoDup
        with (l := canonical memberId :: Team.members team).
      - apply Permutation_cons_append.
      - now constructor. }
    rewrite Hdb. unfold team_by_id in *. cbn.
    repeat split; auto.
    + subst id.
      apply (find_replace_team
               (teamcontroller.with_members
                  (Team.members team ++ [canonical memberId]) team) _ team).
      exact Hteam.
    + intros Hcanon. apply Hfresh. now rewrite Hcanon.
    + intros id' Hne. apply find_replace_team_other. cbn. congruence.
Qed.

Lemma addTeamMember_effect_run :
  exists after,
    team_by_id
      (db (snd (teamcontroller.addTeamMember Scenario.leader Scenario.delhiId
                  Scenario.outsiderId Scenario.world)))
      Scenario.delhiId = Some after
    /\ Team.members after = [Scenario.memberId; Scenario.outsiderId].
Proof.
  destruct
    (addTeamMember_effect Scenario.world _ Scenario.leader Scenario.delhiId
       Scenario.outsiderId _ eq_refl)
    as (_ & Hok).
  destruct (Hok eq_refl)
    as (before & after & u & Hb & _ & _ & _ & _ & Ha & Hm & _).
  exists after. split; [assumption|]. rewrite Hm.
  injection Hb as <-. reflexivity.
Defined.

Lemma filter_shorter_In (m : string) (l : list string) :
  Nat.eqb (List.length (filter (fun member => negb (member =? m)) l))
    (List.length l) = false ->
  In m l.
Proof.
  intros H. destruct (in_dec string_dec m l) as [Hin | Hout]; [assumption|].
  rewrite (filter_out_absent _ _ Hout), Nat.eqb_refl in H. discriminate.
Qed.

Lemma removeTeamMember_run :
  forall (w w' : World) (user : User.doc) (id memberId : string)
         (r : Response),
    teamcontroller.removeTeamMember user id memberId w = (Ret r, w') ->
    (status r <> 200 /\ db w' = db w)
    \/ exists team,
         team_by_id (db w) id = Some team
         /\ teamcontroller.isTeamLeaderOrAdmin user team = true
         /\ In memberId (Team.members team)
         /\ db w' =
            set_teams
              (replace_team
                 (teamcontroller.with_members
                    (filter (fun member => negb (member =? memberId))
                       (Team.members team)) team))
              (db w)
         /\ (status r = 200 \/ status r = 500).
Proof.
  intros w w' user id memberId r Hrun.
  unfold teamcontroller.removeTeamMember in Hrun. unfold_team.
  destruct (isValidObjectId id) eqn:Hid; [|refused Hrun].
  next_roundtrip; [|refused Hrun].
  destruct (find (fun t => Team._id t =? id) (teams (db w)))
    as [team|] eqn:Hteam; [|refused Hrun].
  cbn in Hrun.
  destruct (teamcontroller.isTeamLeaderOrAdmin user team) eqn:Hauth;
    cbn in Hrun; [|refused Hrun].
  match type of Hrun with
  | context [if Nat.eqb ?a ?b then _ else _] =>
      destruct (Nat.eqb a b) eqn:Hlen
  end; [refused Hrun|].
  cbn in Hlen. apply filter_shorter_In in Hlen.
  pose proof (find_team_id _ _ _ Hteam) as Hteam_id.
  rewrite Hteam_id, Hid in Hrun.
  next_roundtrip; [|refused Hrun].
  right. exists team.
  next_roundtrip; [|wrote Hrun; repeat split; auto].
  next_roundtrip; [|wrote Hrun; repeat split; auto].
  next_roundtrip; [|wrote Hrun; repeat split; auto].
  wrote Hrun. repeat split; auto.
Qed.

(** X14.  A remove-member call answered 200 was made by an admin or the
    team's leader for an id that was among the [members]; afterwards
    the id is not a member any more, in none of its occurrences, and
    the other members are the same in the same order; the leader, the
    status, the other teams and the racks are untouched. *)
Theorem removeTeamMember_effect :
  forall (w w' : World) (user : User.doc) (id memberId : string)
         (r : Response),
    teamcontroller.removeTeamMember user id memberId w = (Ret r, w') ->
    status r = 200 ->
    exists before after,
      team_by_id (db w) id = Some before
      /\ teamcontroller.isTeamLeaderOrAdmin user before = true
      /\ In memberId (Team.members before)
      /\ team_by_id (db w') id = Some after
      /\ ~ In memberId (Team.members after)
      /\ Team.members after
         = filter (fun member => negb (member =? memberId))
             (Team.members before)
      /\ (forall m, m <> memberId ->
                    (In m (Team.members after) <-> In m (Team.members before)))
      /\ Team.teamLeader after = Team.teamLeader before
      /\ Team.status after = Team.status before
      /\ (forall id', id' <> id ->
                      team_by_id (db w') id' = team_by_id (db w) id')
      /\ racks (db w') = racks (db w).
Proof.
  intros w w' user id memberId r Hrun Hst.
  destruct (removeTeamMember_run _ _ _ _ _ _ Hrun)
    as [(Hno & _) | (team & Hteam & Hauth & Hin & Hdb & _)];
    [contradiction|].
  exists team,
    (teamcontroller.with_members
       (filter (fun member => negb (member =? memberId)) (Team.members team))
       team).
  pose proof (find_team_id _ _ _ Hteam) as Hid.
  rewrite Hdb. unfold team_by_id in *. cbn.
  repeat split; auto.
  - subst id.
    apply (find_replace_team
             (teamcontroller.with_members
                (filter (fun member => negb (member =? memberId))
                   (Team.members team)) team) _ team).
    exact Hteam.
  - intros Hstill. apply filter_In in Hstill. destruct Hstill as (_ & Hne).
    now rewrite String.eqb_refl in Hne.
  - intros Hm. apply filter_In in Hm. tauto.
  - intros Hm. apply filter_In. split; [assumption|].
    apply negb_true_iff. now apply String.eqb_neq.
  - intros id' Hne. apply find_replace_team_other. cbn. congruence.
Qed.

Lemma removeTeamMember_effect_run :
  exists after,
    team_by_id
      (db (snd (teamcontroller.removeTeamMember Scenario.admin
                  Scenario.delhiId Scenario.memberId Scenario.world)))
      Scenario.delhiId = Some after
    /\ Team.members after = [].
Proof.
  destruct
    (removeTeamMember_effect Scenario.world _ Scenario.admin Scenario.delhiId
       Scenario.memberId _ eq_refl eq_refl)
    as (before & after & Hb & _ & _ & Ha & _ & Hm & _).
  exists after. split; [assumption|]. rewrite Hm.
  injection Hb as <-. reflexivity.
Defined.

(** ** Teams: completion, update and deletion *)

Lemma completeTeamWork_run :
  forall (w w' : World) (user : User.doc) (teamId : string) (r : Response),
    teamcontroller.completeTeamWork user teamId w = (Ret r, w') ->
    (status r <> 200 /\ db w' = db w)
    \/ exists team,
         isValidObjectId teamId = true
         /\ team_by_id (db w) teamId = Some team
         /\ db w' =
            set_teams (replace_team (teamcontroller.completed team)) (db w)
         /\ status r = 200.
Proof.
  intros w w' user teamId r Hrun.
  unfold teamcontroller.completeTeamWork in Hrun. unfold_team.
  destruct (isValidObjectId teamId) eqn:Hid; [|refused Hrun].
  next_roundtrip; [|refused Hrun].
  destruct (find (fun t => Team._id t =? teamId) (teams (db w)))
    as [team|] eqn:Hteam; [|refused Hrun].
  cbn in Hrun.
  match type of Hrun with
  | context [negb ?c] => destruct c
  end; cbn in Hrun; [|refused Hrun].
  next_roundtrip; [|refused Hrun].
  inversion Hrun; subst r w'. right. exists team. repeat split; auto.
Qed.

Lemma completed_team_has_no_leader (user : User.doc) (team : Team.doc) :
  User.role user <> "admin" ->
  teamcontroller.isTeamLeaderOrAdmin user (teamcontroller.completed team)
  = false.
Proof.
  intros Hrole. unfold teamcontroller.isTeamLeaderOrAdmin. cbn.
  apply String.eqb_neq in Hrole. rewrite Hrole. now rewrite andb_false_r.
Qed.

(** X15.  Completion locks the team for everyone but an admin: once
    [completeTeamWork] has succeeded, whoever is not admin, the former
    leader included, is refused with 403 when adding or removing a
    member, completing again or deleting the team, and an update
    request of theirs fails with status 500, because the check reads
    the leader that is no longer there; none of these changes the
    store. *)
Theorem completed_team_is_locked :
  forall (w w' : World) (user : User.doc) (teamId : string) (r : Response),
    teamcontroller.completeTeamWork user teamId w = (Ret r, w') ->
    status r = 200 ->
    healthy w' ->
    forall (other : User.doc) (memberId : string) (body : Team.body),
      User.role other <> "admin" ->
      (exists w'',
          teamcontroller.addTeamMember other teamId memberId w' =
          (Ret (fail 403 "Not authorized to modify this team"), w'')
          /\ db w'' = db w')
      /\ (exists w'',
             teamcontroller.removeTeamMember other teamId memberId w' =
             (Ret (fail 403 "Not authorized to modify this team"), w'')
             /\ db w'' = db w')
      /\ (exists w'',
             teamcontroller.completeTeamWork other teamId w' =
             (Ret (fail 403 "Not authorized to complete work for this team."),
              w'')
             /\ db w'' = db w')
      /\ (exists w'',
             teamcontroller.deleteTeam other teamId w' =
             (Ret (fail 403 "Not authorized to delete this team"), w'')
             /\ db w'' = db w')
      /\ (exists w'',
             teamcontroller.updateTeam other teamId body w' =
             (Ret (fail 500 "Server error updating team"), w'')
             /\ db w'' = db w').
Proof.
  intros w w' user teamId r Hrun Hst Hw' other memberId body Hother.
  destruct (completeTeamWork_run _ _ _ _ _ Hrun)
    as [(Hno & _) | (team & Hid & Hteam & Hdb & _)]; [contradiction|].
  assert (Hnow :
            find (fun t => Team._id t =? teamId) (teams (db w'))
            = Some (teamcontroller.completed team)).
  { rewrite Hdb. cbn. pose proof (find_team_id _ _ _ Hteam) as Hsame.
    subst teamId.
    apply (find_replace_team (teamcontroller.completed team) _ team).
    exact Hteam. }
  pose proof (completed_team_has_no_leader other team Hother) as Hlocked.
  assert (Hrole : (User.role other =? "admin") = false)
    by now apply String.eqb_neq.
  repeat split.
  - unfold teamcontroller.addTeamMember. unfold_team. rewrite Hid.
    ok_roundtrip. rewrite Hnow, Hlocked. cbn. eexists. split; reflexivity.
  - unfold teamcontroller.removeTeamMember. unfold_team. rewrite Hid.
    ok_roundtrip. rewrite Hnow, Hlocked. cbn. eexists. split; reflexivity.
  - unfold teamcontroller.completeTeamWork. unfold_team. rewrite Hid.
    ok_roundtrip. rewrite Hnow. cbn. rewrite Hrole. cbn.
    rewrite andb_false_r. cbn. eexists. split; reflexivity.
  - unfold teamcontroller.deleteTeam. unfold_team. rewrite Hid.
    ok_roundtrip. rewrite Hnow, Hlocked. cbn. eexists. split; reflexivity.
  - unfold teamcontroller.updateTeam. unfold_team. rewrite Hid.
    ok_roundtrip. rewrite Hnow. cbn. rewrite Hrole. cbn.
    eexists. split; reflexivity.
Qed.

Lemma completed_team_is_locked_run :
  exists w'',
    teamcontroller.updateTeam Scenario.leader Scenario.delhiId Cases.rename
      (snd (teamcontroller.completeTeamWork Scenario.leader Scenario.delhiId
              Scenario.world)) =
    (Ret (fail 500 "Server error updating team"), w'')
    /\ db w'' =
       db (snd (teamcontroller.completeTeamWork Scenario.leader
                  Scenario.delhiId Scenario.world)).
Proof.
  apply (completed_team_is_locked Scenario.world _ Scenario.leader
           Scenario.delhiId _ eq_refl eq_refl).
  - intros b [].
  - exact Scenario.memberId.
  - discriminate.
Defined.

Lemma checkMembers_run :
  forall (w w' : World) (members : option (list string))
         (out : Outcome (option Response)),
    teamcontroller.checkMembers members w = (out, w') ->
    db w' = db w
    /\ (out = Ret None -> members_checked (db w) members)
    /\ (forall refusal, out = Ret (Some refusal) -> status refusal = 400).
Proof.
  intros w w' members out Hrun.
  unfold teamcontroller.checkMembers in Hrun.
  destruct members as [[|m ms]|];
    try (inversion Hrun; subst; cbn; repeat split; congruence).
  unfold_team.
  destruct (forallb isValidObjectId (m :: ms));
    [|inversion Hrun; subst; repeat split; congruence].
  next_roundtrip; [|inversion Hrun; subst; repeat split; congruence].
  match type of Hrun with
  | context [negb (Nat.eqb ?a ?b)] => destruct (Nat.eqb a b) eqn:Hlen
  end; cbn in Hrun;
    [|inversion Hrun; subst; repeat split; try congruence;
      intros refusal [= <-]; reflexivity].
  match type of Hrun with
  | context [match List.length ?l with 0 => false | S _ => true end] =>
      destruct l as [|bad rest] eqn:Hroles
  end; cbn in Hrun.
  - inversion Hrun; subst. split; [reflexivity|].
    split; [|intros refusal H; discriminate H].
    intros _. cbn. split.
    + now apply Nat.eqb_eq in Hlen.
    + apply Forall_forall. intros u Hu.
      destruct (User.role u =? "team_member") eqn:E;
        [now apply String.eqb_eq|].
      assert (Hbad : In u []).
      { rewrite <- Hroles. apply filter_In. split; [exact Hu|].
        now rewrite E. }
      destruct Hbad.
  - inversion Hrun; subst. repeat split; try congruence.
    intros refusal [= <-]. reflexivity.
Qed.

(** Selecting users keeps their ids distinct. *)
Lemma selected_ids_distinct (keep : User.doc -> bool) (us : list User.doc) :
  NoDup (map User._id us) -> NoDup (map User._id (filter keep us)).
Proof.
  intros Hdistinct. induction us as [|u us IH]; cbn in *.
  - constructor.
  - apply NoDup_cons_iff in Hdistinct. destruct Hdistinct as (Hfresh & Hrest).
    specialize (IH Hrest). destruct (keep u); cbn; [|exact IH].
    apply NoDup_cons; [|exact IH].
    contradict Hfresh. apply in_map_iff in Hfresh.
    destruct Hfresh as (v & Hid & Hv). apply filter_In in Hv.
    apply in_map_iff. exists v. tauto.
Qed.

(** When user ids are unique, a member list that passed the validation
    has no repeated id, and each of its ids is a user of role
    team_member. *)
Lemma members_checked_sound (d : Db) (members : list string) :
  NoDup (map User._id (users d)) ->
  members_checked d (Some members) ->
  NoDup members
  /\ forall m, In m members ->
               exists u, user_by_id d m = Some u
                         /\ User.role u = "team_member".
Proof.
  intros Hnd Hchecked.
  destruct members as [|m0 ms]; [split; [constructor | intros m []]|].
  set (l := m0 :: ms) in *.
  set (found := filter (fun u => existsb (String.eqb (User._id u)) l)
                  (users d)).
  change (List.length found = List.length l
          /\ Forall (fun u => User.role u = "team_member") found)
    in Hchecked.
  destruct Hchecked as (Hlen & Hroles).
  assert (Hids : NoDup (map User._id found))
    by (unfold found; now apply selected_ids_distinct).
  assert (Hincl : incl (map User._id found) l).
  { intros i Hi. apply in_map_iff in Hi. destruct Hi as (u & <- & Hu).
    unfold found in Hu. apply filter_In in Hu. destruct Hu as (_ & Hu).
    now apply includes_In. }
  assert (Hle : List.length l <= List.length (map User._id found))
    by (rewrite length_map; lia).
  split.
  - now apply (NoDup_incl_NoDup Hids Hle).
  - intros m Hm.
    pose proof (NoDup_length_incl Hids Hle Hincl) as Hback.
    specialize (Hback m Hm). apply in_map_iff in Hback.
    destruct Hback as (u & Hu_id & Hu).
    unfold user_by_id.
    destruct (find (fun u => User._id u =? m) (users d)) as [u'|] eqn:Hfind.
    + exists u'. split; [reflexivity|].
      apply find_some in Hfind. destruct Hfind as (Hin' & Hid').
      apply String.eqb_eq in Hid'.
      rewrite Forall_forall in Hroles. apply Hroles.
      unfold found. apply filter_In. split; [assumption|].
      apply includes_In. now rewrite Hid'.
    + exfalso. unfold found in Hu. apply filter_In in Hu.
      destruct Hu as (Hu & _).
      apply (find_none _ _ Hfind) in Hu. cbn in Hu.
      rewrite Hu_id, String.eqb_refl in Hu. discriminate.
Qed.

(** The tail shared by the branches of [createTeam] once the leader is
    settled: member validation, insertion, re-read. *)
Ltac createTeam_tail Hrun :=
  match type of Hrun with
  | context [teamcontroller.checkMembers ?ms ?W] =>
      let out := fresh "out" in
      let wc := fresh "wc" in
      let Hcheck := fresh "Hcheck" in
      destruct (teamcontroller.checkMembers ms W) as [out wc] eqn:Hcheck;
      apply checkMembers_run in Hcheck;
      destruct Hcheck as (Hdbc & Hchecked & Hrefused);
      destruct out as [[refusal|]|e];
      [ specialize (Hrefused refusal eq_refl);
        inversion Hrun; subst; left; split; [congruence | exact Hdbc]
      | specialize (Hchecked eq_refl)
      | inversion Hrun; subst; left; split; [cbn; discriminate | exact Hdbc] ]
  end.

Lemma createTeam_run :
  forall (w w' : World) (newId : ObjectId) (user : User.doc)
         (body : Team.body) (r : Response),
    teamcontroller.createTeam newId user body w = (Ret r, w') ->
    (status r <> 201 /\ db w' = db w)
    \/ exists teamLeaderId,
         truthy (Team.b_siteName body) = true
         /\ truthy (Team.b_location body) = true
         /\ ((User.role user = "admin"
              /\ Team.b_leader body = Some teamLeaderId
              /\ exists leader,
                   user_by_id (db w) teamLeaderId = Some leader
                   /\ (User.role leader = "team_leader"
                       \/ User.role leader = "admin"))
             \/ (User.role user = "team_leader"
                 /\ teamLeaderId = User._id user))
         /\ members_checked (db w) (Team.b_members body)
         /\ db w' =
            set_teams
              (fun l =>
                 l ++ [{| Team._id := newId;
                          Team.siteName := or_else (Team.b_siteName body) "";
                          Team.location := or_else (Team.b_location body) "";
                          Team.description := Team.b_description body;
                          Team.isNewSite :=
                            or_else (Team.b_isNewSite body) false;
                          Team.teamLeader := Some teamLeaderId;
                          Team.members := or_else (Team.b_members body) [];
                          Team.status := "Active" |}])
              (db w)
         /\ (status r = 201 \/ status r = 500).
Proof.
  intros w w' newId user body r Hrun.
  unfold teamcontroller.createTeam in Hrun.
  destruct (truthy (Team.b_siteName body)) eqn:Hsite; [|refused Hrun].
  destruct (truthy (Team.b_location body)) eqn:Hloc; [|refused Hrun].
  cbn [negb orb] in Hrun. unfold_team.
  destruct (User.role user =? "admin") eqn:Hadmin.
  - destruct (Team.b_leader body) as [l|] eqn:Hleader;
      [|cbn in Hrun; refused Hrun].
    cbn [truthy or_else] in Hrun.
    destruct (l =? "") eqn:Hl; [cbn in Hrun; refused Hrun|].
    cbn [negb] in Hrun.
    destruct (isValidObjectId l); [|refused Hrun].
    next_roundtrip; [|refused Hrun].
    destruct (find (fun u => User._id u =? l) (users (db w)))
      as [leader|] eqn:Hfound; [|refused Hrun].
    cbn in Hrun.
    destruct (negb (User.role leader =? "team_leader")
              && negb (User.role leader =? "admin")) eqn:Hrole;
      [refused Hrun|].
    cbn in Hrun. createTeam_tail Hrun. cbn in Hdbc.
    next_roundtrip; [|inversion Hrun; subst; left; split;
                      [cbn; discriminate | exact Hdbc]].
    right. exists l. rewrite Hdbc in *.
    assert (Hleads : User.role leader = "team_leader"
                     \/ User.role leader = "admin").
    { apply andb_false_iff in Hrole.
      destruct Hrole as [Hrole | Hrole]; apply negb_false_iff in Hrole;
        apply String.eqb_eq in Hrole; auto. }
    apply String.eqb_eq in Hadmin.
    repeat (next_roundtrip;
            [|inversion Hrun; subst; cbn; repeat split; eauto 8]).
    inversion Hrun; subst; cbn; repeat split; eauto 8.
  - destruct (User.role user =? "team_leader") eqn:Hlead;
      [|cbn in Hrun; refused Hrun].
    destruct (truthy (Team.b_leader body)
              && negb (or_else (Team.b_leader body) "" =? User._id user));
      [cbn in Hrun; refused Hrun|].
    cbn in Hrun. createTeam_tail Hrun. cbn in Hdbc.
    next_roundtrip; [|inversion Hrun; subst; left; split;
                      [cbn; discriminate | exact Hdbc]].
    right. exists (User._id user). rewrite Hdbc in *.
    apply String.eqb_eq in Hlead.
    repeat (next_roundtrip;
            [|inversion Hrun; subst; cbn; repeat split; eauto 8]).
    inversion Hrun; subst; cbn; repeat split; eauto 8.
Qed.

(** X16.  A team creation answered 201 stores one new team, Active, with
    the requested site and the supplied members.  Its leader is the
    user an admin named, who exists and holds the role team_leader or
    admin, or the requesting team_leader itself; nobody else creates a
    team.  When user ids are unique, the members carry no repeated id
    and each of them is an existing user of role team_member. *)
Theorem createTeam_success :
  forall (w w' : World) (newId : ObjectId) (user : User.doc)
         (body : Team.body) (r : Response),
    teamcontroller.createTeam newId user body w = (Ret r, w') ->
    status r = 201 ->
    exists team,
      teams (db w') = teams (db w) ++ [team]
      /\ racks (db w') = racks (db w)
      /\ Team._id team = newId
      /\ Team.status team = "Active"
      /\ Team.b_siteName body = Some (Team.siteName team)
      /\ Team.siteName team <> ""
      /\ Team.members team = or_else (Team.b_members body) []
      /\ ((User.role user = "admin"
           /\ Team.b_leader body = Team.teamLeader team
           /\ exists l leader,
                Team.teamLeader team = Some l
                /\ user_by_id (db w) l = Some leader
                /\ (User.role leader = "team_leader"
                    \/ User.role leader = "admin"))
          \/ (User.role user = "team_leader"
              /\ Team.teamLeader team = Some (User._id user)))
      /\ (NoDup (map User._id (users (db w))) ->
          NoDup (Team.members team)
          /\ forall m, In m (Team.members team) ->
                       exists u, user_by_id (db w) m = Some u
                                 /\ User.role u = "team_member").
Proof.
  intros w w' newId user body r Hrun Hst.
  destruct (createTeam_run _ _ _ _ _ _ Hrun)
    as [(Hno & _) |
        (l & Hsite & _ & Hleader & Hchecked & Hdb & _)]; [contradiction|].
  eexists. rewrite Hdb. cbn. split; [reflexivity|]. cbn.
  repeat split.
  - destruct (Team.b_siteName body) as [s|]; [reflexivity | discriminate].
  - destruct (Team.b_siteName body) as [s|]; [|discriminate]. cbn in *.
    intros ->. discriminate.
  - destruct Hleader as [(Hadmin & Hl & leader & Hfound & Hrole) | (Hlead & ->)].
    + left. repeat split; auto. exists l, leader. auto.
    + right. auto.
  - destruct (Team.b_members body) as [members|]; [|constructor].
    now apply (members_checked_sound (db w) members).
  - destruct (Team.b_members body) as [members|]; [|intros m []].
    now apply (members_checked_sound (db w) members).
Qed.

Lemma createTeam_success_run :
  exists team,
    teams
      (db (snd (teamcontroller.createTeam Cases.newTeamId Scenario.admin
                  Cases.newTeam Scenario.world)))
    = teams (db Scenario.world) ++ [team]
    /\ Team.teamLeader team = Some Scenario.leaderId
    /\ NoDup (Team.members team).
Proof.
  destruct
    (createTeam_success Scenario.world _ Cases.newTeamId Scenario.admin
       Cases.newTeam _ eq_refl eq_refl)
    as (team & Hteams & _ & _ & _ & _ & _ & _ & Hleader & Hmembers).
  exists team. split; [assumption|]. split.
  - destruct Hleader as [(_ & <- & _) | (Hrole & _)];
      [reflexivity | discriminate Hrole].
  - apply Hmembers. cbn. repeat constructor; cbn; intuition discriminate.
Defined.

(** X17.  A team creation that names site and location is refused with
    403, before the store is asked, when the principal is neither admin
    nor team_leader, and when a team_leader names a leader other than
    itself; an admin who names no leader is answered 400 likewise. *)
Theorem createTeam_refusals :
  forall (w : World) (newId : ObjectId) (user : User.doc) (body : Team.body),
    truthy (Team.b_siteName body) = true ->
    truthy (Team.b_location body) = true ->
    (User.role user <> "admin" ->
     User.role user <> "team_leader" ->
     teamcontroller.createTeam newId user body w =
     (Ret (fail 403 "Not authorized to create teams."), w))
    /\ (User.role user = "team_leader" ->
        forall l, Team.b_leader body = Some l -> l <> "" ->
                  l <> User._id user ->
        teamcontroller.createTeam newId user body w =
        (Ret (fail 403 "Team leaders can only create teams with themselves as the leader."),
         w))
    /\ (User.role user = "admin" ->
        truthy (Team.b_leader body) = false ->
        teamcontroller.createTeam newId user body w =
        (Ret (fail 400 "Admin must explicitly select a team leader."), w)).
Proof.
  intros w newId user body Hsite Hloc.
  unfold teamcontroller.createTeam. rewrite Hsite, Hloc. cbn [negb orb].
  repeat split.
  - intros Hadmin Hlead. apply String.eqb_neq in Hadmin, Hlead.
    rewrite Hadmin, Hlead. reflexivity.
  - intros Hrole l Hl Hne Hother. rewrite Hrole, Hl. cbn.
    apply String.eqb_neq in Hne, Hother. rewrite Hne, Hother. reflexivity.
  - intros Hrole Hnone. rewrite Hrole, Hnone. reflexivity.
Qed.

Lemma createTeam_refusals_run :
  teamcontroller.createTeam Cases.newTeamId Scenario.member Cases.newTeam
    Scenario.world =
  (Ret (fail 403 "Not authorized to create teams."), Scenario.world)
  /\ teamcontroller.createTeam Cases.newTeamId Scenario.admin Cases.rename
       (Scenario.failing 0) =
     (Ret (fail 400 "Site Name and Location are required"),
      Scenario.failing 0).
Proof.
  split; [|reflexivity].
  apply (createTeam_refusals Scenario.world Cases.newTeamId Scenario.member
           Cases.newTeam eq_refl eq_refl); discriminate.
Defined.

Lemma updateTeam_run :
  forall (w w' : World) (user : User.doc) (id : string) (body : Team.body)
         (r : Response),
    teamcontroller.updateTeam user id body w = (Ret r, w') ->
    (status r <> 200 /\ db w' = db w)
    \/ exists team,
         team_by_id (db w) id = Some team
         /\ (User.role user = "admin"
             \/ Team.teamLeader team = Some (User._id user))
         /\ members_checked (db w) (Team.b_members body)
         /\ db w' =
            set_teams (replace_team (teamcontroller.merged body team)) (db w)
         /\ (status r = 200 \/ status r = 500).
Proof.
  intros w w' user id body r Hrun.
  unfold teamcontroller.updateTeam in Hrun. unfold_team.
  destruct (isValidObjectId id) eqn:Hid; [|refused Hrun].
  next_roundtrip; [|refused Hrun].
  destruct (find (fun t => Team._id t =? id) (teams (db w)))
    as [team|] eqn:Hteam; [|refused Hrun].
  cbn in Hrun.
  assert (Hauth :
            (User.role user =? "admin") = true
            \/ ((User.role user =? "admin") = false
                /\ exists l, Team.teamLeader team = Some l
                             /\ ((l =? User._id user) = true
                                 \/ (l =? User._id user) = false))
            \/ ((User.role user =? "admin") = false
                /\ Team.teamLeader team = None)).
  { destruct (User.role user =? "admin"); [now left|]. right.
    destruct (Team.teamLeader team) as [l|]; [left | right; auto].
    split; [reflexivity|]. exists l. split; [reflexivity|].
    destruct (l =? User._id user); auto. }
  destruct Hauth as [Hadmin | [(Hadmin & l & Hl & [Hsame | Hother])
                              | (Hadmin & Hnone)]];
    rewrite Hadmin in Hrun; cbn in Hrun;
    try (rewrite Hl in Hrun; cbn in Hrun);
    try (rewrite Hnone in Hrun; cbn in Hrun; refused Hrun);
    try (rewrite Hother in Hrun; cbn in Hrun; refused Hrun);
    try (rewrite Hsame in Hrun; cbn in Hrun).
  - createTeam_tail Hrun. cbn in Hdbc.
    next_roundtrip; [|inversion Hrun; subst; left; split;
                      [cbn; discriminate | exact Hdbc]].
    right. exists team. rewrite Hdbc in *. apply String.eqb_eq in Hadmin.
    repeat (next_roundtrip;
            [|inversion Hrun; subst; cbn; repeat split; auto]).
    inversion Hrun; subst; cbn; repeat split; auto.
  - createTeam_tail Hrun. cbn in Hdbc.
    next_roundtrip; [|inversion Hrun; subst; left; split;
                      [cbn; discriminate | exact Hdbc]].
    right. exists team. rewrite Hdbc in *. apply String.eqb_eq in Hsame.
    subst l.
    repeat (next_roundtrip;
            [|inversion Hrun; subst; cbn; repeat split; auto]).
    inversion Hrun; subst; cbn; repeat split; auto.
Qed.

(** X18.  A team update answered 200 comes from an admin or from the
    user the team names as leader, and stores the merge of the body
    into the team: a supplied non-empty site name, location or status
    replaces the old one, and an absent or empty one keeps it; a
    supplied description or flag replaces the old one, and an absent
    one keeps it; a supplied member list, the empty one included,
    replaces the members, and an absent one keeps them.  The id and
    the leader of the team never change, and neither do the other
    teams or any rack, which keep the site name they were created
    with. *)
Theorem updateTeam_merges :
  forall (w w' : World) (user : User.doc) (id : string) (body : Team.body)
         (r : Response),
    teamcontroller.updateTeam user id body w = (Ret r, w') ->
    status r = 200 ->
    exists before after,
      team_by_id (db w) id = Some before
      /\ (User.role user = "admin"
          \/ Team.teamLeader before = Some (User._id user))
      /\ team_by_id (db w') id = Some after
      /\ Team._id after = Team._id before
      /\ Team.teamLeader after = Team.teamLeader before
      /\ (forall s, Team.b_siteName body = Some s -> s <> "" ->
                    Team.siteName after = s)
      /\ (truthy (Team.b_siteName body) = false ->
          Team.siteName after = Team.siteName before)
      /\ (forall l, Team.b_location body = Some l -> l <> "" ->
                    Team.location after = l)
      /\ (truthy (Team.b_location body) = false ->
          Team.location after = Team.location before)
      /\ (forall s, Team.b_status body = Some s -> s <> "" ->
                    Team.status after = s)
      /\ (truthy (Team.b_status body) = false ->
          Team.status after = Team.status before)
      /\ (forall d, Team.b_description body = Some d ->
                    Team.description after = Some d)
      /\ (Team.b_description body = None ->
          Team.description after = Team.description before)
      /\ (forall f, Team.b_isNewSite body = Some f ->
                    Team.isNewSite after = f)
      /\ (Team.b_isNewSite body = None ->
          Team.isNewSite after = Team.isNewSite before)
      /\ (forall ms, Team.b_members body = Some ms ->
                     Team.members after = ms)
      /\ (Team.b_members body = None ->
          Team.members after = Team.members before)
      /\ (forall id', id' <> id ->
                      team_by_id (db w') id' = team_by_id (db w) id')
      /\ racks (db w') = racks (db w).
Proof.
  intros w w' user id body r Hrun Hst.
  destruct (updateTeam_run _ _ _ _ _ _ Hrun)
    as [(Hno & _) | (team & Hteam & Hauth & _ & Hdb & _)]; [contradiction|].
  exists team, (teamcontroller.merged body team).
  pose proof (find_team_id _ _ _ Hteam) as Hid.
  rewrite Hdb. unfold team_by_id in *. cbn.
  repeat split; auto.
  - subst id.
    apply (find_replace_team (teamcontroller.merged body team) _ team).
    exact Hteam.
  - intros s Hs Hne. rewrite Hs. cbn. apply String.eqb_neq in Hne.
    now rewrite Hne.
  - intros Hnone. now rewrite Hnone.
  - intros l Hl Hne. rewrite Hl. cbn. apply String.eqb_neq in Hne.
    now rewrite Hne.
  - intros Hnone. now rewrite Hnone.
  - intros s Hs Hne. rewrite Hs. cbn. apply String.eqb_neq in Hne.
    now rewrite Hne.
  - intros Hnone. now rewrite Hnone.
  - intros d Hd. now rewrite Hd.
  - intros Hnone. now rewrite Hnone.
  - intros f Hf. now rewrite Hf.
  - intros Hnone. now rewrite Hnone.
  - intros ms Hms. now rewrite Hms.
  - intros Hnone. now rewrite Hnone.
  - intros id' Hne. apply find_replace_team_other. cbn. congruence.
Qed.

Lemma updateTeam_merges_run :
  exists after,
    team_by_id
      (db (snd (teamcontroller.updateTeam Scenario.leader Scenario.delhiId
                  Cases.rename Scenario.world)))
      Scenario.delhiId = Some after
    /\ Team.siteName after = "Delhi-2"
    /\ Team.members after = [Scenario.memberId]
    /\ map Rack.siteName
         (racks
            (db (snd (teamcontroller.updateTeam Scenario.leader
                        Scenario.delhiId Cases.rename Scenario.world))))
       = ["Delhi-1"].
Proof.
  destruct
    (updateTeam_merges Scenario.world _ Scenario.leader Scenario.delhiId
       Cases.rename _ eq_refl eq_refl)
    as (before & after & Hb & _ & Ha & _ & _ & Hs & _ & _ & _ & _ & _ & _
        & _ & _ & _ & _ & Hm & _ & Hr).
  exists after. split; [assumption|]. split; [|split].
  - apply Hs; [reflexivity | discriminate].
  - rewrite (Hm eq_refl). injection Hb as <-. reflexivity.
  - reflexivity.
Defined.

Lemma deleteTeam_run :
  forall (w w' : World) (user : User.doc) (id : string) (r : Response),
    teamcontroller.deleteTeam user id w = (Ret r, w') ->
    (status r <> 200 /\ db w' = db w)
    \/ exists team,
         team_by_id (db w) id = Some team
         /\ teamcontroller.isTeamLeaderOrAdmin user team = true
         /\ db w' = set_teams (remove_team id) (db w)
         /\ status r = 200.
Proof.
  intros w w' user id r Hrun.
  unfold teamcontroller.deleteTeam in Hrun. unfold_team.
  destruct (isValidObjectId id) eqn:Hid; [|refused Hrun].
  next_roundtrip; [|refused Hrun].
  destruct (find (fun t => Team._id t =? id) (teams (db w)))
    as [team|] eqn:Hteam; [|refused Hrun].
  cbn in Hrun.
  destruct (teamcontroller.isTeamLeaderOrAdmin user team) eqn:Hauth;
    cbn in Hrun; [|refused Hrun].
  pose proof (find_team_id _ _ _ Hteam) as Hsame.
  next_roundtrip; [|refused Hrun].
  inversion Hrun; subst r w'. right. exists team. rewrite Hsame.
  repeat split; auto.
Qed.

Lemma find_remove_team_same (id : ObjectId) (l : list Team.doc) :
  NoDup (map Team._id l) ->
  find (fun t => Team._id t =? id) (remove_team id l) = None.
Proof.
  induction l as [|x l IH]; simpl; [reflexivity|].
  intros Hnd. inversion Hnd as [|? ? Hx Hl]; subst.
  destruct (Team._id x =? id) eqn:E; simpl.
  - apply String.eqb_eq in E. subst id.
    destruct (find (fun t => Team._id t =? Team._id x) l) as [y|] eqn:Hy;
      [|reflexivity].
    exfalso. apply Hx. apply find_some in Hy. destruct Hy as (Hy & Hid).
    apply String.eqb_eq in Hid. rewrite <- Hid. now apply in_map.
  - rewrite E. now apply IH.
Qed.

Lemma find_remove_team_other (id id' : ObjectId) (l : list Team.doc) :
  id' <> id ->
  find (fun t => Team._id t =? id') (remove_team id l)
  = find (fun t => Team._id t =? id') l.
Proof.
  intros Hne. induction l as [|x l IH]; simpl; [reflexivity|].
  destruct (Team._id x =? id) eqn:E; simpl.
  - apply String.eqb_eq in E. rewrite E.
    assert (Hd : (id =? id') = false)
      by (apply String.eqb_neq; congruence).
    now rewrite Hd.
  - destruct (Team._id x =? id'); [reflexivity | exact IH].
Qed.

(** A rack whose team reference dangles is written by an admin only. *)
Lemma rack_writes_dangling :
  forall (w : World) (user : User.doc) (rackId : string) (rack : Rack.doc)
         (body : Rack.body),
    healthy w ->
    isValidObjectId rackId = true ->
    rack_by_id (db w) rackId = Some rack ->
    team_by_id (db w) (Rack.team rack) = None ->
    User.role user <> "admin" ->
    (exists w',
        rackcontroller.updateRack user rackId body w =
        (Ret (fail 403 "Not authorized to update this rack."), w')
        /\ db w' = db w)
    /\ (exists w',
           rackcontroller.deleteRack user rackId w =
           (Ret (fail 403 "Not authorized to delete this rack."), w')
           /\ db w' = db w).
Proof.
  intros w user rackId rack body Hw Hid Hrack Hteam Hrole.
  apply String.eqb_neq in Hrole. unfold rack_by_id, team_by_id in *.
  split.
  - unfold rackcontroller.updateRack. rewrite Hid. unfold_rack. cbn.
    ok_roundtrip. rewrite Hrack. cbn. ok_roundtrip. rewrite Hteam, Hrole.
    cbn. eexists. split; reflexivity.
  - unfold rackcontroller.deleteRack. rewrite Hid. unfold_rack. cbn.
    ok_roundtrip. rewrite Hrack. cbn. ok_roundtrip. rewrite Hteam, Hrole.
    cbn. eexists. split; reflexivity.
Qed.

(** X19.  A team deletion answered 200 comes from an admin or the
    team's leader and removes the team only: the other teams and every
    rack stay, the racks of the team included.  When team ids are
    unique the id no longer resolves, and from then on every update
    and every delete of a rack that refers to it is refused with 403
    to every principal who is not admin, the former leader included,
    and changes nothing. *)
Theorem deleteTeam_orphans_racks :
  forall (w w' : World) (user : User.doc) (id : string) (r : Response),
    teamcontroller.deleteTeam user id w = (Ret r, w') ->
    status r = 200 ->
    (exists team,
        team_by_id (db w) id = Some team
        /\ teamcontroller.isTeamLeaderOrAdmin user team = true)
    /\ racks (db w') = racks (db w)
    /\ (forall id', id' <> id ->
                    team_by_id (db w') id' = team_by_id (db w) id')
    /\ (NoDup (map Team._id (teams (db w))) ->
        team_by_id (db w') id = None
        /\ forall (other : User.doc) (rackId : string) (rack : Rack.doc)
                  (body : Rack.body),
             healthy w' ->
             isValidObjectId rackId = true ->
             rack_by_id (db w) rackId = Some rack ->
             Rack.team rack = id ->
             User.role other <> "admin" ->
             (exists w'',
                 rackcontroller.updateRack other rackId body w' =
                 (Ret (fail 403 "Not authorized to update this rack."), w'')
                 /\ db w'' = db w')
             /\ (exists w'',
                    rackcontroller.deleteRack other rackId w' =
                    (Ret (fail 403 "Not authorized to delete this rack."),
                     w'')
                    /\ db w'' = db w')).
Proof.
  intros w w' user id r Hrun Hst.
  destruct (deleteTeam_run _ _ _ _ _ Hrun)
    as [(Hno & _) | (team & Hteam & Hauth & Hdb & _)]; [contradiction|].
  split; [now exists team|]. rewrite Hdb. unfold team_by_id. cbn.
  split; [reflexivity|]. split.
  - intros id' Hne. now apply find_remove_team_other.
  - intros Hnd. split; [now apply find_remove_team_same|].
    intros other rackId rack body Hw' Hid Hrack Hof Hrole.
    rewrite <- Hdb.
    apply rack_writes_dangling with (rack := rack); auto.
    + rewrite Hdb. exact Hrack.
    + rewrite Hdb, Hof. unfold team_by_id. cbn.
      now apply find_remove_team_same.
Qed.

Lemma deleteTeam_orphans_racks_run :
  let orphaned :=
    snd (teamcontroller.deleteTeam Scenario.leader Scenario.delhiId
           Scenario.world) in
  option_map status
    (answer (rackcontroller.updateRack Scenario.leader Scenario.rackId
               Cases.noUpdate Scenario.world)) = Some 200
  /\ (exists w'',
         rackcontroller.updateRack Scenario.leader Scenario.rackId
           Cases.noUpdate orphaned =
         (Ret (fail 403 "Not authorized to update this rack."), w'')
         /\ db w'' = db orphaned)
  /\ (exists w'',
         rackcontroller.deleteRack Scenario.leader Scenario.rackId orphaned =
         (Ret (fail 403 "Not authorized to delete this rack."), w'')
         /\ db w'' = db orphaned).
Proof.
  split; [reflexivity|].
  destruct
    (deleteTeam_orphans_racks Scenario.world _ Scenario.leader
       Scenario.delhiId _ eq_refl eq_refl)
    as (_ & _ & _ & Horphan).
  destruct Horphan as (_ & Hlocked).
  - cbn. repeat constructor; cbn; intuition discriminate.
  - apply Hlocked with (rack := Scenario.rack); try reflexivity.
    + intros b [].
    + discriminate.
Defined.

(** ** Teams: the lists *)

Lemma pt_team_populate (d : Db) (l : list Team.doc) :
  map pt_team (map (populate d) l) = l.
Proof.
  rewrite map_map. cbn. apply map_id.
Qed.

(** X20.  The list of a member's teams is given to the member itself,
    to an admin and to every team_leader, whether or not they lead any
    of these teams, and refused with 403 to anyone else before the
    store is asked.  It holds exactly the Active teams that list the id
    among their members, in store order: a team whose status is not
    Active is never shown. *)
Theorem getTeamsForMember_lists_active_teams :
  forall (w : World) (user : User.doc) (memberId : string),
    (User._id user <> memberId ->
     User.role user <> "admin" ->
     User.role user <> "team_leader" ->
     teamcontroller.getTeamsForMember user memberId w =
     (Ret (fail_list 403 "Not authorized to view these teams for another user."),
      w))
    /\ (User._id user = memberId \/ User.role user = "admin"
        \/ User.role user = "team_leader" ->
        healthy w ->
        isValidObjectId memberId = true ->
        exists items w',
          teamcontroller.getTeamsForMember user memberId w =
          (Ret (ok_list items), w')
          /\ db w' = db w
          /\ map pt_team items
             = filter
                 (fun t =>
                    existsb (fun m => m =? memberId) (Team.members t)
                    && (Team.status t =? "Active"))
                 (teams (db w))
          /\ forall t,
               In t (map pt_team items)
               <-> In t (teams (db w))
                   /\ In memberId (Team.members t)
                   /\ Team.status t = "Active").
Proof.
  intros w user memberId. unfold teamcontroller.getTeamsForMember. split.
  - intros Hself Hadmin Hlead.
    apply String.eqb_neq in Hself, Hadmin, Hlead.
    now rewrite Hself, Hadmin, Hlead.
  - intros Hmay Hw Hid.
    assert (Hpass :
              negb (User._id user =? memberId)
              && negb (User.role user =? "admin")
              && negb (User.role user =? "team_leader") = false).
    { destruct Hmay as [H | [H | H]]; apply String.eqb_eq in H; rewrite H;
        cbn; now rewrite ?andb_false_r. }
    rewrite Hpass. unfold_team. rewrite Hid.
    ok_roundtrip. ok_roundtrip. ok_roundtrip.
    eexists. eexists. split; [reflexivity|]. split; [reflexivity|].
    cbn [ok_list ls_items]. rewrite pt_team_populate.
    split; [reflexivity|].
    intros t. rewrite filter_In, andb_true_iff, member_In, String.eqb_eq.
    tauto.
Qed.

Lemma getTeamsForMember_lists_active_teams_run :
  exists items w',
    teamcontroller.getTeamsForMember Scenario.leader Scenario.memberId
      Scenario.world = (Ret (ok_list items), w')
    /\ map pt_team items = [Scenario.delhi].
Proof.
  destruct
    (proj2 (getTeamsForMember_lists_active_teams Scenario.world
              Scenario.leader Scenario.memberId)
       (or_intror (or_intror eq_refl))
       (fun b (H : In b []) => match H with end) eq_refl)
    as (items & w' & Hrun & _ & Hitems & _).
  exists items, w'. split; [assumption|]. rewrite Hitems. reflexivity.
Defined.

(** X21.  The list of the teams a user leads is given to an admin and
    to that user only; anyone else is refused with 403 before the store
    is asked.  It holds exactly the teams whose [teamLeader] is the id,
    whatever their status. *)
Theorem getTeamsByLeaderId_lists_led_teams :
  forall (w : World) (user : User.doc) (leaderId : string),
    (User.role user <> "admin" ->
     User._id user <> leaderId ->
     teamcontroller.getTeamsByLeaderId user leaderId w =
     (Ret (fail_list 403 "Not authorized to view teams for this leader ID."),
      w))
    /\ (User.role user = "admin" \/ User._id user = leaderId ->
        healthy w ->
        isValidObjectId leaderId = true ->
        exists items w',
          teamcontroller.getTeamsByLeaderId user leaderId w =
          (Ret (ok_list items), w')
          /\ db w' = db w
          /\ forall t,
               In t (map pt_team items)
               <-> In t (teams (db w))
                   /\ Team.teamLeader t = Some leaderId).
Proof.
  intros w user leaderId. unfold teamcontroller.getTeamsByLeaderId. split.
  - intros Hadmin Hself. apply String.eqb_neq in Hself, Hadmin.
    now rewrite Hself, Hadmin.
  - intros Hmay Hw Hid.
    assert (Hpass :
              negb (User.role user =? "admin")
              && negb (User._id user =? leaderId) = false).
    { destruct Hmay as [H | H]; apply String.eqb_eq in H; rewrite H;
        cbn; now rewrite ?andb_false_r. }
    rewrite Hpass. unfold_team. rewrite Hid.
    ok_roundtrip. ok_roundtrip. ok_roundtrip.
    eexists. eexists. split; [reflexivity|]. split; [reflexivity|].
    cbn [ok_list ls_items]. rewrite pt_team_populate.
    intros t. rewrite filter_In, opt_eqb_true. tauto.
Qed.

Lemma getTeamsByLeaderId_lists_led_teams_run :
  teamcontroller.getTeamsByLeaderId Scenario.member Scenario.leaderId
    Scenario.world =
  (Ret (fail_list 403 "Not authorized to view teams for this leader ID."),
   Scenario.world)
  /\ exists items w',
       teamcontroller.getTeamsByLeaderId Scenario.leader Scenario.leaderId
         Scenario.world = (Ret (ok_list items), w')
       /\ In Scenario.delhi (map pt_team items).
Proof.
  split.
  - apply (getTeamsByLeaderId_lists_led_teams Scenario.world Scenario.member
             Scenario.leaderId); discriminate.
  - destruct
      (proj2 (getTeamsByLeaderId_lists_led_teams Scenario.world
                Scenario.leader Scenario.leaderId)
         (or_intror eq_refl)
         (fun b (H : In b []) => match H with end) eq_refl)
      as (items & w' & Hrun & _ & Hitems).
    exists items, w'. split; [assumption|]. apply Hitems.
    split; [now left | reflexivity].
Defined.

(** ** Master descriptions: further properties *)

(** X22.  Whatever the entries and whatever the store does, the
    transactional upload ends with its session released and no
    transaction open, and it has either answered 201 with the ledger
    entry, the rows and the record count all in place, or left the
    collections exactly as they were; an empty entry list is the case
    answered 400. *)
Theorem uploadMasterDescriptions_all_or_nothing :
  forall (w w' : World) (newId : ObjectId) (now : Z)
         (user : option User.doc) (entries : list Entry) (filename : string)
         (out : Outcome Response),
    quiescent w ->
    master_controller.uploadMasterDescriptions newId now user entries
      filename w = (out, w') ->
    sessions w' = sessions w
    /\ txn w' = None
    /\ ((exists r, out = Ret r /\ status r = 201 /\ entries <> []
                   /\ db w' = uploaded newId now user entries filename (db w))
        \/ (db w' = db w
            /\ forall r, out = Ret r ->
                         (status r = 400 /\ entries = [])
                         \/ (status r = 500 /\ entries <> []))).
Proof.
  intros w w' newId now user entries filename out Hq Hrun.
  destruct entries as [|e es].
  - destruct w as [d t n fs]. unfold quiescent in Hq. cbn in Hq. subst t.
    unfold master_controller.uploadMasterDescriptions in Hrun.
    unfold_session.
    next_roundtrip; inversion Hrun; subst; cbn; repeat split; right;
      (split; [reflexivity|]); intros r [= <-]; left; split; reflexivity.
  - assert (Hne : e :: es <> []) by discriminate.
    destruct (uploadMasterDescriptions_atomic _ _ _ _ _ _ _ _ Hq Hne Hrun)
      as (Hs & Ht & [(r & -> & Hst & _ & Hdb) | (Hfail & Hdb)]).
    + repeat split; auto. left. exists r. repeat split; auto.
    + repeat split; auto. right. split; [assumption|].
      intros r Hr. right. split; [now apply Hfail | assumption].
Qed.

Lemma uploadMasterDescriptions_all_or_nothing_run :
  sessions
    (snd (master_controller.uploadMasterDescriptions Scenario.freshId 400
            (Some Scenario.admin) Scenario.batch "batch1"
            (Scenario.failing 2))) = 0
  /\ txn
       (snd (master_controller.uploadMasterDescriptions Scenario.freshId 400
               (Some Scenario.admin) Scenario.batch "batch1"
               (Scenario.failing 2))) = None.
Proof.
  destruct
    (uploadMasterDescriptions_all_or_nothing (Scenario.failing 2) _
       Scenario.freshId 400%Z (Some Scenario.admin) Scenario.batch "batch1"
       _ eq_refl eq_refl)
    as (Hs & Ht & _).
  split; assumption.
Defined.

(** X23.  After an upload of N entries answered 201 under a fresh id,
    the ledger entry of that id carries the file name and the numbers N
    as [totalReceived] and [recordCount]; the catalog has grown by N
    rows, in the order of the entries, each tagged with the id and the
    file name of the batch and each with a numeric [ndp] and [mrp],
    zero where the entry gave no number. *)
Theorem upload_tags_rows :
  forall (w w' : World) (newId : ObjectId) (now : Z)
         (user : option User.doc) (entries : list Entry) (filename : string)
         (r : Response),
    quiescent w ->
    (forall m, In m (uploadmetadatas (db w)) ->
               UploadMetadata._id m <> newId) ->
    master_controller.uploadMasterDescriptions newId now user entries
      filename w = (Ret r, w') ->
    status r = 201 ->
    exists meta rows,
      find (fun m => UploadMetadata._id m =? newId) (uploadmetadatas (db w'))
      = Some meta
      /\ UploadMetadata.filename meta = filename
      /\ UploadMetadata.recordCount meta = Some (List.length entries)
      /\ UploadMetadata.totalReceived meta = Some (List.length entries)
      /\ masterdescriptions (db w') = masterdescriptions (db w) ++ rows
      /\ map MasterDescription.partNo rows = map e_partNo entries
      /\ map MasterDescription.ndp rows
         = map (fun e => Some (or_else (e_ndp e) 0%Z)) entries
      /\ map MasterDescription.mrp rows
         = map (fun e => Some (or_else (e_mrp e) 0%Z)) entries
      /\ Forall
           (fun row =>
              MasterDescription.fileId row = Some newId
              /\ MasterDescription.uploadBatch row = Some filename)
           rows.
Proof.
  intros w w' newId now user entries filename r Hq Hfresh Hrun Hst.
  assert (Hne : entries <> []).
  { intros ->. destruct w as [d t n fs].
    unfold master_controller.uploadMasterDescriptions in Hrun.
    unfold_session. next_roundtrip; done_run Hrun. }
  destruct (uploadMasterDescriptions_atomic _ _ _ _ _ _ _ _ Hq Hne Hrun)
    as (_ & _ & [(r' & [= <-] & _ & _ & Hdb) | (Hfail & _)]);
    [|specialize (Hfail r eq_refl); congruence].
  exists (UploadMetadata.set_recordCount
            (List.length (master_controller.docs_of entries filename newId))
            (master_controller.new_meta newId now user filename entries)),
    (master_controller.docs_of entries filename newId).
  rewrite Hdb. unfold uploaded. cbn.
  rewrite (stamp_fresh newId _
             (master_controller.new_meta newId now user filename entries)
             Hfresh eq_refl).
  rewrite (find_fresh newId _
             (UploadMetadata.set_recordCount
                (List.length
                   (master_controller.docs_of entries filename newId))
                (master_controller.new_meta newId now user filename entries))
             Hfresh eq_refl).
  unfold master_controller.docs_of. rewrite !map_map, length_map. cbn.
  repeat split.
  apply Forall_forall. intros row Hrow. apply in_map_iff in Hrow.
  destruct Hrow as (e & <- & _). split; reflexivity.
Qed.

Lemma upload_tags_rows_run :
  exists rows,
    masterdescriptions
      (db (snd (master_controller.uploadMasterDescriptions Scenario.freshId
                  400 (Some Scenario.admin) Scenario.batch "batch1"
                  Scenario.world))) = rows
    /\ map MasterDescription.mrp rows = [Some 0%Z; Some 0%Z; Some 0%Z]
    /\ map MasterDescription.ndp rows = [Some 10%Z; Some 10%Z; Some 10%Z].
Proof.
  destruct
    (upload_tags_rows Scenario.world _ Scenario.freshId 400%Z
       (Some Scenario.admin) Scenario.batch "batch1" _ eq_refl
       (fun m (H : In m []) => match H with end) eq_refl eq_refl)
    as (meta & rows & _ & _ & _ & _ & Hrows & _ & Hndp & Hmrp & _).
  exists rows. split; [exact Hrows|]. split; assumption.
Defined.

(** X24.  Whatever the id and whatever the store does, the deletion of
    an uploaded file ends with its session released and no transaction
    open, and it has either answered 200 after removing the ledger
    entry together with every row its linkage query matches, and
    nothing else, or left the collections exactly as they were, with an
    answer among 400, 404 and 500. *)
Theorem deleteUploadedFile_all_or_nothing :
  forall (w w' : World) (id : string) (out : Outcome Response),
    quiescent w ->
    master_controller.deleteUploadedFile id w = (out, w') ->
    sessions w' = sessions w
    /\ txn w' = None
    /\ ((exists r meta,
            out = Ret r /\ status r = 200
            /\ find (fun m => UploadMetadata._id m =? id)
                 (uploadmetadatas (db w)) = Some meta
            /\ payload r
               = Deleted (master_controller.countDocuments meta (db w))
            /\ masterdescriptions (db w')
               = filter (fun m => negb (master_controller.linked meta m))
                   (masterdescriptions (db w))
            /\ uploadmetadatas (db w')
               = master_controller.remove_meta id (uploadmetadatas (db w))
            /\ racks (db w') = racks (db w)
            /\ teams (db w') = teams (db w))
        \/ (db w' = db w
            /\ forall r, out = Ret r ->
                         status r = 400 \/ status r = 404 \/ status r = 500)).
Proof.
  intros w w' id out Hq Hrun.
  destruct w as [d t n fs]. unfold quiescent in Hq. cbn in Hq. subst t.
  unfold master_controller.deleteUploadedFile in Hrun. unfold_session.
  next_roundtrip;
    [|inversion Hrun; subst; cbn; repeat split; right;
      split; [reflexivity | intros r H; discriminate H]].
  destruct (isValidObjectId id); cbn in Hrun;
    [|inversion Hrun; subst; cbn; repeat split; right;
      split; [reflexivity | intros r [= <-]; auto]].
  next_roundtrip;
    [|inversion Hrun; subst; cbn; repeat split; right;
      split; [reflexivity | intros r [= <-]; auto]].
  destruct (find (fun m => UploadMetadata._id m =? id) (uploadmetadatas d))
    as [meta|] eqn:Hmeta; cbn in Hrun;
    [|inversion Hrun; subst; cbn; repeat split; right;
      split; [reflexivity | intros r [= <-]; auto]].
  repeat (next_roundtrip;
          [|inversion Hrun; subst; cbn; repeat split; right;
            split; [reflexivity | intros r [= <-]; auto]]).
  inversion Hrun; subst; cbn. repeat split. left.
  eexists. exists meta. repeat split. exact Hmeta.
Qed.

Lemma deleteUploadedFile_all_or_nothing_run :
  db (snd (master_controller.deleteUploadedFile Scenario.freshId
             (Cases.uploadedThenFailing 3))) =
  db (Cases.uploadedThenFailing 3)
  /\ sessions
       (snd (master_controller.deleteUploadedFile Scenario.freshId
               (Cases.uploadedThenFailing 3))) = 0.
Proof.
  destruct
    (deleteUploadedFile_all_or_nothing (Cases.uploadedThenFailing 3) _
       Scenario.freshId _ eq_refl eq_refl)
    as (Hs & _ & [(r & meta & Hout & Hst & _) | (Hdb & _)]).
  - injection Hout as <-. discriminate Hst.
  - split; assumption.
Defined.

(** X25.  The list of uploaded files, in either controller, never
    changes the store; when the store answers it is given with status
    200 and holds every ledger entry exactly once, newest upload
    first; when the store fails the answer is 500 with no entry. *)
Theorem getUploadedFiles_newest_first :
  forall (w w' : World) (out : Outcome (ListResponse UploadMetadata.doc)),
    (master_controller.getUploadedFiles w = (out, w')
     \/ uploadcontroller.getUploadedFiles w = (out, w')) ->
    exists resp,
      out = Ret resp
      /\ db w' = db w
      /\ (ls_status resp = 200 \/ ls_status resp = 500)
      /\ (healthy w -> ls_status resp = 200)
      /\ (ls_status resp = 200 ->
          Permutation (ls_items resp) (uploadmetadatas (db w))
          /\ descending UploadMetadata.uploadDate (ls_items resp))
      /\ (ls_status resp = 500 -> ls_items resp = []).
Proof.
  intros w w' out Hrun.
  unfold master_controller.getUploadedFiles,
    uploadcontroller.getUploadedFiles in Hrun.
  unfold_session.
  destruct (roundtrip_cases w) as [E | E]; rewrite E in Hrun; cbn in Hrun.
  - destruct Hrun as [Hrun | Hrun]; inversion Hrun; subst; cbn;
      (eexists; split; [reflexivity|]); cbn; repeat split; auto;
      try discriminate;
      first [apply sort_desc_by_perm | apply sort_desc_by_sorted].
  - assert (Hsick : ~ healthy w).
    { intros Hw. rewrite (roundtrip_healthy w Hw) in E. discriminate. }
    destruct Hrun as [Hrun | Hrun]; inversion Hrun; subst; cbn;
      (eexists; split; [reflexivity|]); cbn; repeat split; auto;
      try discriminate; try contradiction.
Qed.

Lemma getUploadedFiles_newest_first_run :
  exists resp w',
    master_controller.getUploadedFiles Cases.twoUploads = (Ret resp, w')
    /\ ls_status resp = 200
    /\ map UploadMetadata.uploadDate (ls_items resp) = [500%Z; 400%Z].
Proof.
  destruct
    (getUploadedFiles_newest_first Cases.twoUploads _ _
       (or_introl eq_refl))
    as (resp & [= <-] & _).
  do 2 eexists. split; [reflexivity|]. split; reflexivity.
Defined.

(** ** Export snapshots: further properties *)

Lemma createExportedSnapshots_run :
  forall (w w' : World) (now : Z) (user : User.doc)
         (snapshots : list SnapshotItem.t) (teamId siteName : option string)
         (r : Response),
    exportedrackcontroller.createExportedSnapshots now user snapshots
      teamId siteName w = (Ret r, w') ->
    (status r <> 201 /\ db w' = db w)
    \/ exists t s team saved,
         teamId = Some t /\ siteName = Some s
         /\ team_by_id (db w) t = Some team
         /\ (User.role user = "admin"
             \/ (User.role user = "team_leader"
                 /\ Team.teamLeader team = Some (User._id user)))
         /\ exportedrackcontroller.cast_all now
              (exportedrackcontroller.snapshotsToSave snapshots t s
                 (User._id user)) = Some saved
         /\ db w' = set_exportedracks (fun c => c ++ saved) (db w)
         /\ status r = 201.
Proof.
  intros w w' now user snapshots teamId siteName r Hrun.
  unfold exportedrackcontroller.createExportedSnapshots,
    exportedrackcontroller.insertMany in Hrun.
  unfold_handler.
  destruct (List.length snapshots =? 0)%nat; [refused Hrun|].
  destruct teamId as [t|]; [|refused Hrun].
  destruct siteName as [s|]; [|refused Hrun].
  destruct ((t =? "") || (s =? "")); [refused Hrun|].
  destruct (isValidObjectId t); [|refused Hrun].
  next_roundtrip; [|refused Hrun].
  destruct (find (fun x => Team._id x =? t) (teams (db w)))
    as [team|] eqn:Hteam; [|refused Hrun].
  cbn in Hrun.
  match type of Hrun with
  | context [negb ?c] => destruct c eqn:Hauth
  end; cbn in Hrun; [|refused Hrun].
  destruct (exportedrackcontroller.cast_all now
              (exportedrackcontroller.snapshotsToSave snapshots t s
                 (User._id user))) as [saved|] eqn:Hcast;
    [|refused Hrun].
  next_roundtrip; [|refused Hrun].
  inversion Hrun; subst r w'; clear Hrun. right.
  exists t, s, team, saved. repeat split; auto.
  apply orb_true_iff in Hauth. destruct Hauth as [Hadmin | Hlead].
  - left. now apply String.eqb_eq.
  - right. apply andb_true_iff in Hlead. destruct Hlead as (Hrole & Hl).
    split; [now apply String.eqb_eq | now apply opt_eqb_true].
Qed.

Lemma min0_nonneg (v : option Z) :
  ExportedRack.min0 v = true -> forall z, v = Some z -> (0 <= z)%Z.
Proof.
  intros H z ->. cbn in H. now apply Z.leb_le.
Qed.

(** A row that the schema accepts comes from an acceptable line item. *)
Lemma cast_item_valid (now : Z) (item : SnapshotItem.t) (t s : string)
    (uid : ObjectId) (rows : list SnapshotToSave.t)
    (saved : list ExportedRack.doc) :
  exportedrackcontroller.cast_all now
    (exportedrackcontroller.snapshotsToSave (item :: nil) t s uid ++ rows)
  = Some saved ->
  item_valid item.
Proof.
  cbn. unfold ExportedRack.cast. cbn.
  destruct (SnapshotItem.sNo item) as [sNo|] eqn:E1; [|discriminate].
  destruct (SnapshotItem.location item) as [location|] eqn:E2; [|discriminate].
  destruct (SnapshotItem.rackNo item) as [rackNo|] eqn:E3; [|discriminate].
  destruct (SnapshotItem.partNo item) as [partNo|] eqn:E4; [|discriminate].
  destruct (SnapshotItem.nextQty item) as [nextQty|] eqn:E5; [|discriminate].
  match goal with
  | |- context [if ?c then _ else _] => destruct c eqn:Hok
  end; [|discriminate].
  intros _. rewrite !andb_true_iff in Hok.
  destruct Hok as (((((((H1 & H2) & H3) & _) & H5) & H6) & H7) & _).
  exists sNo, location, rackNo, partNo, nextQty.
  apply negb_true_iff in H1, H2, H3.
  apply String.eqb_neq in H1, H2, H3. apply Z.leb_le in H5.
  split; [exact E1|]. split; [exact E2|]. split; [exact H1|].
  split; [exact E3|]. split; [exact H2|].
  split; [exact E4|]. split; [exact H3|].
  split; [exact E5|]. split; [exact H5|].
  split; now apply min0_nonneg.
Qed.

Lemma cast_all_items_valid (now : Z) (snapshots : list SnapshotItem.t)
    (t s : string) (uid : ObjectId) (saved : list ExportedRack.doc) :
  exportedrackcontroller.cast_all now
    (exportedrackcontroller.snapshotsToSave snapshots t s uid) = Some saved ->
  Forall item_valid snapshots /\ List.length saved = List.length snapshots.
Proof.
  revert saved. induction snapshots as [|item l IH]; intros saved Hcast.
  - cbn in Hcast. injection Hcast as <-. split; constructor.
  - pose proof (cast_item_valid now item t s uid
                  (exportedrackcontroller.snapshotsToSave l t s uid) saved
                  Hcast) as Hitem.
    unfold exportedrackcontroller.snapshotsToSave in *.
    cbn [map exportedrackcontroller.cast_all] in Hcast.
    destruct (ExportedRack.cast now _) as [stored|]; [|discriminate].
    destruct (exportedrackcontroller.cast_all now (map _ l))
      as [ds|] eqn:Hrest; [|discriminate].
    injection Hcast as <-. destruct (IH ds eq_refl) as (Hall & Hlen).
    split; [now constructor | cbn; now rewrite Hlen].
Qed.

(** X26.  A bulk export is stored as a whole or not at all as far as
    validation goes: an answer 201 means that the principal is admin or
    the team_leader recorded on the team, that every line item passed
    the schema (required fields present, strings not blank, no negative
    number), and that the collection grew by one document per line
    item while racks and teams stayed as they were; with any other
    answer, such as the 500 caused by a single bad line item, nothing
    was stored. *)
Theorem createExportedSnapshots_whole_batch :
  forall (w w' : World) (now : Z) (user : User.doc)
         (snapshots : list SnapshotItem.t) (teamId siteName : option string)
         (r : Response),
    exportedrackcontroller.createExportedSnapshots now user snapshots
      teamId siteName w = (Ret r, w') ->
    (status r <> 201 -> db w' = db w)
    /\ (status r = 201 ->
        (exists t team,
            teamId = Some t
            /\ team_by_id (db w) t = Some team
            /\ (User.role user = "admin"
                \/ (User.role user = "team_leader"
                    /\ Team.teamLeader team = Some (User._id user))))
        /\ Forall item_valid snapshots
        /\ snapshots <> []
        /\ List.length (exportedracks (db w'))
           = List.length (exportedracks (db w)) + List.length snapshots
        /\ payload r = SnapshotCount (List.length snapshots)
        /\ racks (db w') = racks (db w)
        /\ teams (db w') = teams (db w)).
Proof.
  intros w w' now user snapshots teamId siteName r Hrun.
  assert (Hnonempty : status r = 201 -> snapshots <> []).
  { intros Hst ->.
    unfold exportedrackcontroller.createExportedSnapshots in Hrun.
    cbn in Hrun. done_run Hrun. }
  assert (Hpayload :
            status r = 201 ->
            exists saved,
              exportedrackcontroller.cast_all now
                (exportedrackcontroller.snapshotsToSave snapshots
                   (or_else teamId "") (or_else siteName "") (User._id user))
              = Some saved
              /\ payload r = SnapshotCount (List.length saved)).
  { intros Hst.
    unfold exportedrackcontroller.createExportedSnapshots,
      exportedrackcontroller.insertMany in Hrun.
    unfold_handler.
    destruct (List.length snapshots =? 0)%nat; [done_run Hrun|].
    destruct teamId as [t|]; [|done_run Hrun].
    destruct siteName as [s|]; [|done_run Hrun].
    destruct ((t =? "") || (s =? "")); [done_run Hrun|].
    destruct (isValidObjectId t); [|done_run Hrun].
    next_roundtrip; [|done_run Hrun].
    destruct (find (fun x => Team._id x =? t) (teams (db w)));
      [|done_run Hrun].
    cbn in Hrun.
    match type of Hrun with
    | context [negb ?c] => destruct c
    end; cbn in Hrun; [|done_run Hrun].
    cbn. destruct (exportedrackcontroller.cast_all now _) as [saved|];
      [|done_run Hrun].
    next_roundtrip; [|done_run Hrun].
    inversion Hrun; subst. exists saved. split; reflexivity. }
  destruct (createExportedSnapshots_run _ _ _ _ _ _ _ _ Hrun)
    as [(Hst & Hdb) |
        (t & s & team & saved & -> & -> & Hteam & Hauth & Hcast & Hdb & Hst)].
  - split; [auto | intros H; contradiction].
  - split; [intros H; contradiction|]. intros _.
    destruct (cast_all_items_valid _ _ _ _ _ _ Hcast) as (Hall & Hlen).
    destruct (Hpayload Hst) as (saved' & Hcast' & Hp).
    cbn in Hcast'. rewrite Hcast in Hcast'. injection Hcast' as <-.
    rewrite Hdb. cbn. rewrite length_app, Hp, Hlen.
    repeat split; auto. exists t, team. auto.
Qed.

Lemma createExportedSnapshots_whole_batch_run :
  db (snd (exportedrackcontroller.createExportedSnapshots 300
             Scenario.leader [Scenario.lineItem; Cases.badItem]
             (Some Scenario.delhiId) (Some "Delhi-1") Scenario.world))
  = db Scenario.world.
Proof.
  apply (createExportedSnapshots_whole_batch Scenario.world _ 300%Z
           Scenario.leader [Scenario.lineItem; Cases.badItem]
           (Some Scenario.delhiId) (Some "Delhi-1") _ eq_refl).
  discriminate.
Defined.

(** ** The middleware chain [protect, authorize(roles)] *)

(** X27.  Whatever handler a route mounts behind [protect] and
    [authorize(roles)], it runs only for a verified token whose id is a
    well-formed ObjectId of an existing user with one of the listed
    roles, and then on the database as it was; in every other case the
    chain itself answers 401 or 403 without touching the database, and
    403 only for an existing user whose role is not listed. *)
Theorem protect_authorize_guards_handler :
  forall (roles : list string) (c : authMiddleware.Credential)
         (next : User.doc -> M Response) (w w' : World)
         (out : Outcome Response),
    authMiddleware.protect c
      (fun user => authMiddleware.authorize roles user next) w = (out, w') ->
    (exists id u,
        c = authMiddleware.Token id
        /\ isValidObjectId id = true
        /\ user_by_id (db w) id = Some u
        /\ In (User.role u) roles
        /\ db (served w) = db w
        /\ next u (served w) = (out, w'))
    \/ (exists r,
           out = Ret r
           /\ (status r = 401 \/ status r = 403)
           /\ db w' = db w
           /\ (status r = 403 ->
               exists id u,
                 c = authMiddleware.Token id
                 /\ user_by_id (db w) id = Some u
                 /\ ~ In (User.role u) roles)).
Proof.
  intros roles c next w w' out Hrun.
  unfold authMiddleware.protect, authMiddleware.authorize,
    authMiddleware.unauthorized in Hrun.
  destruct c as [| |id].
  - inversion Hrun; subst. right. eexists. split; [reflexivity|].
    cbn. repeat split; auto. discriminate.
  - inversion Hrun; subst. right. eexists. split; [reflexivity|].
    cbn. repeat split; auto. discriminate.
  - unfold_handler.
    destruct (isValidObjectId id) eqn:Hid.
    + next_roundtrip.
      * unfold user_by_id.
        destruct (find (fun u => User._id u =? id) (users (db w)))
          as [u|] eqn:Hu.
        -- destruct (existsb (String.eqb (User.role u)) roles) eqn:Hrole;
             cbn in Hrun.
           ++ left. exists id, u. repeat split; auto.
              apply existsb_exists in Hrole.
              destruct Hrole as (x & Hin & Hx).
              apply String.eqb_eq in Hx. now subst x.
           ++ inversion Hrun; subst. right. eexists.
              split; [reflexivity|]. cbn. repeat split; auto.
              intros _. exists id, u. repeat split; auto.
              intros Hin.
              assert (Hex : existsb (String.eqb (User.role u)) roles = true).
              { apply existsb_exists. exists (User.role u).
                split; [exact Hin | apply String.eqb_refl]. }
              congruence.
        -- inversion Hrun; subst. right. eexists.
           split; [reflexivity|]. cbn. repeat split; auto. discriminate.
      * inversion Hrun; subst. right. eexists. split; [reflexivity|].
        cbn. repeat split; auto. discriminate.
    + cbn in Hrun. inversion Hrun; subst. right. eexists.
      split; [reflexivity|]. cbn. repeat split; auto. discriminate.
Qed.

Lemma protect_authorize_guards_handler_run :
  db (snd (authMiddleware.protect (authMiddleware.Token Scenario.memberId)
             (fun user => rackRoutes.delete_id user Scenario.rackId)
             Scenario.world))
  = db Scenario.world.
Proof.
  destruct (protect_authorize_guards_handler
              ["admin"; "team_leader"]
              (authMiddleware.Token Scenario.memberId)
              (fun u => rackcontroller.deleteRack u Scenario.rackId)
              Scenario.world _ _ eq_refl)
    as [(id & u & Hc & _ & Hu & Hin & _) | (r & _ & _ & Hdb & _)].
  - injection Hc as <-. vm_compute in Hu. injection Hu as <-.
    cbn in Hin. destruct Hin as [H | [H | []]]; discriminate H.
  - exact Hdb.
Defined.
